(** * EmTechScan: image normalization and external OCR engine dispatch

    A shallow embedding of [ExternalOCREngine] from [emtechscan.py]:
    [engine_available], [_preprocess_image], [_save_temp_png] and
    [recognize].  The Python methods are written in a small state-and-exception
    monad over a world made of the file system and a log of the external calls
    performed; everything the methods obtain from outside the program (the
    search path, OpenCV, the temporary-name generator, the OCR executables) is
    read from an environment record [Env]. *)

From Stdlib Require Import PrimFloat SpecFloat FloatOps.
From Stdlib Require Strings.Byte.
From stdpp Require Import gmap strings list pretty.

Open Scope Z_scope.

(** ** Data *)

(** Python [str] values holding recognized text: sequences of code points. *)
Definition ustring := list N.

(** Names handed to the operating system (paths, argv entries) are [string]. *)
Abbreviation fs := (gmap string (list Byte.byte)).

(** A single-channel 8-bit raster as numpy holds it: rows of intensities. *)
Definition image := list (list Z).

Definition shape (img : image) : Z * Z :=
  (Z.of_nat (length img),
   match img with [] => 0 | row :: _ => Z.of_nat (length row) end).

(** The instance fields set by [__init__]. *)
Record ExternalOCREngine := {
  engine : string;
  language : string
}.

(** The record the specification calls RecognitionResult; the program itself
    declares no such class. *)
Record RecognitionResult := {
  text : ustring;
  engine_used : ExternalOCREngine
}.

(** What a call can hand back to its caller. *)
Inductive py_value :=
| VStr (s : ustring)
| VRecognitionResult (r : RecognitionResult).

(** ** Exceptions *)

Inductive exn_class :=
| FileNotFoundError | PermissionError | FileExistsError | OSError
| ValueError | UnicodeDecodeError | OtherException.

Record exn := Exn { exn_cls : exn_class; exn_msg : string }.

(** [except OSError] catches the class and its subclasses. *)
Definition is_OSError (e : exn) : bool :=
  match exn_cls e with
  | FileNotFoundError | PermissionError | FileExistsError | OSError => true
  | ValueError | UnicodeDecodeError | OtherException => false
  end.

Inductive Result (A : Type) :=
| Ok (a : A)
| Raise (e : exn).
Arguments Ok {A} a.
Arguments Raise {A} e.

(** ** External calls *)

Inductive Cv2Fn :=
| cv2_imread | cv2_GaussianBlur | cv2_threshold | cv2_minAreaRect
| cv2_getRotationMatrix2D | cv2_warpAffine | cv2_imwrite.

Inductive Event :=
| Cv2Call (f : Cv2Fn)
| Mkstemp (p : string)
| SubprocessRun (argv : list string)
| OpenRead (p : string)
| OsRemove (p : string).

Record World := {
  files : fs;
  trace : list Event
}.

Definition log (e : Event) (w : World) : World :=
  {| files := files w; trace := trace w ++ [e] |}.

(** The 2x3 matrix of [cv2.getRotationMatrix2D] is a function of its three
    arguments and is only ever passed on to [cv2.warpAffine]; it is kept as
    those arguments. *)
Record Rotation := {
  rot_center : Z * Z;
  rot_angle : float;
  rot_scale : float
}.

Inductive Interpolation := INTER_NEAREST | INTER_LINEAR | INTER_CUBIC.
Inductive BorderMode := BORDER_CONSTANT | BORDER_REPLICATE | BORDER_REFLECT_101.

Record CompletedProcess := {
  args : list string;
  returncode : Z;
  stdout : ustring;
  stderr : ustring
}.

(** Everything the methods obtain from outside the program. *)
Record Env := {
  (** [shutil.which] *)
  which : string -> option string;
  (** the decoder behind [cv2.imread(_, IMREAD_GRAYSCALE)]; [None] is the
      [None] OpenCV returns for content it cannot decode *)
  imdecode : list Byte.byte -> option image;
  (** the PNG encoder behind [cv2.imwrite] *)
  imencode_png : image -> list Byte.byte;
  GaussianBlur : image -> nat * nat -> Z -> image;
  (** the threshold Otsu's method selects for an image *)
  otsu : image -> Z;
  (** last component of [cv2.minAreaRect] *)
  minAreaRect_angle : list (nat * nat) -> float;
  warpAffine : image -> Rotation -> Z * Z -> Interpolation -> BorderMode -> image;
  (** the name [tempfile.mkstemp] settles on, [None] when it cannot create a
      file *)
  mkstemp_name : string -> fs -> option string;
  (** [subprocess.run(argv, stdout=PIPE, stderr=PIPE, text=True)]: the file
      system the child leaves behind, and either the completed process or the
      exception raised (launch failure, undecodable output) *)
  run_process : list string -> fs -> fs * (exn + CompletedProcess);
  (** [os.remove] refused by the operating system although the file exists *)
  remove_denied : string -> bool
}.

(** ** The monad of Python methods *)

Definition M (A : Type) : Type := World -> Result A * World.

Definition ret {A} (a : A) : M A := fun w => (Ok a, w).

Definition bind {A B} (m : M A) (k : A -> M B) : M B :=
  fun w =>
    match m w with
    | (Ok a, w') => k a w'
    | (Raise e, w') => (Raise e, w')
    end.

Definition raise {A} (e : exn) : M A := fun w => (Raise e, w).

Declare Scope py_scope.
Delimit Scope py_scope with py.
Notation "x <~ m ; k" := (bind m (fun x => k))
  (at level 100, m at next level, right associativity) : py_scope.
Notation "m ;> k" := (bind m (fun _ => k))
  (at level 100, right associativity) : py_scope.
Open Scope py_scope.

(** [try: body finally: fin].  The [finally] suite always runs; if it raises,
    its exception replaces whatever the body produced. *)
Definition try_finally {A} (body : M A) (fin : M unit) : M A :=
  fun w =>
    let '(r, w1) := body w in
    match fin w1 with
    | (Ok _, w2) => (r, w2)
    | (Raise e, w2) => (Raise e, w2)
    end.

(** [try: m except OSError: pass]. *)
Definition try_except_OSError_pass (m : M unit) : M unit :=
  fun w =>
    match m w with
    | (Raise e, w') => if is_OSError e then (Ok tt, w') else (Raise e, w')
    | r => r
    end.

(** ** Text: [str.strip], the UTF-8 codec and newline translation *)

(** The code points [str.isspace] accepts, which [str.strip()] removes. *)
Definition is_space (c : N) : bool :=
  ((9 <=? c) && (c <=? 13) || (28 <=? c) && (c <=? 32)
   || (c =? 133) || (c =? 160) || (c =? 5760)
   || (8192 <=? c) && (c <=? 8202)
   || (c =? 8232) || (c =? 8233) || (c =? 8239) || (c =? 8287)
   || (c =? 12288))%N.

Fixpoint lstrip (s : ustring) : ustring :=
  match s with
  | c :: s' => if is_space c then lstrip s' else s
  | [] => []
  end.

Definition rstrip (s : ustring) : ustring := rev (lstrip (rev s)).

Definition strip (s : ustring) : ustring := rstrip (lstrip s).

(** ASCII literals as text. *)
Fixpoint text_of (s : string) : ustring :=
  match s with
  | EmptyString => []
  | String a s' => Ascii.N_of_ascii a :: text_of s'
  end.

(** The [errors=] argument of [open]. *)
Inductive ErrorHandler := Strict | Ignore | Replace.

Definition is_cont (b : N) : bool := ((128 <=? b) && (b <? 192))%N.

Definition cont_bits (b : N) : N := N.land b 63.

(** What the codec yields at a malformed sequence: [None] stands for the
    [UnicodeDecodeError] of the strict handler. *)
Definition on_error (h : ErrorHandler) (k : option ustring) : option ustring :=
  match h with
  | Strict => None
  | Ignore => k
  | Replace => cons 65533%N <$> k
  end.

(** CPython's UTF-8 decoder: a malformed sequence ends at the first byte that
    cannot continue it, and decoding resumes there. *)
Fixpoint utf8_decode (h : ErrorHandler) (bs : list Byte.byte) : option ustring :=
  match bs with
  | [] => Some []
  | x0 :: t0 =>
    let b0 := Byte.to_N x0 in
    if (b0 <? 128)%N then cons b0 <$> utf8_decode h t0
    else if (b0 <? 194)%N then on_error h (utf8_decode h t0)
    else if (b0 <? 224)%N then
      match t0 with
      | [] => on_error h (Some [])
      | x1 :: t1 =>
        let b1 := Byte.to_N x1 in
        if is_cont b1
        then cons (N.land b0 31 * 64 + cont_bits b1)%N <$> utf8_decode h t1
        else on_error h (utf8_decode h t0)
      end
    else if (b0 <? 240)%N then
      match t0 with
      | [] => on_error h (Some [])
      | x1 :: t1 =>
        let b1 := Byte.to_N x1 in
        if negb (is_cont b1) || (b0 =? 224)%N && (b1 <? 160)%N
           || (b0 =? 237)%N && (160 <=? b1)%N
        then on_error h (utf8_decode h t0)
        else
          match t1 with
          | [] => on_error h (Some [])
          | x2 :: t2 =>
            let b2 := Byte.to_N x2 in
            if is_cont b2
            then cons (N.land b0 15 * 4096 + cont_bits b1 * 64 + cont_bits b2)%N
                   <$> utf8_decode h t2
            else on_error h (utf8_decode h t1)
          end
      end
    else if (b0 <? 245)%N then
      match t0 with
      | [] => on_error h (Some [])
      | x1 :: t1 =>
        let b1 := Byte.to_N x1 in
        if negb (is_cont b1) || (b0 =? 240)%N && (b1 <? 144)%N
           || (b0 =? 244)%N && (144 <=? b1)%N
        then on_error h (utf8_decode h t0)
        else
          match t1 with
          | [] => on_error h (Some [])
          | x2 :: t2 =>
            let b2 := Byte.to_N x2 in
            if negb (is_cont b2) then on_error h (utf8_decode h t1)
            else
              match t2 with
              | [] => on_error h (Some [])
              | x3 :: t3 =>
                let b3 := Byte.to_N x3 in
                if is_cont b3
                then cons (N.land b0 7 * 262144 + cont_bits b1 * 4096
                           + cont_bits b2 * 64 + cont_bits b3)%N
                       <$> utf8_decode h t3
                else on_error h (utf8_decode h t2)
              end
          end
      end
    else on_error h (utf8_decode h t0)
  end.

(** Text-mode reading with the default [newline=None]: "\r\n" and a lone "\r"
    both arrive as "\n". *)
Fixpoint universal_newlines (s : ustring) : ustring :=
  match s with
  | [] => []
  | c :: s' =>
    if (c =? 13)%N then
      match s' with
      | d :: s'' =>
        if (d =? 10)%N then 10%N :: universal_newlines s''
        else 10%N :: universal_newlines s'
      | [] => [10%N]
      end
    else c :: universal_newlines s'
  end.

(** ** numpy and OpenCV helpers that are plain data manipulation *)

(** [np.column_stack(np.where(a > 0))]: the (row, column) index pairs of the
    positive entries, in row-major order. *)
Definition where_pos_row (r : nat) (row : list Z) : list (nat * nat) :=
  omap (fun x => x) (imap (fun c p => if 0 <? p then Some (r, c) else None) row).

Definition where_pos (a : image) : list (nat * nat) :=
  concat (imap where_pos_row a).

Definition THRESH_BINARY : Z := 0.
Definition THRESH_OTSU : Z := 8.

(** The binary rule of [cv2.threshold]: [maxval] above the threshold, 0
    otherwise. *)
Definition threshold_binary (T maxval : Z) (src : image) : image :=
  map (map (fun p => if T <? p then maxval else 0)) src.

Definition getRotationMatrix2D (center : Z * Z) (angle scale : float) : Rotation :=
  {| rot_center := center; rot_angle := angle; rot_scale := scale |}.

(** ** What [text=True] makes of a child's output *)




(** ** The methods of [ExternalOCREngine] *)

Section Methods.

Variable env : Env.

(** [cv2.threshold(src, thresh, maxval, type)] for the binary type, with or
    without the Otsu flag (bit 3), which replaces [thresh] by Otsu's choice.
    Returns the pair (threshold used, thresholded image). *)
Definition threshold (src : image) (thresh maxval type_ : Z) : Z * image :=
  let T := if Z.testbit type_ 3 then otsu env src else thresh in
  (T, threshold_binary T maxval src).

(** A call into OpenCV that only computes: its result, and a log entry. *)
Definition cv2 {A} (f : Cv2Fn) (result : A) : M A :=
  fun w => (Ok result, log (Cv2Call f) w).

Definition imread_grayscale (path : string) : M (option image) :=
  fun w => (Ok (files w !! path ≫= imdecode env), log (Cv2Call cv2_imread) w).

Definition imwrite (path : string) (img : image) : M unit :=
  fun w =>
    (Ok tt, {| files := <[path := imencode_png env img]> (files w);
               trace := trace w ++ [Cv2Call cv2_imwrite] |}).

(** [tempfile.mkstemp(suffix=...)] followed by [os.close] of the descriptor.
    The file is created exclusively, so an existing name is never reused. *)
Definition mkstemp (suffix : string) : M string :=
  fun w =>
    match mkstemp_name env suffix (files w) with
    | None => (Raise (Exn OSError "mkstemp"), w)
    | Some p =>
      match files w !! p with
      | Some _ => (Raise (Exn FileExistsError "No usable temporary file name found"), w)
      | None => (Ok p, {| files := <[p := []]> (files w);
                          trace := trace w ++ [Mkstemp p] |})
      end
    end.

Definition subprocess_run (argv : list string) : M CompletedProcess :=
  fun w =>
    let '(fs', r) := run_process env argv (files w) in
    let w' := {| files := fs'; trace := trace w ++ [SubprocessRun argv] |} in
    match r with
    | inl e => (Raise e, w')
    | inr proc => (Ok proc, w')
    end.

(** [open(path, "r", encoding="utf-8", errors=h)] and [f.read()]. *)
Definition open_read (path : string) (h : ErrorHandler) : M ustring :=
  fun w =>
    let w' := log (OpenRead path) w in
    match files w !! path with
    | None => (Raise (Exn FileNotFoundError path), w')
    | Some bs =>
      match utf8_decode h bs with
      | None => (Raise (Exn UnicodeDecodeError path), w')
      | Some s => (Ok (universal_newlines s), w')
      end
    end.

Definition os_remove (path : string) : M unit :=
  fun w =>
    let w' := log (OsRemove path) w in
    match files w !! path with
    | None => (Raise (Exn FileNotFoundError path), w')
    | Some _ =>
      if remove_denied env path then (Raise (Exn PermissionError path), w')
      else (Ok tt, {| files := delete path (files w); trace := trace w' |})
    end.

Definition engine_available (self : ExternalOCREngine) : bool :=
  bool_decide (which env (engine self) ≠ None).

(** The rule applied to the angle reported by [cv2.minAreaRect]. *)
Definition deskew_angle (angle : float) : float :=
  if (angle <? -45)%float then (- (90 + angle))%float else (- angle)%float.

Definition _preprocess_image (self : ExternalOCREngine) (img_path : string) : M image :=
  img <~ imread_grayscale img_path;
  match img with
  | None => raise (Exn ValueError "Invalid image file")
  | Some img =>
    img <~ cv2 cv2_GaussianBlur (GaussianBlur env img (3%nat, 3%nat) 0);
    r <~ cv2 cv2_threshold (threshold img 0 255 (THRESH_BINARY + THRESH_OTSU));
    let thresh := r.2 in
    (* Deskew *)
    let coords := where_pos thresh in
    if (0 <? length coords)%nat then
      angle <~ cv2 cv2_minAreaRect (minAreaRect_angle env coords);
      let angle := deskew_angle angle in
      let '(h, w) := shape thresh in
      M_ <~ cv2 cv2_getRotationMatrix2D (getRotationMatrix2D (w / 2, h / 2) angle 1%float);
      cv2 cv2_warpAffine (warpAffine env thresh M_ (w, h) INTER_CUBIC BORDER_REPLICATE)
    else ret thresh
  end.

Definition _save_temp_png (self : ExternalOCREngine) (img_path : string) : M string :=
  thresh <~ _preprocess_image self img_path;
  tmp <~ mkstemp ".png";
  imwrite tmp thresh;>
  ret tmp.

Definition engine_not_found_message (self : ExternalOCREngine) : string :=
  "Engine '" +:+ engine self +:+ "' not found in PATH. Install it or choose another engine.".

Definition recognize (self : ExternalOCREngine) (img_path : string) : M py_value :=
  if negb (engine_available self) then
    raise (Exn FileNotFoundError (engine_not_found_message self))
  else
    tmp_img <~ _save_temp_png self img_path;
    text <~ try_finally
      (if decide (engine self = "gocr") then
         (* gocr outputs to stdout; pass the image file path *)
         proc <~ subprocess_run [engine self; tmp_img];
         ret (strip (stdout proc))
       else if decide (engine self = "cuneiform") then
         (* cuneiform writes to a file; create a temp output file *)
         out_path <~ mkstemp ".txt";
         let cmd := [engine self; "-l"; language self; "-f"; "text"; "-o";
                     out_path; tmp_img] in
         proc <~ subprocess_run cmd;
         try_finally
           (s <~ open_read out_path Ignore; ret (strip s))
           (try_except_OSError_pass (os_remove out_path))
       else
         raise (Exn ValueError ("Unsupported engine: " +:+ engine self)))
      (try_except_OSError_pass (os_remove tmp_img));
    ret (VStr text).

End Methods.

(** ** The pure content of [_preprocess_image] *)

Section Normalization.

Variable env : Env.

(** The image after smoothing and Otsu binarization. *)
Definition binarized (img : image) : image :=
  (threshold env (GaussianBlur env img (3%nat, 3%nat) 0) 0 255
     (THRESH_BINARY + THRESH_OTSU)).2.

(** The rotation the deskew step applies to a binarized image. *)
Definition deskew_rotation (thresh : image) : Rotation :=
  let '(h, w) := shape thresh in
  getRotationMatrix2D (w / 2, h / 2)
    (deskew_angle (minAreaRect_angle env (where_pos thresh))) 1%float.

Definition deskewed (thresh : image) : image :=
  let '(h, w) := shape thresh in
  warpAffine env thresh (deskew_rotation thresh) (w, h) INTER_CUBIC BORDER_REPLICATE.

Definition has_foreground (thresh : image) : bool :=
  (0 <? length (where_pos thresh))%nat.

Definition normalized (img : image) : image :=
  let thresh := binarized img in
  if has_foreground thresh then deskewed thresh else thresh.

(** The OpenCV calls one normalization performs, in order. *)
Definition binarize_calls : list Event :=
  [Cv2Call cv2_imread; Cv2Call cv2_GaussianBlur; Cv2Call cv2_threshold].

Definition deskew_calls : list Event :=
  [Cv2Call cv2_minAreaRect; Cv2Call cv2_getRotationMatrix2D; Cv2Call cv2_warpAffine].

Definition preprocess_calls (img : image) : list Event :=
  binarize_calls ++ (if has_foreground (binarized img) then deskew_calls else []).

End Normalization.

(** The file system after [try: os.remove(p) except OSError: pass]. *)
Definition cleanup (env : Env) (p : string) (fs0 : fs) : fs :=
  if remove_denied env p then fs0 else delete p fs0.

(** Predicates on rasters. *)
Definition is_binary (img : image) : Prop :=
  Forall (Forall (fun p => p = 0 \/ p = 255)) img.

Definition all_pixels (v : Z) (img : image) : Prop :=
  Forall (Forall (fun p => p = v)) img.

Definition zeros_like (img : image) : image := map (map (fun _ => 0)) img.

(** The page is upright as far as the deskew step can tell: the corrected
    angle it derives from the foreground of [img] is zero. *)
Definition zero_skew (env : Env) (img : image) : Prop :=
  PrimFloat.eqb (deskew_angle (minAreaRect_angle env (where_pos img))) 0%float = true.

(** ** Reference behaviour of the library calls, for concrete scenarios *)

Module Reference.

(** Index reflection of OpenCV's default border, BORDER_REFLECT_101. *)
Definition reflect101 (n i : Z) : Z :=
  if n =? 1 then 0
  else if i <? 0 then - i
  else if n <=? i then 2 * n - 2 - i
  else i.

Definition pixel (img : image) (r c : Z) : Z :=
  let '(h, w) := shape img in
  nth (Z.to_nat (reflect101 w c)) (nth (Z.to_nat (reflect101 h r)) img []) 0.

(** [cv2.GaussianBlur(img, (3, 3), 0)] on 8-bit data: the separable kernel
    (1/4, 1/2, 1/4), rounded to nearest. *)
Definition blur3_at (img : image) (r c : Z) : Z :=
  let p := pixel img in
  (p (r - 1) (c - 1) + 2 * p (r - 1) c + p (r - 1) (c + 1)
   + 2 * p r (c - 1) + 4 * p r c + 2 * p r (c + 1)
   + p (r + 1) (c - 1) + 2 * p (r + 1) c + p (r + 1) (c + 1) + 8) / 16.

Definition gaussian_blur_3x3 (img : image) : image :=
  imap (fun r row => imap (fun c _ => blur3_at img (Z.of_nat r) (Z.of_nat c)) row) img.

(** Otsu's threshold as OpenCV computes it: the first level [i] maximizing the
    between-class variance q1*q2*(mu1-mu2)^2 of the split into levels <= i and
    levels > i, among the splits with both classes inhabited; 0 when there is
    none.  With n1, s1 the count and sum of the lower class and n2, s2 those
    of the upper class, the variance is (s1*n2 - s2*n1)^2 / (n1*n2) up to the
    constant factor 1/N^2; fractions are compared by cross-multiplication. *)
Record otsu_state := {
  o_n1 : Z; o_s1 : Z;
  o_num : Z; o_den : Z;
  o_best : Z
}.

Definition otsu_step (pixels : list Z) (n s : Z) (st : otsu_state) (i : Z)
  : otsu_state :=
  let hi := Z.of_nat (length (filter (fun p => p = i) pixels)) in
  let n1 := o_n1 st + hi in
  let s1 := o_s1 st + i * hi in
  let n2 := n - n1 in
  let s2 := s - s1 in
  if (n1 =? 0) || (n2 =? 0) then
    {| o_n1 := n1; o_s1 := s1; o_num := o_num st; o_den := o_den st;
       o_best := o_best st |}
  else
    let num := (s1 * n2 - s2 * n1) * (s1 * n2 - s2 * n1) in
    let den := n1 * n2 in
    if o_num st * den <? num * o_den st then
      {| o_n1 := n1; o_s1 := s1; o_num := num; o_den := den; o_best := i |}
    else
      {| o_n1 := n1; o_s1 := s1; o_num := o_num st; o_den := o_den st;
         o_best := o_best st |}.

Definition otsu_threshold (img : image) : Z :=
  let pixels := concat img in
  let n := Z.of_nat (length pixels) in
  let s := foldr Z.add 0 pixels in
  o_best (foldl (otsu_step pixels n s)
            {| o_n1 := 0; o_s1 := 0; o_num := 0; o_den := 1; o_best := 0 |}
            (seqZ 0 256)).

(** A stand-in for the image codecs: one byte of width, then the rows. *)
Definition raw_decode (bs : list Byte.byte) : option image :=
  match bs with
  | [] => None
  | x :: body =>
    let w := N.to_nat (Byte.to_N x) in
    let h := (length body / w)%nat in
    if ((0 <? w) && (0 <? h) && (h * w =? length body))%nat
    then Some (reshape (replicate h w) (map (fun b => Z.of_N (Byte.to_N b)) body))
    else None
  end.

Definition byte_of_Z (p : Z) : Byte.byte :=
  default Byte.x00 (Byte.of_N (Z.to_N p)).

Definition raw_encode (img : image) : list Byte.byte :=
  match img with
  | [] => []
  | row :: _ => byte_of_Z (Z.of_nat (length row)) :: map byte_of_Z (concat img)
  end.

Definition which_among (installed : list string) (name : string) : option string :=
  if bool_decide (name ∈ installed) then Some ("/usr/bin/" +:+ name) else None.

Fixpoint first_free (names : list string) (fs0 : fs) : option string :=
  match names with
  | [] => None
  | p :: rest => match fs0 !! p with None => Some p | Some _ => first_free rest fs0 end
  end.

Definition temp_name (suffix : string) (fs0 : fs) : option string :=
  first_free (map (fun stem => stem +:+ suffix) ["/tmp/tmpa"; "/tmp/tmpb"; "/tmp/tmpc"]) fs0.

(** The library on upright pages.  The bounding rectangle of an upright point
    set is reported at -90 degrees, and resampling at a zero angle and at the
    source's own size returns the source; the scenarios below never rotate by
    another angle. *)
Definition upright (installed : list string)
    (run : list string -> fs -> fs * (exn + CompletedProcess)) : Env :=
  {| which := which_among installed;
     imdecode := raw_decode;
     imencode_png := raw_encode;
     GaussianBlur := fun img _ _ => gaussian_blur_3x3 img;
     otsu := otsu_threshold;
     minAreaRect_angle := fun _ => (-90)%float;
     warpAffine := fun src _ _ _ _ => src;
     mkstemp_name := temp_name;
     run_process := run;
     remove_denied := fun _ => false |}.

(** Stub executables. *)
Definition echo_stdout (out err : ustring) (code : Z)
  : list string -> fs -> fs * (exn + CompletedProcess) :=
  fun argv fs0 =>
    (fs0, inr {| args := argv; returncode := code; stdout := out; stderr := err |}).


(** Writes [payload] to the path given after [-o]. *)
Definition write_output (payload : list Byte.byte)
  : list string -> fs -> fs * (exn + CompletedProcess) :=
  fun argv fs0 =>
    match argv with
    | [_; "-l"; _; "-f"; "text"; "-o"; out; _] =>
      (<[out := payload]> fs0,
       inr {| args := argv; returncode := 0; stdout := []; stderr := [] |})
    | _ => (fs0, inr {| args := argv; returncode := 1; stdout := []; stderr := [] |})
    end.

(** The executable disappeared after the availability check. *)
Definition vanished : list string -> fs -> fs * (exn + CompletedProcess) :=
  fun argv fs0 => (fs0, inl (Exn FileNotFoundError "No such file or directory")).

(** A 5x3 page carrying one horizontal white line on black, stored as
    "page.png", and the engine objects used in the scenarios. *)
Definition line_page : image :=
  [[0; 0; 0]; [0; 0; 0]; [255; 255; 255]; [0; 0; 0]; [0; 0; 0]].

(** A 6x3 page carrying a two-pixel-thick white bar, a black page and a white
    page. *)
Definition bar_page : image :=
  [[0; 0; 0]; [0; 0; 0]; [255; 255; 255]; [255; 255; 255]; [0; 0; 0]; [0; 0; 0]].

Definition black_page : image := [[0; 0]; [0; 0]].

Definition white_page : image := [[255; 255]; [255; 255]].

Definition world_with (page : image) : World :=
  {| files := {[ "page.png" := raw_encode page ]}; trace := [] |}.

Definition gocr_engine : ExternalOCREngine :=
  {| engine := "gocr"; language := "eng" |}.

Definition cuneiform_engine : ExternalOCREngine :=
  {| engine := "cuneiform"; language := "eng" |}.

End Reference.

(** ** Reference behaviour of the resampler, for pages that are rotated

    [cv2.warpAffine] with cubic interpolation on 8-bit data, after OpenCV's
    implementation: source coordinates in fixed point with 10 fractional bits,
    quantised to 1/32 of a pixel; for each of the 32 x 32 fractional offsets
    sixteen weights, computed in single precision from the cubic kernel with
    a = -0.75 and rounded to multiples of 2^-15; the weighted sum of the 4 x 4
    neighbourhood rounded and saturated to a byte. *)

Module Resample.

(** Single-precision values and their arithmetic. *)
Definition f32_of_Z (m e : Z) : spec_float := binary_normalize 24 128 m e false.
Definition f32_add : spec_float -> spec_float -> spec_float := SFadd 24 128.
Definition f32_sub : spec_float -> spec_float -> spec_float := SFsub 24 128.
Definition f32_mul : spec_float -> spec_float -> spec_float := SFmul 24 128.

(** An integer as a double. *)
Definition f64_of_Z (z : Z) : float := SF2Prim (binary_normalize 53 1024 z 0 false).

(** [cvRound]: the nearest integer, the even one at a tie. *)
Definition cvRound (x : spec_float) : Z :=
  match x with
  | S754_finite s m e =>
    let n :=
      match e with
      | Zneg k =>
        let d := 2 ^ Zpos k in
        let q := Zpos m / d in
        let r := Zpos m mod d in
        if 2 * r <? d then q
        else if d <? 2 * r then q + 1
        else if Z.even q then q else q + 1
      | _ => Zpos m * 2 ^ e
      end in
    if s then - n else n
  | _ => 0
  end.

(** [saturate_cast] to the range from [lo] to [hi]. *)
Definition saturate_cast (lo hi x : Z) : Z := Z.max lo (Z.min hi x).

Definition INTER_BITS : Z := 5.
Definition INTER_TAB_SIZE : Z := 32.
Definition INTER_REMAP_COEF_BITS : Z := 15.
Definition INTER_REMAP_COEF_SCALE : Z := 32768.
Definition AB_BITS : Z := 10.
Definition AB_SCALE : Z := 1024.

(** [interpolateCubic(x, coeffs)], with [A = -0.75f]. *)
Definition interpolateCubic (x : spec_float) : list spec_float :=
  let A := f32_of_Z (-3) (-2) in
  let n k := f32_of_Z k 0 in
  let x1 := f32_add x (n 1) in
  let c0 :=
    f32_sub
      (f32_mul
         (f32_add (f32_mul (f32_sub (f32_mul A x1) (f32_mul (n 5) A)) x1)
                  (f32_mul (n 8) A))
         x1)
      (f32_mul (n 4) A) in
  let c1 :=
    f32_add
      (f32_mul (f32_mul (f32_sub (f32_mul (f32_add A (n 2)) x) (f32_add A (n 3))) x) x)
      (n 1) in
  let y := f32_sub (n 1) x in
  let c2 :=
    f32_add
      (f32_mul (f32_mul (f32_sub (f32_mul (f32_add A (n 2)) y) (f32_add A (n 3))) y) y)
      (n 1) in
  let c3 := f32_sub (f32_sub (f32_sub (n 1) c0) c1) c2 in
  [c0; c1; c2; c3].

(** The four weights of the fractional offset [i / 32]. *)
Definition cubic_tab (i : Z) : list spec_float := interpolateCubic (f32_of_Z i (-5)).

Definition at4 (t : list Z) (k : Z * Z) : Z := nth (Z.to_nat (k.1 * 4 + k.2)) t 0.

(** One entry of the fixed-point table [BicubicTab_i]: the sixteen products
    for the vertical offset [i] and the horizontal offset [j], scaled by 2^15,
    rounded and saturated to 16 bits; when they do not add up to 2^15 the
    difference is put on the largest (or the smallest) of the four entries
    of rows and columns 2 and 3. *)
Definition bicubic_weights (i j : Z) : list Z :=
  let itab :=
    vy ← cubic_tab i; vx ← cubic_tab j;
    [saturate_cast (-32768) 32767
       (cvRound (f32_mul (f32_mul vy vx) (f32_of_Z INTER_REMAP_COEF_SCALE 0)))] in
  let isum := foldr Z.add 0 itab in
  if isum =? INTER_REMAP_COEF_SCALE then itab
  else
    let diff := isum - INTER_REMAP_COEF_SCALE in
    let '(mk, Mk) :=
      foldl (fun '(mk, Mk) k =>
               if at4 itab k <? at4 itab mk then (k, Mk)
               else if at4 itab Mk <? at4 itab k then (mk, k)
               else (mk, Mk))
            ((2, 2), (2, 2)) [(2, 2); (2, 3); (3, 2); (3, 3)] in
    let k := if diff <? 0 then Mk else mk in
    <[Z.to_nat (k.1 * 4 + k.2) := at4 itab k - diff]> itab.

(** A 2 x 3 matrix of doubles. *)
Record Affine := {
  m00 : float; m01 : float; m02 : float;
  m10 : float; m11 : float; m12 : float
}.

(** The cosine and the sine the C library returns for an angle given in
    degrees, tabulated for the angles the scenarios rotate by. *)
Definition cos_sin_deg (angle : float) : option (float * float) :=
  if PrimFloat.eqb angle 45
  then Some (0x1.6a09e667f3bcdp-1, 0x1.6a09e667f3bccp-1)%float
  else if PrimFloat.eqb angle (-45)
  then Some (0x1.6a09e667f3bcdp-1, -0x1.6a09e667f3bccp-1)%float
  else None.

(** The matrix [cv2.getRotationMatrix2D(center, angle, scale)] returns, given
    the cosine and the sine of the angle. *)
Definition rotation_matrix (rot : Rotation) (cs : float * float) : Affine :=
  let cx := f64_of_Z (rot_center rot).1 in
  let cy := f64_of_Z (rot_center rot).2 in
  let alpha := (cs.1 * rot_scale rot)%float in
  let beta := (cs.2 * rot_scale rot)%float in
  {| m00 := alpha; m01 := beta; m02 := ((1 - alpha) * cx - beta * cy)%float;
     m10 := (- beta)%float; m11 := alpha;
     m12 := (beta * cx + (1 - alpha) * cy)%float |}.

(** [warpAffine] maps destination to source: without [WARP_INVERSE_MAP] the
    matrix is inverted first. *)
Definition invert_affine (M : Affine) : Affine :=
  let D := (m00 M * m11 M - m01 M * m10 M)%float in
  let D := if PrimFloat.eqb D 0 then 0%float else (1 / D)%float in
  let A11 := (m11 M * D)%float in
  let A22 := (m00 M * D)%float in
  let n01 := (m01 M * (- D))%float in
  let n10 := (m10 M * (- D))%float in
  {| m00 := A11; m01 := n01; m02 := (- A11 * m02 M - n01 * m12 M)%float;
     m10 := n10; m11 := A22; m12 := (- n10 * m02 M - A22 * m12 M)%float |}.

(** [saturate_cast<int>] of a double in the range of the scenarios. *)
Definition to_int (x : float) : Z := cvRound (Prim2SF x).

(** The source pixel at row [r] and column [c] under [BORDER_REPLICATE]. *)
Definition src_at (src : image) (r c : Z) : Z :=
  let row := nth (Z.to_nat (saturate_cast 0 (Z.of_nat (length src) - 1) r)) src [] in
  nth (Z.to_nat (saturate_cast 0 (Z.of_nat (length row) - 1) c)) row 0.

(** One destination pixel of [remapBicubic]: [X] and [Y] are the source
    coordinates in units of 1/32 pixel. *)
Definition remap_bicubic (src : image) (X Y : Z) : Z :=
  let sx := Z.shiftr X INTER_BITS - 1 in
  let sy := Z.shiftr Y INTER_BITS - 1 in
  let w := bicubic_weights (Z.land Y (INTER_TAB_SIZE - 1))
                           (Z.land X (INTER_TAB_SIZE - 1)) in
  let sum :=
    foldr Z.add 0
      (i ← seqZ 0 4; j ← seqZ 0 4; [src_at src (sy + i) (sx + j) * at4 w (i, j)]) in
  saturate_cast 0 255
    (Z.shiftr (sum + Z.shiftl 1 (INTER_REMAP_COEF_BITS - 1)) INTER_REMAP_COEF_BITS).

(** [cv2.warpAffine(src, M, (w, h), flags=INTER_CUBIC,
    borderMode=BORDER_REPLICATE)] for the matrix [M0]. *)
Definition warp_affine_cubic (src : image) (M0 : Affine) (w h : Z) : image :=
  let M := invert_affine M0 in
  let round_delta := AB_SCALE / INTER_TAB_SIZE / 2 in
  (fun y =>
     let fy := f64_of_Z y in
     let X0 := to_int ((m01 M * fy + m02 M) * f64_of_Z AB_SCALE)%float + round_delta in
     let Y0 := to_int ((m11 M * fy + m12 M) * f64_of_Z AB_SCALE)%float + round_delta in
     (fun x =>
        let fx := f64_of_Z x in
        let adelta := to_int (m00 M * fx * f64_of_Z AB_SCALE)%float in
        let bdelta := to_int (m10 M * fx * f64_of_Z AB_SCALE)%float in
        remap_bicubic src
          (Z.shiftr (X0 + adelta) (AB_BITS - INTER_BITS))
          (Z.shiftr (Y0 + bdelta) (AB_BITS - INTER_BITS)))
     <$> seqZ 0 w)
  <$> seqZ 0 h.

(** The resampler of the scenarios: cubic interpolation with replicated
    borders at a tabulated angle; nothing else is resampled. *)
Definition warp_affine (src : image) (rot : Rotation) (dsize : Z * Z)
    (i : Interpolation) (b : BorderMode) : image :=
  match i, b, cos_sin_deg (rot_angle rot) with
  | INTER_CUBIC, BORDER_REPLICATE, Some cs =>
    warp_affine_cubic src (rotation_matrix rot cs) dsize.1 dsize.2
  | _, _, _ => src
  end.

(** The library on a page whose foreground [cv2.minAreaRect] reports at the
    angle [reported]. *)
Definition tilted (reported : float) : Env :=
  {| which := Reference.which_among ["gocr"];
     imdecode := Reference.raw_decode;
     imencode_png := Reference.raw_encode;
     GaussianBlur := fun img _ _ => Reference.gaussian_blur_3x3 img;
     otsu := Reference.otsu_threshold;
     minAreaRect_angle := fun _ => reported;
     warpAffine := warp_affine;
     mkstemp_name := Reference.temp_name;
     run_process := Reference.vanished;
     remove_denied := fun _ => false |}.

(** An 8x8 page carrying a white stroke three pixels thick along its
    diagonal. *)
Definition diagonal_page : image :=
  (fun r => (fun c => if Z.abs (r - c) <=? 1 then 255 else 0) <$> seqZ 0 8)
  <$> seqZ 0 8.

End Resample.

(** * The application around the engine *)

(** ** Names as Python strings

    The characters of a [string] are read as code points below 256. *)

Definition name_of (s : ustring) : string :=
  String.string_of_list_ascii (map Ascii.ascii_of_N s).

(** [s.strip()] *)
Definition str_strip (s : string) : string := name_of (strip (text_of s)).

(** [chr(c).lower()] for a code point below 256. *)
Definition lower_char (c : N) : N :=
  if ((65 <=? c) && (c <=? 90) || (192 <=? c) && (c <=? 214)
      || (216 <=? c) && (c <=? 222))%N
  then (c + 32)%N else c.

(** [s.lower()] *)
Definition str_lower (s : string) : string := name_of (map lower_char (text_of s)).

(** [s.endswith(suffix)] *)
Definition str_endswith (s sfx : string) : bool :=
  bool_decide (suffix (text_of sfx) (text_of s)).

Definition has_slash (s : string) : bool :=
  bool_decide (47%N ∈ text_of s).

(** [os.path.basename]: what follows the last slash. *)
Fixpoint basename (s : string) : string :=
  match s with
  | EmptyString => EmptyString
  | String _ s' => if has_slash s then basename s' else s
  end.

(** [x or default] on strings. *)
Definition str_or (s default_ : string) : string :=
  if decide (s = "") then default_ else s.

Definition newline : string := String (Ascii.ascii_of_N 10) EmptyString.

(** ** The UTF-8 encoder used when text is written *)

Definition byte_of_N (n : N) : Byte.byte := default Byte.x00 (Byte.of_N n).

(** One code point; [None] stands for the [UnicodeEncodeError] raised on a
    surrogate. *)
Definition utf8_encode_char (c : N) : option (list Byte.byte) :=
  if (c <? 128)%N then Some [byte_of_N c]
  else if (c <? 2048)%N then
    Some [byte_of_N (192 + c / 64); byte_of_N (128 + c mod 64)]%N
  else if (c <? 65536)%N then
    if ((55296 <=? c) && (c <? 57344))%N then None
    else Some [byte_of_N (224 + c / 4096); byte_of_N (128 + (c / 64) mod 64);
               byte_of_N (128 + c mod 64)]%N
  else if (c <? 1114112)%N then
    Some [byte_of_N (240 + c / 262144); byte_of_N (128 + (c / 4096) mod 64);
          byte_of_N (128 + (c / 64) mod 64); byte_of_N (128 + c mod 64)]%N
  else None.

Fixpoint utf8_encode (s : ustring) : option (list Byte.byte) :=
  match s with
  | [] => Some []
  | c :: s' =>
    match utf8_encode_char c, utf8_encode s' with
    | Some bs, Some rest => Some (bs ++ rest)
    | _, _ => None
    end
  end.

(** ** The window and what it obtains from the desktop *)

Inductive MessageBox :=
| showwarning (title message : string)
| showerror (title message : string)
| showinfo (title message : string).

(** The attributes of [OCRApp] the event handlers read and write; [tk_img]
    records the file the preview was rendered from, [text_box] and [status]
    the content of the two widgets, [messages] the dialogs shown so far. *)
Record OCRApp := {
  ocr : ExternalOCREngine;
  image_path : option string;
  tk_img : option string;
  result_text : ustring;
  engine_var : string;
  lang_var : string;
  status : string;
  text_box : ustring;
  messages : list MessageBox
}.

(** The state after [__init__] and [setup_ui]. *)
Definition OCRApp_init : OCRApp :=
  {| ocr := {| engine := "gocr"; language := "eng" |};
     image_path := None; tk_img := None; result_text := [];
     engine_var := "gocr"; lang_var := "eng";
     status := "Status: Ready"; text_box := []; messages := [] |}.

Definition set_ocr (x : ExternalOCREngine) (a : OCRApp) : OCRApp :=
  {| ocr := x; image_path := image_path a; tk_img := tk_img a;
     result_text := result_text a; engine_var := engine_var a;
     lang_var := lang_var a; status := status a; text_box := text_box a;
     messages := messages a |}.

Definition set_image_path (x : option string) (a : OCRApp) : OCRApp :=
  {| ocr := ocr a; image_path := x; tk_img := tk_img a;
     result_text := result_text a; engine_var := engine_var a;
     lang_var := lang_var a; status := status a; text_box := text_box a;
     messages := messages a |}.

Definition set_tk_img (x : option string) (a : OCRApp) : OCRApp :=
  {| ocr := ocr a; image_path := image_path a; tk_img := x;
     result_text := result_text a; engine_var := engine_var a;
     lang_var := lang_var a; status := status a; text_box := text_box a;
     messages := messages a |}.

Definition set_result_text (x : ustring) (a : OCRApp) : OCRApp :=
  {| ocr := ocr a; image_path := image_path a; tk_img := tk_img a;
     result_text := x; engine_var := engine_var a;
     lang_var := lang_var a; status := status a; text_box := text_box a;
     messages := messages a |}.

Definition set_status (x : string) (a : OCRApp) : OCRApp :=
  {| ocr := ocr a; image_path := image_path a; tk_img := tk_img a;
     result_text := result_text a; engine_var := engine_var a;
     lang_var := lang_var a; status := x; text_box := text_box a;
     messages := messages a |}.

Definition set_text_box (x : ustring) (a : OCRApp) : OCRApp :=
  {| ocr := ocr a; image_path := image_path a; tk_img := tk_img a;
     result_text := result_text a; engine_var := engine_var a;
     lang_var := lang_var a; status := status a; text_box := x;
     messages := messages a |}.

Definition add_message (x : MessageBox) (a : OCRApp) : OCRApp :=
  {| ocr := ocr a; image_path := image_path a; tk_img := tk_img a;
     result_text := result_text a; engine_var := engine_var a;
     lang_var := lang_var a; status := status a; text_box := text_box a;
     messages := messages a ++ [x] |}.

(** What the handlers obtain from the desktop and from the libraries they
    only call. *)
Record Shell := {
  (** the answers of the two file dialogs, empty when cancelled *)
  askopenfilename : string;
  asksaveasfilename : string;
  (** [pdf2image.convert_from_path]: the pages, each as the PNG bytes its
      [save] writes, or the exception raised *)
  convert_from_path : string -> fs -> exn + list (list Byte.byte);
  (** [PIL.Image.open] on the content of a file: the exception raised, if
      any *)
  pil_open : list Byte.byte -> option exn;
  (** [Document()], [add_paragraph(text)], [save(path)]: the file system
      left behind and the exception raised, if any *)
  docx_save : ustring -> string -> fs -> fs * option exn;
  (** [open(path, "w")] refused: the exception raised *)
  open_for_write : string -> fs -> option exn
}.

(** Handlers run over the window state and the world; what a handler did to
    the window before raising stays done. *)
Definition UI (A : Type) : Type := OCRApp -> World -> Result A * OCRApp * World.

Definition ui_ret {A} (a : A) : UI A := fun app w => (Ok a, app, w).

Definition ui_bind {A B} (m : UI A) (k : A -> UI B) : UI B :=
  fun app w =>
    match m app w with
    | (Ok a, app', w') => k a app' w'
    | (Raise e, app', w') => (Raise e, app', w')
    end.

Definition ui_raise {A} (e : exn) : UI A := fun app w => (Raise e, app, w).

Definition lift {A} (m : M A) : UI A :=
  fun app w => let '(r, w') := m w in (r, app, w').

Definition get_self : UI OCRApp := fun app w => (Ok app, app, w).

Definition update (f : OCRApp -> OCRApp) : UI unit :=
  fun app w => (Ok tt, f app, w).

Definition messagebox (m : MessageBox) : UI unit := update (add_message m).

(** [try: body except Exception as e: handler]. *)
Definition try_except_Exception {A} (body : UI A) (handler : exn -> UI A) : UI A :=
  fun app w =>
    match body app w with
    | (Raise e, app', w') => handler e app' w'
    | r => r
    end.

Declare Scope ui_scope.
Delimit Scope ui_scope with ui.
Notation "x <~ m ; k" := (ui_bind m (fun x => k))
  (at level 100, m at next level, right associativity) : ui_scope.
Notation "m ;> k" := (ui_bind m (fun _ => k))
  (at level 100, right associativity) : ui_scope.

Section Handlers.

Variable env : Env.
Variable shell : Shell.

(** [self.ocr.recognize(path)] used as a string.  A successful [recognize]
    always hands back a string; the other shape of value is turned into an
    exception only to keep the function total. *)
Definition recognize_text (self : ExternalOCREngine) (img_path : string) : M ustring :=
  (v <~ recognize env self img_path;
   match v with
   | VStr s => ret s
   | VRecognitionResult _ => raise (Exn OtherException "not a string")
   end)%py.

Definition engine_missing_message (selected_engine : string) : string :=
  "Selected engine '" +:+ selected_engine
  +:+ "' not found in PATH. Install it (e.g., sudo apt install gocr cuneiform) or choose another engine.".

(** [self.root.update()] is taken to dispatch no other handler while the
    recognition is about to start. *)
Definition run_ocr : UI unit :=
  (self <~ get_self;
   match image_path self with
   | None | Some EmptyString =>
     messagebox (showwarning "No image" "Please select an image or PDF first.")
   | Some path =>
     let selected_engine := engine_var self in
     let selected_lang := str_or (str_strip (lang_var self)) "eng" in
     update (set_ocr {| engine := selected_engine; language := selected_lang |});>
     try_except_Exception
       (self <~ get_self;
        if negb (engine_available env (ocr self)) then
          messagebox (showerror "Engine not found"
                        (engine_missing_message selected_engine))
        else
          update (set_status ("Running OCR with " +:+ selected_engine +:+ "..."));>
          result <~ lift (recognize_text (ocr self) path);
          update (set_result_text result);>
          update (set_text_box result);>
          update (set_status ("OCR complete (" +:+ selected_engine +:+ "). "
                              +:+ pretty (length result)
                              +:+ " characters recognized.")))
       (fun e => messagebox (showerror "Error" (exn_msg e)))
   end)%ui.

(** [Image.open(path)] and the thumbnail put on the canvas. *)
Definition show_preview (path : string) : UI unit :=
  (lift (fun w =>
           match files w !! path with
           | None => (Raise (Exn FileNotFoundError path), w)
           | Some bs =>
             match pil_open shell bs with
             | Some e => (Raise e, w)
             | None => (Ok tt, w)
             end
           end);>
   update (set_tk_img (Some path)))%ui.

Definition select_image : UI unit :=
  (let path := askopenfilename shell in
   if decide (path = "") then ui_ret tt
   else
     update (set_image_path (Some path));>
     path <~ (if str_endswith (str_lower path) ".pdf" then
                pages <~ lift (fun w =>
                                 match convert_from_path shell path (files w) with
                                 | inl e => (Raise e, w)
                                 | inr pages => (Ok pages, w)
                                 end);
                let temp := "page_temp.png" in
                match pages with
                | [] => ui_raise (Exn OtherException "list index out of range")
                | page :: _ =>
                  lift (fun w => (Ok tt, {| files := <[temp := page]> (files w);
                                            trace := trace w |}));>
                  update (set_image_path (Some temp));>
                  ui_ret temp
                end
              else ui_ret path);
     show_preview path;>
     update (set_status ("Loaded: " +:+ basename path)))%ui.

(** [with open(path, "w", encoding="utf-8") as f: f.write(text)] where a
    line feed is written as it is: the file is created or truncated when
    opened, and written only if the whole text encodes.  Of the message of
    the [UnicodeEncodeError], which also names the character and its
    position, the closing words are kept. *)
Definition write_text (path : string) (s : ustring) : M unit :=
  fun w =>
    match open_for_write shell path (files w) with
    | Some e => (Raise e, w)
    | None =>
      match utf8_encode s with
      | None => (Raise (Exn OtherException "surrogates not allowed"),
                 {| files := <[path := []]> (files w); trace := trace w |})
      | Some bs => (Ok tt, {| files := <[path := bs]> (files w); trace := trace w |})
      end
    end.

Definition write_docx (path : string) (s : ustring) : M unit :=
  fun w =>
    let '(fs', r) := docx_save shell s path (files w) in
    let w' := {| files := fs'; trace := trace w |} in
    match r with
    | Some e => (Raise e, w')
    | None => (Ok tt, w')
    end.

Definition save_output : UI unit :=
  (self <~ get_self;
   if decide (strip (result_text self) = []) then
     messagebox (showwarning "No text" "Please run OCR before saving.")
   else
     let save_path := asksaveasfilename shell in
     if decide (save_path = "") then ui_ret tt
     else
       try_except_Exception
         ((if str_endswith save_path ".docx"
           then lift (write_docx save_path (result_text self))
           else lift (write_text save_path (result_text self)));>
          update (set_status ("Saved output: " +:+ basename save_path));>
          messagebox (showinfo "Saved"
                        ("OCR output saved to:" +:+ newline +:+ save_path)))
         (fun e => messagebox (showerror "Save Error" (exn_msg e))))%ui.

End Handlers.

(** ** The template generator, [generate_dataset]

    The parts of the loop body that are arithmetic and naming; drawing,
    rotation, resizing and blurring are Pillow's. *)

(** [np.clip(arr + noise, 0, 255)] on two [uint8] arrays: the sum is taken
    in [uint8], so it wraps before it is clipped. *)
Definition uint8_add (a b : Z) : Z := (a + b) mod 256.

Definition clip (x lo hi : Z) : Z := Z.max lo (Z.min x hi).

Definition add_noise (arr noise : image) : image :=
  zip_with (zip_with (fun a n => clip (uint8_add a n) 0 255)) arr noise.

Definition is_digit (c : N) : Prop := (48 <= c <= 57)%N.

Definition isalnum_ascii (c : N) : bool :=
  ((48 <=? c) && (c <=? 57) || (65 <=? c) && (c <=? 90)
   || (97 <=? c) && (c <=? 122))%N.

Section Naming.

(** [str.isalnum] beyond ASCII follows the Unicode tables. *)
Variable isalnum_beyond_ascii : N -> bool.

Definition isalnum (c : N) : bool :=
  if (c <? 128)%N then isalnum_ascii c else isalnum_beyond_ascii c.

(** [char if char.isalnum() else f"sym_{ord(char)}"] *)
Definition safe_char (c : N) : ustring :=
  if isalnum c then [c] else text_of ("sym_" +:+ pretty c).

(** [f"{safe_char}_{i}.png"] *)
Definition filename (c : N) (i : nat) : ustring :=
  safe_char c ++ text_of ("_" +:+ pretty i +:+ ".png").

(** [os.path.join(a, b)] *)
Definition path_join (a b : ustring) : ustring :=
  if decide (head b = Some 47%N) then b
  else
    match last a with
    | None => b
    | Some x => if decide (x = 47%N) then a ++ b else a ++ 47%N :: b
    end.

(** The paths written by the two loops, in order. *)
Definition dataset_paths (output_dir charset : ustring) (samples_per_char : nat)
  : list ustring :=
  c ← charset; i ← seq 0 samples_per_char; [path_join output_dir (filename c i)].

End Naming.

(** The characters generated by default. *)
Definition default_charset : ustring :=
  text_of "ABCDEFGHIJKLMNOPQRSTUVWXYZ"
  ++ text_of "abcdefghijklmnopqrstuvwxyz"
  ++ text_of "0123456789"
  ++ text_of "!@#$%^&*()-_=+[]{}|;:'" ++ [34%N] ++ text_of ",.<>?/\`~".


(** The engine object [run_ocr] configures from the two widgets. *)
Definition selected (app : OCRApp) : ExternalOCREngine :=
  {| engine := engine_var app;
     language := str_or (str_strip (lang_var app)) "eng" |}.

(** A code point a Python string can hold and UTF-8 can encode: below
    U+110000 and not a surrogate. *)
Definition is_scalar (c : N) : Prop :=
  (c < 55296 \/ 57344 <= c < 1114112)%N.

(** ** Vocabulary for statements about [recognize] *)

(** The same environment with another answer to "is this removal refused". *)
Definition with_remove_denied (d : string -> bool) (env : Env) : Env :=
  {| which := which env; imdecode := imdecode env;
     imencode_png := imencode_png env; GaussianBlur := GaussianBlur env;
     otsu := otsu env; minAreaRect_angle := minAreaRect_angle env;
     warpAffine := warpAffine env; mkstemp_name := mkstemp_name env;
     run_process := run_process env; remove_denied := d |}.

Definition is_run (e : Event) : bool :=
  match e with SubprocessRun _ => true | _ => false end.

(** ** A desktop for concrete sessions *)

Module Desk.

(** The dialogs answer [opened] and [saved], a PDF converts to [pdf], every
    file opens as an image, a Word document is stood in for by the UTF-8
    bytes of its paragraph, and every path may be opened for writing. *)
Definition desk (opened saved : string) (pdf : exn + list (list Byte.byte))
  : Shell :=
  {| askopenfilename := opened;
     asksaveasfilename := saved;
     convert_from_path := fun _ _ => pdf;
     pil_open := fun _ => None;
     docx_save := fun s path fs0 =>
                    (<[path := default [] (utf8_encode s)]> fs0, None);
     open_for_write := fun _ _ => None |}.

(** A stub executable that exits normally after deleting the file given
    after [-o]. *)
Definition delete_output : list string -> fs -> fs * (exn + CompletedProcess) :=
  fun argv fs0 =>
    match argv with
    | [_; "-l"; _; "-f"; "text"; "-o"; out; _] =>
      (delete out fs0,
       inr {| args := argv; returncode := 0; stdout := []; stderr := [] |})
    | _ => (fs0, inr {| args := argv; returncode := 1; stdout := []; stderr := [] |})
    end.

(** The same environment where a temporary file can be created for a raster
    and for nothing else. *)
Definition png_only (env : Env) : Env :=
  {| which := which env; imdecode := imdecode env;
     imencode_png := imencode_png env; GaussianBlur := GaussianBlur env;
     otsu := otsu env; minAreaRect_angle := minAreaRect_angle env;
     warpAffine := warpAffine env;
     mkstemp_name := fun sfx fs0 =>
                       if decide (sfx = ".png") then mkstemp_name env sfx fs0
                       else None;
     run_process := run_process env; remove_denied := remove_denied env |}.

(** The window after "page.png" was selected, and the same with some text
    already recognized. *)
Definition page_selected : OCRApp := set_image_path (Some "page.png") OCRApp_init.

Definition recognized (t : ustring) : OCRApp :=
  set_text_box t (set_result_text t page_selected).

Definition tesseract_engine : ExternalOCREngine :=
  {| engine := "tesseract"; language := "eng" |}.

Definition hello_bytes : list Byte.byte :=
  [Byte.x48; Byte.x45; Byte.x4c; Byte.x4c; Byte.x4f].

End Desk.

(** * Properties *)

(** ** Stepping through the monad *)

Lemma bind_ok {A B} (m : M A) (k : A -> M B) w a w' :
  m w = (Ok a, w') -> bind m k w = k a w'.
Proof. unfold bind. intros ->. reflexivity. Qed.

Lemma bind_raise {A B} (m : M A) (k : A -> M B) w e w' :
  m w = (Raise e, w') -> bind m k w = (Raise e, w').
Proof. unfold bind. intros ->. reflexivity. Qed.

Section Steps.

Variable env : Env.

(** Best-effort removal: never raises, and leaves [cleanup] behind. *)
Lemma swallowed_remove p w :
  try_except_OSError_pass (os_remove env p) w
  = (Ok tt, {| files := cleanup env p (files w); trace := trace w ++ [OsRemove p] |}).
Proof.
  unfold try_except_OSError_pass, os_remove, cleanup.
  destruct (files w !! p) eqn:Hp.
  - destruct (remove_denied env p); reflexivity.
  - cbn. rewrite (delete_id (files w) p Hp).
    destruct (remove_denied env p); reflexivity.
Qed.

(** A [finally] suite made of a best-effort removal keeps the outcome of the
    body, whatever it is. *)
Lemma try_finally_remove {A} (body : M A) p w r w1 :
  body w = (r, w1) ->
  try_finally body (try_except_OSError_pass (os_remove env p)) w
  = (r, {| files := cleanup env p (files w1); trace := trace w1 ++ [OsRemove p] |}).
Proof.
  intros Hb. unfold try_finally. rewrite Hb, swallowed_remove. reflexivity.
Qed.

Lemma cleanup_lookup_ne p q (fs0 : fs) :
  p ≠ q -> cleanup env p fs0 !! q = fs0 !! q.
Proof.
  intros Hne. unfold cleanup.
  destruct (remove_denied env p); [reflexivity|].
  apply lookup_delete_ne. exact Hne.
Qed.

Lemma cleanup_removes p (fs0 : fs) :
  remove_denied env p = false -> cleanup env p fs0 !! p = None.
Proof.
  intros Hd. unfold cleanup. rewrite Hd. apply lookup_delete_eq.
Qed.

Lemma preprocess_decoded self img_path w img :
  files w !! img_path ≫= imdecode env = Some img ->
  _preprocess_image env self img_path w
  = (Ok (normalized env img),
     {| files := files w; trace := trace w ++ preprocess_calls env img |}).
Proof.
  intros Hd.
  unfold _preprocess_image, bind at 1, imread_grayscale. rewrite Hd.
  unfold normalized, preprocess_calls, binarize_calls, deskew_calls, deskewed,
    deskew_rotation, binarized, has_foreground.
  cbn [bind cv2 fst snd log files trace].
  destruct (0 <? length _)%nat.
  - destruct (shape _) as [h w0].
    unfold bind, cv2, log. cbn [files trace].
    rewrite <- !app_assoc. reflexivity.
  - unfold ret, log. cbn [files trace].
    rewrite <- !app_assoc. reflexivity.
Qed.

Lemma preprocess_undecodable self img_path w :
  files w !! img_path ≫= imdecode env = None ->
  _preprocess_image env self img_path w
  = (Raise (Exn ValueError "Invalid image file"), log (Cv2Call cv2_imread) w).
Proof.
  intros Hd. unfold _preprocess_image, bind, imread_grayscale.
  rewrite Hd. reflexivity.
Qed.

(** [_save_temp_png] on a decodable source whose temporary name is granted. *)
Lemma save_temp_png_decoded self img_path w img tmp :
  files w !! img_path ≫= imdecode env = Some img ->
  mkstemp_name env ".png" (files w) = Some tmp ->
  files w !! tmp = None ->
  _save_temp_png env self img_path w
  = (Ok tmp,
     {| files := <[tmp := imencode_png env (normalized env img)]> (files w);
        trace := trace w ++ preprocess_calls env img
                 ++ [Mkstemp tmp; Cv2Call cv2_imwrite] |}).
Proof.
  intros Hd Hn Hfree. unfold _save_temp_png.
  rewrite (bind_ok _ _ _ _ _ (preprocess_decoded self _ _ _ Hd)).
  unfold bind, mkstemp, imwrite, ret. cbn [files trace].
  rewrite Hn, Hfree. cbn [files trace].
  rewrite insert_insert_eq, <- !app_assoc. reflexivity.
Qed.

End Steps.

(** ** Engine dispatch *)

Section Dispatch.

Variable env : Env.

(** C3.  When the engine's executable is not resolvable on the search path,
    [recognize] raises [FileNotFoundError] (the engine-not-found error) and
    returns the world exactly as it found it: nothing was read or normalized,
    no temporary file was created, no process was started. *)
Theorem recognize_engine_not_found self img_path w :
  engine_available env self = false ->
  recognize env self img_path w
  = (Raise (Exn FileNotFoundError (engine_not_found_message self)), w).
Proof.
  intros Hna. unfold recognize. rewrite Hna. reflexivity.
Qed.

(** C10.  With an available engine and a source that does not decode,
    [recognize] raises the invalid-image [ValueError]; the only external call
    made is the failed [cv2.imread], the file system is untouched and no
    temporary file was ever allocated. *)
Theorem recognize_invalid_image self img_path w :
  engine_available env self = true ->
  files w !! img_path ≫= imdecode env = None ->
  recognize env self img_path w
  = (Raise (Exn ValueError "Invalid image file"),
     {| files := files w; trace := trace w ++ [Cv2Call cv2_imread] |}).
Proof.
  intros Hav Hd. unfold recognize. rewrite Hav. cbn [negb].
  apply bind_raise. unfold _save_temp_png.
  apply bind_raise. apply preprocess_undecodable. exact Hd.
Qed.



(** The [ignore] handler never fails: there is always a decoded text. *)
Lemma utf8_decode_ignore_total bs : is_Some (utf8_decode Ignore bs).
Proof.
  remember (length bs) as n eqn:Hn. revert bs Hn.
  induction n as [n IH] using lt_wf_ind. intros bs Hn.
  destruct bs as [|x0 t0]; [eexists; reflexivity|].
  cbn [utf8_decode on_error]. cbv zeta.
  repeat match goal with
  | |- is_Some (Some _) => eexists; reflexivity
  | |- is_Some (_ <$> _) => apply fmap_is_Some
  | |- is_Some (utf8_decode Ignore ?t) =>
      apply (IH (length t)); [subst n; cbn [length]; lia | reflexivity]
  | |- is_Some (if ?c then _ else _) => destruct c
  | |- is_Some (match ?l with [] => _ | _ :: _ => _ end) => destruct l
  end.
Qed.

(** C5, as the code has it.  CUNEIFORM protocol.  The executable is run as
    [cuneiform -l <language> -f text -o <output-path> <image-path>] with the
    language field passed as it is.  When the process has exited and left the
    bytes [bs] at the output path, the call returns those bytes decoded as
    UTF-8 with malformed sequences dropped (the [ignore] handler: no
    replacement character is inserted and no decoding error is raised), with
    newlines translated and surrounding whitespace stripped.  The output file
    and then the raster are removed on a best-effort basis. *)
Theorem recognize_cuneiform self img_path w img tmp out fs' proc bs :
  engine self = "cuneiform" ->
  engine_available env self = true ->
  files w !! img_path ≫= imdecode env = Some img ->
  mkstemp_name env ".png" (files w) = Some tmp ->
  files w !! tmp = None ->
  let fs1 := <[tmp := imencode_png env (normalized env img)]> (files w) in
  let cmd := ["cuneiform"; "-l"; language self; "-f"; "text"; "-o"; out; tmp] in
  mkstemp_name env ".txt" fs1 = Some out ->
  fs1 !! out = None ->
  run_process env cmd (<[out := []]> fs1) = (fs', inr proc) ->
  fs' !! out = Some bs ->
  exists s,
    utf8_decode Ignore bs = Some s /\
    recognize env self img_path w
    = (Ok (VStr (strip (universal_newlines s))),
       {| files := cleanup env tmp (cleanup env out fs');
          trace := trace w ++ preprocess_calls env img
                   ++ [Mkstemp tmp; Cv2Call cv2_imwrite; Mkstemp out;
                       SubprocessRun cmd; OpenRead out; OsRemove out;
                       OsRemove tmp] |}).
Proof.
  intros He Hav Hd Hn Hfree fs1 cmd Hon Hofree Hrun Hbs.
  destruct (utf8_decode_ignore_total bs) as [s Hs]. exists s. split; [exact Hs|].
  unfold recognize. rewrite Hav. cbn [negb].
  rewrite (bind_ok _ _ _ _ _ (save_temp_png_decoded env self _ _ _ _ Hd Hn Hfree)).
  rewrite He.
  destruct (decide ("cuneiform" = "gocr")) as [Hbad|_]; [discriminate Hbad|].
  destruct (decide ("cuneiform" = "cuneiform")) as [_|Hne]; [|congruence].
  erewrite bind_ok; cycle 1.
  { apply try_finally_remove.
    unfold bind at 1, mkstemp. cbn [files trace].
    fold fs1. rewrite Hon, Hofree.
    unfold bind at 1, subprocess_run. cbn [files trace].
    fold cmd. rewrite Hrun.
    apply try_finally_remove.
    unfold bind, open_read, ret, log. cbn [files trace].
    rewrite Hbs, Hs. reflexivity. }
  unfold ret. cbn [files trace]. rewrite <- !app_assoc. reflexivity.
Qed.

(** The defect behind C1.  With the cuneiform engine, when [subprocess.run]
    raises (the executable vanished after the availability check, or its
    output could not be decoded), the exception leaves [recognize] after the
    raster alone has been removed: the removal of the output file is never
    attempted, and the output file created by this very call stays on disk. *)
Theorem recognize_cuneiform_run_failure_leaks_output
    self img_path w img tmp out fs' e bs :
  engine self = "cuneiform" ->
  engine_available env self = true ->
  files w !! img_path ≫= imdecode env = Some img ->
  mkstemp_name env ".png" (files w) = Some tmp ->
  files w !! tmp = None ->
  let fs1 := <[tmp := imencode_png env (normalized env img)]> (files w) in
  let cmd := ["cuneiform"; "-l"; language self; "-f"; "text"; "-o"; out; tmp] in
  mkstemp_name env ".txt" fs1 = Some out ->
  fs1 !! out = None ->
  run_process env cmd (<[out := []]> fs1) = (fs', inl e) ->
  fs' !! out = Some bs ->
  exists w',
    recognize env self img_path w = (Raise e, w') /\
    trace w' = trace w ++ preprocess_calls env img
               ++ [Mkstemp tmp; Cv2Call cv2_imwrite; Mkstemp out;
                   SubprocessRun cmd; OsRemove tmp] /\
    files w !! out = None /\
    files w' !! out = Some bs.
Proof.
  intros He Hav Hd Hn Hfree fs1 cmd Hon Hofree Hrun Hbs.
  assert (Hne : tmp ≠ out).
  { intros ->. subst fs1. rewrite lookup_insert_eq in Hofree. discriminate. }
  eexists. split; [|split; [|split]].
  - unfold recognize. rewrite Hav. cbn [negb].
    rewrite (bind_ok _ _ _ _ _ (save_temp_png_decoded env self _ _ _ _ Hd Hn Hfree)).
    rewrite He.
    destruct (decide ("cuneiform" = "gocr")) as [Hbad|_]; [discriminate Hbad|].
    destruct (decide ("cuneiform" = "cuneiform")) as [_|Hbad]; [|congruence].
    apply bind_raise.
    apply try_finally_remove.
    unfold bind at 1, mkstemp. cbn [files trace].
    fold fs1. rewrite Hon, Hofree.
    unfold bind at 1, subprocess_run. cbn [files trace].
    fold cmd. rewrite Hrun. reflexivity.
  - cbn [trace]. rewrite <- !app_assoc. reflexivity.
  - subst fs1. rewrite lookup_insert_ne in Hofree by exact Hne. exact Hofree.
  - cbn [files]. rewrite cleanup_lookup_ne by exact Hne. exact Hbs.
Qed.

(** X1.  Once the raster exists it does not outlive the call: whatever the
    dispatch does, and however the call ends, the raster is gone afterwards
    unless the operating system refuses its removal. *)
Lemma recognize_removes_raster self img_path w tmp w1 r w' :
  engine_available env self = true ->
  _save_temp_png env self img_path w = (Ok tmp, w1) ->
  recognize env self img_path w = (r, w') ->
  remove_denied env tmp = false ->
  files w' !! tmp = None.
Proof.
  intros Hav Hsave Hrec Hd. unfold recognize in Hrec.
  rewrite Hav in Hrec. cbn [negb] in Hrec.
  rewrite (bind_ok _ _ _ _ _ Hsave) in Hrec.
  unfold bind at 1 in Hrec.
  match type of Hrec with
  | context [try_finally ?body _ w1] => destruct (body w1) as [rb wb] eqn:Hb
  end.
  rewrite (try_finally_remove env _ _ _ _ _ Hb) in Hrec.
  destruct rb as [t|e]; unfold ret in Hrec; injection Hrec as <- <-;
    cbn [files]; apply cleanup_removes; exact Hd.
Qed.

(** X3.  An engine name other than the two known ones is rejected with a
    [ValueError], after the raster was written and before anything is run. *)
Lemma recognize_unsupported_engine self img_path w tmp w1 :
  engine self ≠ "gocr" -> engine self ≠ "cuneiform" ->
  engine_available env self = true ->
  _save_temp_png env self img_path w = (Ok tmp, w1) ->
  recognize env self img_path w
  = (Raise (Exn ValueError ("Unsupported engine: " +:+ engine self)),
     {| files := cleanup env tmp (files w1); trace := trace w1 ++ [OsRemove tmp] |}).
Proof.
  intros Hg Hc Hav Hsave. unfold recognize. rewrite Hav. cbn [negb].
  rewrite (bind_ok _ _ _ _ _ Hsave).
  destruct (decide (engine self = "gocr")); [contradiction|].
  destruct (decide (engine self = "cuneiform")); [contradiction|].
  apply bind_raise. apply try_finally_remove. reflexivity.
Qed.

(** C2, as the code has it.  A successful [recognize] hands back the
    recognized text alone, a bare string and no record; the engine that
    produced it is one of the two known ones and stays what the engine
    object's own field says. *)
Theorem recognize_returns_text self img_path w v w' :
  recognize env self img_path w = (Ok v, w') ->
  exists t, v = VStr t /\ (engine self = "gocr" \/ engine self = "cuneiform").
Proof.
  unfold recognize. destruct (engine_available env self); cbn [negb];
    [|discriminate].
  unfold bind at 1.
  destruct (_save_temp_png env self img_path w) as [[tmp|e] w1]; [|discriminate].
  unfold bind at 1.
  destruct (try_finally _ _ w1) as [[t|e] w2] eqn:Htry; [|discriminate].
  unfold ret. intros [= <- <-]. exists t. split; [reflexivity|].
  destruct (decide (engine self = "gocr")) as [|Hg]; [left; assumption|].
  destruct (decide (engine self = "cuneiform")) as [|Hc]; [right; assumption|].
  exfalso. erewrite try_finally_remove in Htry by reflexivity.
  discriminate Htry.
Qed.

End Dispatch.

(** ** Image normalization *)

Lemma elem_of_where_pos_row r row x :
  x ∈ where_pos_row r row <-> exists c p, x = (r, c) /\ row !! c = Some p /\ 0 < p.
Proof.
  unfold where_pos_row. rewrite list_elem_of_omap. split.
  - intros (o & Ho & ->). apply elem_of_lookup_imap in Ho as (c & p & Hx & Hc).
    destruct (0 <? p) eqn:Hp; [|discriminate Hx].
    injection Hx as ->. exists c, p. split; [reflexivity|]. split; [exact Hc|lia].
  - intros (c & p & -> & Hc & Hp). exists (Some (r, c)). split; [|reflexivity].
    apply elem_of_lookup_imap. exists c, p. split; [|exact Hc].
    destruct (0 <? p) eqn:Hlt; [reflexivity|lia].
Qed.

(** [where_pos] lists exactly the positions holding a positive value. *)
Lemma elem_of_where_pos a r c :
  (r, c) ∈ where_pos a
  <-> exists row p, a !! r = Some row /\ row !! c = Some p /\ 0 < p.
Proof.
  unfold where_pos. rewrite list_elem_of_In, in_concat. split.
  - intros (l & Hl & Hx). apply list_elem_of_In in Hl, Hx.
    apply elem_of_lookup_imap in Hl as (i & row & -> & Hrow).
    apply elem_of_where_pos_row in Hx as (c' & p & Heq & Hc & Hp).
    injection Heq as -> ->. exists row, p. auto.
  - intros (row & p & Hrow & Hc & Hp). exists (where_pos_row r row). split.
    + apply list_elem_of_In, elem_of_lookup_imap. exists r, row. auto.
    + apply list_elem_of_In, elem_of_where_pos_row. exists c, p. auto.
Qed.

Lemma where_pos_nil a :
  where_pos a = [] <-> Forall (Forall (fun p => p <= 0)) a.
Proof.
  split.
  - intros Hnil. apply Forall_lookup. intros r row Hrow.
    apply Forall_lookup. intros c p Hc.
    destruct (Z_le_gt_dec p 0) as [|Hgt]; [assumption|exfalso].
    assert (Hin : (r, c) ∈ where_pos a).
    { apply elem_of_where_pos. exists row, p. split; [|split]; [assumption..|lia]. }
    rewrite Hnil in Hin. inversion Hin.
  - intros Hall. destruct (where_pos a) as [|[r c] l] eqn:Hw; [reflexivity|exfalso].
    assert (Hin : (r, c) ∈ where_pos a) by (rewrite Hw; left).
    apply elem_of_where_pos in Hin as (row & p & Hrow & Hc & Hp).
    rewrite Forall_lookup in Hall. specialize (Hall _ _ Hrow).
    rewrite Forall_lookup in Hall. specialize (Hall _ _ Hc). lia.
Qed.

Lemma has_foreground_false a : has_foreground a = false <-> where_pos a = [].
Proof.
  unfold has_foreground. destruct (where_pos a); cbn; split; intros H;
    first [reflexivity | discriminate H].
Qed.

(** Thresholding to 255 yields a black and white raster of the same shape. *)
Lemma threshold_binary_is_binary T src : is_binary (threshold_binary T 255 src).
Proof.
  unfold is_binary, threshold_binary.
  apply Forall_fmap, Forall_true. intros row.
  apply Forall_fmap, Forall_true. intros p. cbn.
  destruct (T <? p); auto.
Qed.

Lemma shape_threshold_binary T v src :
  shape (threshold_binary T v src) = shape src.
Proof.
  unfold shape, threshold_binary. rewrite length_map.
  destruct src as [|row rows]; [reflexivity|]. cbn [map]. rewrite length_map.
  reflexivity.
Qed.

(** On a black and white raster any threshold from 0 up to 254 separates the
    two values, and thresholding gives the raster back. *)
Lemma threshold_binary_fixes_binary T img :
  0 <= T < 255 -> is_binary img -> threshold_binary T 255 img = img.
Proof.
  intros HT Hbin. unfold threshold_binary.
  induction Hbin as [|row rows Hrow _ IH]; [reflexivity|].
  cbn [map]. f_equal; [|exact IH].
  induction Hrow as [|p ps Hp _ IHr]; [reflexivity|].
  cbn [map]. f_equal; [|exact IHr].
  destruct Hp as [-> | ->].
  - destruct (T <? 0) eqn:E; [lia|reflexivity].
  - destruct (T <? 255) eqn:E; [reflexivity|lia].
Qed.

(** A white page under any threshold: unchanged below 255, black otherwise. *)
Lemma threshold_binary_white T img :
  all_pixels 255 img ->
  threshold_binary T 255 img = if T <? 255 then img else zeros_like img.
Proof.
  intros Hw. unfold threshold_binary, zeros_like.
  destruct (T <? 255) eqn:E.
  - induction Hw as [|row rows Hrow _ IH]; [reflexivity|].
    cbn [map]. f_equal; [|exact IH].
    induction Hrow as [|p ps Hp _ IHr]; [reflexivity|].
    cbn [map]. rewrite Hp at 1. rewrite E. f_equal; [auto|exact IHr].
  - apply map_ext_Forall. eapply Forall_impl; [exact Hw|]. intros row Hrow.
    apply map_ext_Forall. eapply Forall_impl; [exact Hrow|]. cbn.
    intros p ->. rewrite E. reflexivity.
Qed.

Lemma where_pos_zeros_like img : where_pos (zeros_like img) = [].
Proof.
  apply where_pos_nil. unfold zeros_like.
  apply Forall_fmap, Forall_true. intros row.
  apply Forall_fmap, Forall_true. intros p. cbn. lia.
Qed.

(** Thresholding a smoothed raster gives back the black and white raster it
    was smoothed from when no pixel crossed the threshold. *)
Lemma threshold_binary_stable T img blurred :
  is_binary img ->
  Forall2 (Forall2 (fun p q => T < q <-> p = 255)) img blurred ->
  threshold_binary T 255 blurred = img.
Proof.
  intros Hbin Hstable. unfold threshold_binary.
  induction Hstable as [|row brow rows brows Hrow _ IH]; [reflexivity|].
  inversion Hbin as [|? ? Hbrow Hbrows]; subst.
  cbn [map]. f_equal; [|apply IH; exact Hbrows].
  clear IH Hbrows Hbin.
  induction Hrow as [|p q ps qs Hpq _ IHr]; [reflexivity|].
  inversion Hbrow as [|? ? Hp Hps]; subst.
  cbn [map]. f_equal; [|apply IHr; exact Hps].
  destruct (T <? q) eqn:E.
  - symmetry. apply Hpq. lia.
  - destruct Hp as [-> | ->]; [reflexivity|].
    exfalso. assert (T < q) by (apply Hpq; reflexivity). lia.
Qed.

Section Normalize.

Variable env : Env.

(** With the flags the source passes, the threshold is Otsu's and the rule is
    the binary one. *)
Lemma binarized_eq img :
  binarized env img
  = threshold_binary (otsu env (GaussianBlur env img (3%nat, 3%nat) 0)) 255
      (GaussianBlur env img (3%nat, 3%nat) 0).
Proof. reflexivity. Qed.

(** When the deskew step is skipped the result is the thresholded raster,
    hence black and white. *)
Lemma normalized_binary_without_foreground img :
  has_foreground (binarized env img) = false -> is_binary (normalized env img).
Proof.
  intros Hf. unfold normalized. rewrite Hf.
  rewrite binarized_eq. apply threshold_binary_is_binary.
Qed.

(** C4, as the code has it.  For a source that decodes, and a library whose
    smoothing keeps the shape of its input and whose resampling at the
    source's own size returns a raster of that size, [_preprocess_image]
    returns a raster with the dimensions of the input.  Its pixels are all 0
    or 255 when the deskew step is skipped; when the rotation is applied the
    result is what the cubic resampling of the binarized image returns, which
    the code does not threshold again. *)
Theorem preprocess_shape_and_levels self img_path w img :
  files w !! img_path ≫= imdecode env = Some img ->
  (forall src, shape (GaussianBlur env src (3%nat, 3%nat) 0) = shape src) ->
  (forall src rot i b,
     shape (warpAffine env src rot ((shape src).2, (shape src).1) i b)
     = shape src) ->
  exists out w',
    _preprocess_image env self img_path w = (Ok out, w')
    /\ shape out = shape img
    /\ (has_foreground (binarized env img) = false -> is_binary out)
    /\ (has_foreground (binarized env img) = true ->
        out = warpAffine env (binarized env img)
                (deskew_rotation env (binarized env img))
                ((shape img).2, (shape img).1) INTER_CUBIC BORDER_REPLICATE).
Proof.
  intros Hd Hblur Hwarp.
  assert (Hb : shape (binarized env img) = shape img).
  { rewrite binarized_eq, shape_threshold_binary. apply Hblur. }
  assert (Hdesk : deskewed env (binarized env img)
                  = warpAffine env (binarized env img)
                      (deskew_rotation env (binarized env img))
                      ((shape img).2, (shape img).1) INTER_CUBIC BORDER_REPLICATE).
  { unfold deskewed. rewrite <- Hb.
    destruct (shape (binarized env img)) as [h w0]. reflexivity. }
  exists (normalized env img). eexists.
  split; [exact (preprocess_decoded env self _ _ _ Hd)|].
  unfold normalized. destruct (has_foreground (binarized env img)) eqn:Hf.
  - split; [|split; [discriminate|intros _; exact Hdesk]].
    rewrite Hdesk, <- Hb. apply Hwarp.
  - split; [exact Hb|]. split; [|discriminate].
    intros _. rewrite binarized_eq. apply threshold_binary_is_binary.
Qed.

(** On a white page every pixel survives thresholding (Otsu's threshold being
    below 255), so every pixel is foreground and the deskew step runs. *)
Lemma white_page_is_all_foreground img row p :
  all_pixels 255 img ->
  GaussianBlur env img (3%nat, 3%nat) 0 = img ->
  otsu env img < 255 ->
  img !! 0%nat = Some row -> row !! 0%nat = Some p ->
  has_foreground (binarized env img) = true.
Proof.
  intros Hw Hblur HT Hrow Hp.
  assert (Hb : binarized env img = img).
  { rewrite binarized_eq. rewrite Hblur.
    rewrite (threshold_binary_white _ _ Hw).
    destruct (otsu env img <? 255) eqn:E; [reflexivity|lia]. }
  rewrite Hb. destruct (has_foreground img) eqn:Hf; [reflexivity|exfalso].
  apply has_foreground_false, where_pos_nil in Hf.
  rewrite Forall_lookup in Hf. specialize (Hf _ _ Hrow).
  rewrite Forall_lookup in Hf. specialize (Hf _ _ Hp).
  unfold all_pixels in Hw.
  rewrite Forall_lookup in Hw. specialize (Hw _ _ Hrow).
  rewrite Forall_lookup in Hw. specialize (Hw _ _ Hp). lia.
Qed.

(** C7.  For a decodable input whose binarized image has at least one
    foreground pixel, the angle is taken from the minimum-area rectangle of
    the coordinates of all foreground pixels (exactly the positions holding a
    positive value), corrected to -(90 + angle) when it is below -45 and to
    -angle otherwise, and the result is the binarized image rotated about its
    centre (w // 2, h // 2) by the corrected angle at scale 1, resampled at
    its own size with cubic interpolation and replicated borders. *)
Theorem preprocess_deskews self img_path w img :
  files w !! img_path ≫= imdecode env = Some img ->
  let thresh := binarized env img in
  let angle := minAreaRect_angle env (where_pos thresh) in
  where_pos thresh ≠ [] ->
  (forall r c, (r, c) ∈ where_pos thresh
     <-> exists row p, thresh !! r = Some row /\ row !! c = Some p /\ 0 < p) /\
  exists corrected,
    ((angle <? -45)%float = true -> corrected = (- (90 + angle))%float) /\
    ((angle <? -45)%float = false -> corrected = (- angle)%float) /\
    (_preprocess_image env self img_path w).1
    = Ok (warpAffine env thresh
            {| rot_center := ((shape thresh).2 / 2, (shape thresh).1 / 2);
               rot_angle := corrected;
               rot_scale := 1%float |}
            ((shape thresh).2, (shape thresh).1) INTER_CUBIC BORDER_REPLICATE).
Proof.
  intros Hd thresh angle Hfg. split; [intros r c; apply elem_of_where_pos|].
  exists (deskew_angle angle). split; [|split].
  - unfold deskew_angle. intros ->. reflexivity.
  - unfold deskew_angle. intros ->. reflexivity.
  - rewrite (preprocess_decoded env self _ _ _ Hd). cbn [fst].
    unfold normalized. fold thresh.
    assert (Hf : has_foreground thresh = true).
    { destruct (has_foreground thresh) eqn:E; [reflexivity|].
      apply has_foreground_false in E. contradiction. }
    rewrite Hf. unfold deskewed, deskew_rotation, getRotationMatrix2D.
    fold angle. destruct (shape thresh) as [h wd]. reflexivity.
Qed.

(** C8.  Blank-page safety.  Normalizing a decodable image never raises.
    When the binarized image has no foreground pixel, neither
    [cv2.minAreaRect] nor the rotation is called: the binarized, all-zero
    raster is returned as it is.  An all-white page comes back all white, or
    uniformly black should the threshold reach 255, given that smoothing and
    resampling leave the uniform white raster unchanged. *)
Theorem preprocess_blank_page self img_path w img :
  files w !! img_path ≫= imdecode env = Some img ->
  (exists r w', _preprocess_image env self img_path w = (Ok r, w')) /\
  (where_pos (binarized env img) = [] ->
     _preprocess_image env self img_path w
     = (Ok (binarized env img),
        {| files := files w; trace := trace w ++ binarize_calls |})
     /\ all_pixels 0 (binarized env img)) /\
  (all_pixels 255 img ->
   GaussianBlur env img (3%nat, 3%nat) 0 = img ->
   deskewed env img = img ->
   exists r w', _preprocess_image env self img_path w = (Ok r, w')
                /\ (r = img \/ r = zeros_like img)).
Proof.
  intros Hd. pose proof (preprocess_decoded env self _ _ _ Hd) as Hrun.
  split; [eauto|]. split.
  - intros Hnil. rewrite Hrun. unfold normalized, preprocess_calls.
    apply has_foreground_false in Hnil as Hf. rewrite Hf, app_nil_r.
    split; [reflexivity|].
    apply where_pos_nil in Hnil.
    pose proof (threshold_binary_is_binary
                  (otsu env (GaussianBlur env img (3%nat, 3%nat) 0))
                  (GaussianBlur env img (3%nat, 3%nat) 0)) as Hbin.
    rewrite <- binarized_eq in Hbin.
    unfold all_pixels, is_binary in *.
    rewrite Forall_lookup in *. intros r row Hrow.
    specialize (Hnil _ _ Hrow). specialize (Hbin _ _ Hrow).
    rewrite Forall_lookup in *. intros c p Hc.
    specialize (Hnil _ _ Hc). specialize (Hbin _ _ Hc). cbn in *. lia.
  - intros Hw Hblur Hwarp. rewrite Hrun. do 2 eexists. split; [reflexivity|].
    unfold normalized.
    assert (Hb : binarized env img
                 = if otsu env img <? 255 then img else zeros_like img).
    { rewrite binarized_eq. rewrite Hblur.
      apply threshold_binary_white. exact Hw. }
    rewrite Hb. destruct (otsu env img <? 255).
    + destruct (has_foreground img); [left; exact Hwarp|left; reflexivity].
    + replace (has_foreground (zeros_like img)) with false; [right; reflexivity|].
      symmetry. apply has_foreground_false, where_pos_zeros_like.
Qed.

(** C9, as the code has it.  A black and white page with zero skew comes back
    pixel for pixel when the 3x3 smoothing leaves every pixel on its side of
    Otsu's threshold (white pixels stay above it, black pixels do not rise
    above it); resampling at a zero angle is the identity. *)
Theorem preprocess_fixes_stable_binary self img_path w img :
  (forall src rot i b,
     PrimFloat.eqb (rot_angle rot) 0%float = true ->
     rot_scale rot = 1%float ->
     warpAffine env src rot ((shape src).2, (shape src).1) i b = src) ->
  files w !! img_path ≫= imdecode env = Some img ->
  is_binary img ->
  zero_skew env img ->
  let blurred := GaussianBlur env img (3%nat, 3%nat) 0 in
  Forall2 (Forall2 (fun p q => otsu env blurred < q <-> p = 255)) img blurred ->
  (_preprocess_image env self img_path w).1 = Ok img.
Proof.
  intros Hwarp Hd Hbin Hskew blurred Hstable.
  rewrite (preprocess_decoded env self _ _ _ Hd). cbn [fst]. f_equal.
  assert (Hb : binarized env img = img).
  { rewrite binarized_eq. apply threshold_binary_stable; assumption. }
  unfold normalized. rewrite Hb.
  destruct (has_foreground img); [|reflexivity].
  unfold deskewed. pose proof (Hwarp img (deskew_rotation env img)) as Hid.
  destruct (shape img) as [h wd] eqn:Hs. apply Hid.
  - unfold deskew_rotation. rewrite Hs. exact Hskew.
  - unfold deskew_rotation. rewrite Hs. reflexivity.
Qed.

End Normalize.

(** ** Concrete scenarios *)

(** ** The reference library keeps shapes *)

Lemma gaussian_blur_3x3_shape src :
  shape (Reference.gaussian_blur_3x3 src) = shape src.
Proof.
  unfold shape, Reference.gaussian_blur_3x3. rewrite length_imap.
  destruct src as [|row rows]; [reflexivity|].
  cbn [imap]. rewrite length_imap. reflexivity.
Qed.

Lemma warp_affine_cubic_shape src M :
  shape (Resample.warp_affine_cubic src M (shape src).2 (shape src).1) = shape src.
Proof.
  unfold Resample.warp_affine_cubic, shape. cbn [fst snd].
  rewrite length_fmap, length_seqZ, Nat2Z.id.
  destruct src as [|row rows]; [reflexivity|].
  cbn [length]. rewrite Nat2Z.inj_succ.
  rewrite (seqZ_cons 0 (Z.succ (Z.of_nat (length rows)))) by lia.
  cbn [fmap list_fmap]. rewrite length_fmap, length_seqZ, Nat2Z.id. reflexivity.
Qed.

Lemma warp_affine_shape src rot i b :
  shape (Resample.warp_affine src rot ((shape src).2, (shape src).1) i b)
  = shape src.
Proof.
  unfold Resample.warp_affine.
  destruct i, b, (Resample.cos_sin_deg (rot_angle rot)); try reflexivity.
  apply warp_affine_cubic_shape.
Qed.

Module Scenarios.
Import Reference.

(** gocr is not installed: nothing happens beyond the error. *)
Lemma recognize_engine_not_found_witness :
  recognize (upright ["cuneiform"] vanished) gocr_engine "page.png"
    (world_with line_page)
  = (Raise (Exn FileNotFoundError
       "Engine 'gocr' not found in PATH. Install it or choose another engine."),
     world_with line_page).
Proof.
  apply (recognize_engine_not_found (upright ["cuneiform"] vanished) gocr_engine).
  vm_compute. reflexivity.
Defined.

(** A path holding no decodable image. *)
Lemma recognize_invalid_image_witness :
  recognize (upright ["gocr"] vanished) gocr_engine "notes.txt"
    (world_with line_page)
  = (Raise (Exn ValueError "Invalid image file"),
     {| files := files (world_with line_page); trace := [Cv2Call cv2_imread] |}).
Proof.
  apply (recognize_invalid_image (upright ["gocr"] vanished) gocr_engine).
  - vm_compute. reflexivity.
  - vm_compute. reflexivity.
Defined.



(** The file scenario of the specification: a stub cuneiform writing WORLD
    and a line end to the path given after -o. *)
Lemma recognize_cuneiform_witness :
  (recognize
     (upright ["cuneiform"]
        (write_output [Byte.x57; Byte.x4f; Byte.x52; Byte.x4c; Byte.x44;
                       Byte.x0d; Byte.x0a]))
     cuneiform_engine "page.png" (world_with line_page)).1
  = Ok (VStr (text_of "WORLD")).
Proof.
  edestruct (recognize_cuneiform
               (upright ["cuneiform"]
                  (write_output [Byte.x57; Byte.x4f; Byte.x52; Byte.x4c; Byte.x44;
                                 Byte.x0d; Byte.x0a]))
               cuneiform_engine "page.png" (world_with line_page))
    as (s & Hs & H);
    [reflexivity | vm_compute; reflexivity | reflexivity | reflexivity
    | vm_compute; reflexivity | reflexivity | vm_compute; reflexivity
    | reflexivity | vm_compute; reflexivity | ].
  rewrite H. vm_compute in Hs. injection Hs as <-. reflexivity.
Defined.

(** C5 as stated fails: on the output bytes 41 FF 42 the call returns "AB",
    the malformed byte dropped, whereas decoding with replacement yields
    "A", U+FFFD, "B". *)
Lemma cuneiform_drops_malformed_bytes :
  (recognize
     (upright ["cuneiform"] (write_output [Byte.x41; Byte.xff; Byte.x42]))
     cuneiform_engine "page.png" (world_with line_page)).1
  = Ok (VStr [65; 66]%N)
  /\ utf8_decode Replace [Byte.x41; Byte.xff; Byte.x42] = Some [65; 65533; 66]%N
  /\ strip (universal_newlines [65; 65533; 66]%N) ≠ [65; 66]%N.
Proof.
  split; [vm_compute; reflexivity|]. split; [vm_compute; reflexivity|].
  vm_compute. discriminate.
Qed.

(** The executable vanished between the availability check and the launch:
    the error propagates and "/tmp/tmpa.txt", created by the call, is still
    there afterwards, while the raster "/tmp/tmpa.png" is gone. *)
Lemma recognize_cuneiform_run_failure_witness :
  exists w',
    recognize (upright ["cuneiform"] vanished) cuneiform_engine "page.png"
      (world_with line_page)
    = (Raise (Exn FileNotFoundError "No such file or directory"), w')
    /\ files (world_with line_page) !! "/tmp/tmpa.txt" = None
    /\ files w' !! "/tmp/tmpa.txt" = Some []
    /\ files w' !! "/tmp/tmpa.png" = None.
Proof.
  edestruct (recognize_cuneiform_run_failure_leaks_output
               (upright ["cuneiform"] vanished)
               cuneiform_engine "page.png" (world_with line_page))
    as (w' & Hrun & Htrace & Hbefore & Hafter);
    [reflexivity | vm_compute; reflexivity | reflexivity | reflexivity
    | vm_compute; reflexivity | reflexivity | vm_compute; reflexivity
    | reflexivity | vm_compute; reflexivity | ].
  exists w'. split; [exact Hrun|]. split; [exact Hbefore|]. split; [exact Hafter|].
  replace w' with (recognize (upright ["cuneiform"] vanished) cuneiform_engine
                     "page.png" (world_with line_page)).2
    by (rewrite Hrun; reflexivity).
  vm_compute. reflexivity.
Defined.

(** C2 as stated fails: in the round-trip scenario the caller receives the
    string "HELLO" itself, which is not a record with an engine field. *)
Lemma recognize_returns_bare_string :
  (recognize (upright ["gocr"] (echo_stdout (text_of "HELLO" ++ [10%N]) [] 0))
     gocr_engine "page.png" (world_with line_page)).1
  = Ok (VStr (text_of "HELLO"))
  /\ forall r : RecognitionResult,
       (recognize (upright ["gocr"] (echo_stdout (text_of "HELLO" ++ [10%N]) [] 0))
          gocr_engine "page.png" (world_with line_page)).1
       ≠ Ok (VRecognitionResult r).
Proof.
  split; [vm_compute; reflexivity|].
  intros r. vm_compute. discriminate.
Qed.

Lemma recognize_returns_text_witness :
  exists t, VStr (text_of "HELLO") = VStr t
            /\ (engine gocr_engine = "gocr" \/ engine gocr_engine = "cuneiform").
Proof.
  eapply (recognize_returns_text
            (upright ["gocr"] (echo_stdout (text_of "HELLO" ++ [10%N]) [] 0))
            gocr_engine "page.png" (world_with line_page)).
  vm_compute. reflexivity.
Defined.

(** The line page has foreground after binarization, so it is deskewed. *)
Lemma preprocess_deskews_witness :
  where_pos (binarized (upright ["gocr"] vanished) line_page) ≠ []
  /\ (_preprocess_image (upright ["gocr"] vanished) gocr_engine "page.png"
        (world_with line_page)).1
     = Ok [[0; 0; 0]; [255; 255; 255]; [255; 255; 255]; [255; 255; 255]; [0; 0; 0]].
Proof.
  assert (Hfg : where_pos (binarized (upright ["gocr"] vanished) line_page) ≠ [])
    by (vm_compute; discriminate).
  split; [exact Hfg|].
  destruct (preprocess_deskews (upright ["gocr"] vanished) gocr_engine "page.png"
              (world_with line_page) line_page)
    as (_ & corrected & _ & _ & H);
    [vm_compute; reflexivity | exact Hfg | ].
  rewrite H. vm_compute. reflexivity.
Defined.

(** A black page skips the deskew step; a white page comes back white. *)
Lemma preprocess_blank_page_witness :
  _preprocess_image (upright ["gocr"] vanished) gocr_engine "page.png"
    (world_with black_page)
  = (Ok black_page,
     {| files := files (world_with black_page); trace := binarize_calls |})
  /\ exists r w',
       _preprocess_image (upright ["gocr"] vanished) gocr_engine "page.png"
         (world_with white_page) = (Ok r, w')
       /\ (r = white_page \/ r = zeros_like white_page).
Proof.
  split.
  - destruct (preprocess_blank_page (upright ["gocr"] vanished) gocr_engine
                "page.png" (world_with black_page) black_page)
      as (_ & Hskip & _); [vm_compute; reflexivity|].
    destruct Hskip as [H _]; [vm_compute; reflexivity|].
    rewrite H. vm_compute. reflexivity.
  - destruct (preprocess_blank_page (upright ["gocr"] vanished) gocr_engine
                "page.png" (world_with white_page) white_page)
      as (_ & _ & Hwhite); [vm_compute; reflexivity|].
    apply Hwhite.
    + unfold all_pixels, white_page. repeat constructor.
    + vm_compute. reflexivity.
    + vm_compute. reflexivity.
Defined.

(** A two-pixel-thick bar survives smoothing and thresholding. *)
Lemma preprocess_fixes_stable_binary_witness :
  (_preprocess_image (upright ["gocr"] vanished) gocr_engine "page.png"
     (world_with bar_page)).1
  = Ok bar_page.
Proof.
  apply (preprocess_fixes_stable_binary (upright ["gocr"] vanished)).
  - intros src rot i b _ _. reflexivity.
  - vm_compute. reflexivity.
  - unfold is_binary, bar_page.
    repeat (apply Forall_cons; split); try apply Forall_nil; auto.
  - vm_compute. reflexivity.
  - vm_compute.
    repeat (apply Forall2_cons; split); try apply Forall2_nil;
      split; intros H; first [reflexivity | discriminate H].
Defined.

(** C9 as stated fails: the line page is black and white and upright, yet
    smoothing spreads its one-pixel line over three rows, all of which end up
    above Otsu's threshold 0; the normalized page carries a three-pixel
    bar. *)
Lemma line_page_is_not_preserved :
  is_binary line_page
  /\ zero_skew (upright ["gocr"] vanished) line_page
  /\ zero_skew (upright ["gocr"] vanished)
       (binarized (upright ["gocr"] vanished) line_page)
  /\ GaussianBlur (upright ["gocr"] vanished) line_page (3%nat, 3%nat) 0
     = [[0; 0; 0]; [64; 64; 64]; [128; 128; 128]; [64; 64; 64]; [0; 0; 0]]
  /\ otsu (upright ["gocr"] vanished)
       [[0; 0; 0]; [64; 64; 64]; [128; 128; 128]; [64; 64; 64]; [0; 0; 0]] = 0
  /\ (_preprocess_image (upright ["gocr"] vanished) gocr_engine "page.png"
        (world_with line_page)).1
     = Ok [[0; 0; 0]; [255; 255; 255]; [255; 255; 255]; [255; 255; 255]; [0; 0; 0]]
  /\ (_preprocess_image (upright ["gocr"] vanished) gocr_engine "page.png"
        (world_with line_page)).1
     ≠ Ok line_page.
Proof.
  split.
  { unfold is_binary, line_page.
    repeat (apply Forall_cons; split); try apply Forall_nil; auto. }
  repeat split; try (vm_compute; reflexivity).
  vm_compute. discriminate.
Qed.

(** A page whose stroke runs along the diagonal, with the rectangle around it
    reported at 45 degrees: the raster comes back at the size of the page,
    rotated by the resampler. *)
Lemma preprocess_shape_and_levels_witness :
  exists out w',
    _preprocess_image (Resample.tilted 45) gocr_engine "page.png"
      (world_with Resample.diagonal_page) = (Ok out, w')
    /\ shape out = shape Resample.diagonal_page
    /\ (has_foreground (binarized (Resample.tilted 45) Resample.diagonal_page) = false ->
        is_binary out)
    /\ (has_foreground (binarized (Resample.tilted 45) Resample.diagonal_page) = true ->
        out = warpAffine (Resample.tilted 45)
                (binarized (Resample.tilted 45) Resample.diagonal_page)
                (deskew_rotation (Resample.tilted 45)
                   (binarized (Resample.tilted 45) Resample.diagonal_page))
                ((shape Resample.diagonal_page).2, (shape Resample.diagonal_page).1)
                INTER_CUBIC BORDER_REPLICATE).
Proof.
  apply (preprocess_shape_and_levels (Resample.tilted 45) gocr_engine "page.png"
           (world_with Resample.diagonal_page) Resample.diagonal_page).
  - vm_compute. reflexivity.
  - intros src. apply gaussian_blur_3x3_shape.
  - intros src rot i b. apply warp_affine_shape.
Defined.

(** C4 as stated fails: the diagonal stroke is rotated by 45 degrees, one way
    or the other according to the angle reported for its rectangle, and either
    way the raster returned has the size of the page and holds intensities
    that are neither 0 nor 255. *)
Lemma rotated_page_is_not_binary :
  Forall (fun reported =>
            exists out,
              (_preprocess_image (Resample.tilted reported) gocr_engine "page.png"
                 (world_with Resample.diagonal_page)).1 = Ok out
              /\ has_foreground (binarized (Resample.tilted reported)
                                   Resample.diagonal_page) = true
              /\ shape out = shape Resample.diagonal_page
              /\ ~ is_binary out)
         [45; -45]%float.
Proof.
  assert (Hlevels : forall out r c row p,
             out !! r = Some row -> row !! c = Some p ->
             0 < p < 255 -> ~ is_binary out).
  { intros out r c row p Hrow Hp Hrange Hbin. unfold is_binary in Hbin.
    rewrite Forall_lookup in Hbin. specialize (Hbin _ _ Hrow).
    rewrite Forall_lookup in Hbin. specialize (Hbin _ _ Hp). lia. }
  repeat constructor.
  - eexists. split; [vm_compute; reflexivity|].
    split; [vm_compute; reflexivity|]. split; [vm_compute; reflexivity|].
    apply (Hlevels _ 3%nat 3%nat [0; 1; 0; 154; 255; 154; 0; 0] 154);
      [vm_compute; reflexivity|reflexivity|lia].
  - eexists. split; [vm_compute; reflexivity|].
    split; [vm_compute; reflexivity|]. split; [vm_compute; reflexivity|].
    apply (Hlevels _ 3%nat 3%nat [255; 131; 161; 154; 131; 154; 183; 255] 154);
      [vm_compute; reflexivity|reflexivity|lia].
Qed.

End Scenarios.

(** * Further properties of the engine wrapper *)

Lemma lstrip_head s c : head (lstrip s) = Some c -> is_space c = false.
Proof.
  induction s as [|a s IH]; cbn [lstrip]; [discriminate|].
  destruct (is_space a) eqn:Ha; [exact IH|].
  cbn. intros [= <-]. exact Ha.
Qed.

Lemma last_rev {A} (l : list A) : last (rev l) = head l.
Proof.
  destruct l as [|a l]; [reflexivity|]. cbn [rev head]. apply last_snoc.
Qed.

Lemma head_rev {A} (l : list A) : head (rev l) = last l.
Proof. rewrite <- (rev_involutive l) at 2. symmetry. apply last_rev. Qed.

(** [lstrip] only removes a prefix. *)
Lemma lstrip_last s c : last (lstrip s) = Some c -> last s = Some c.
Proof.
  induction s as [|a s IH]; cbn [lstrip]; [discriminate|].
  destruct (is_space a); [|auto]. intros H. specialize (IH H).
  destruct s; [discriminate IH|exact IH].
Qed.

(** Neither end of a stripped text is whitespace. *)
Lemma strip_ends s c :
  (head (strip s) = Some c -> is_space c = false)
  /\ (last (strip s) = Some c -> is_space c = false).
Proof.
  unfold strip, rstrip. split.
  - rewrite head_rev. intros H. apply lstrip_last in H.
    rewrite last_rev in H. apply lstrip_head in H. exact H.
  - rewrite last_rev. apply lstrip_head.
Qed.

Section DispatchPaths.

Variable env : Env.

(** What a [try ... finally] with a best-effort removal did, read backwards
    from its outcome. *)
Lemma try_finally_remove_inv {A} (body : M A) p w r w' :
  try_finally body (try_except_OSError_pass (os_remove env p)) w = (r, w') ->
  exists wb, body w = (r, wb)
             /\ w' = {| files := cleanup env p (files wb);
                        trace := trace wb ++ [OsRemove p] |}.
Proof.
  destruct (body w) as [rb wb] eqn:Hb.
  rewrite (try_finally_remove env _ _ _ _ _ Hb). intros [= <- <-].
  exists wb. split; reflexivity.
Qed.

(** Every text [recognize] returns came out of [strip]. *)
Lemma recognize_ok_stripped self img_path w t w' :
  recognize env self img_path w = (Ok (VStr t), w') -> exists s, t = strip s.
Proof.
  unfold recognize. destruct (engine_available env self); cbn [negb];
    [|discriminate].
  unfold bind at 1.
  destruct (_save_temp_png env self img_path w) as [[tmp|e] w1]; [|discriminate].
  unfold bind at 1.
  destruct (try_finally _ _ w1) as [[t0|e] w2] eqn:Htry; [|discriminate].
  unfold ret. intros [= <- <-].
  apply try_finally_remove_inv in Htry as (wb & Hbody & _).
  destruct (decide (engine self = "gocr")) as [Hg|Hg].
  { unfold bind, subprocess_run, ret in Hbody.
    destruct (run_process env _ _) as [fs' [e|proc]]; [discriminate|].
    injection Hbody as <- _. eauto. }
  destruct (decide (engine self = "cuneiform")) as [Hc|Hc]; [|discriminate].
  unfold bind at 1 in Hbody.
  destruct (mkstemp env ".txt" w1) as [[out|e] w3]; [|discriminate].
  unfold bind at 1 in Hbody.
  destruct (subprocess_run env _ w3) as [[proc|e] w4]; [|discriminate].
  apply try_finally_remove_inv in Hbody as (wc & Hread & _).
  unfold bind, ret in Hread.
  destruct (open_read out Ignore w4) as [[s|e] w5]; [|discriminate].
  injection Hread as <- _. eauto.
Qed.

(** X4.  The text [recognize] returns never starts or ends with whitespace. *)
Theorem recognized_text_is_trimmed self img_path w t w' :
  recognize env self img_path w = (Ok (VStr t), w') ->
  (forall c, head t = Some c -> is_space c = false)
  /\ (forall c, last t = Some c -> is_space c = false).
Proof.
  intros H. apply recognize_ok_stripped in H as [s ->].
  split; intros c; apply strip_ends.
Qed.

End DispatchPaths.

Section DispatchErrors.

Variable env : Env.

Lemma try_finally_remove_fst {A} (d : string -> bool) (body : M A) p w :
  (try_finally body
     (try_except_OSError_pass (os_remove (with_remove_denied d env) p)) w).1
  = (body w).1.
Proof.
  destruct (body w) as [r wb] eqn:Hb.
  rewrite (try_finally_remove _ _ _ _ _ _ Hb). reflexivity.
Qed.

Lemma bind_fst_congr {A B} (m : M A) (k1 k2 : A -> M B) w :
  (forall a w', (k1 a w').1 = (k2 a w').1) ->
  (bind m k1 w).1 = (bind m k2 w).1.
Proof.
  intros Hk. unfold bind. destruct (m w) as [[a|e] w']; [apply Hk|reflexivity].
Qed.

Lemma bind_ret_fst_congr {A B} (m1 m2 : M A) (f : A -> B) w :
  (m1 w).1 = (m2 w).1 ->
  (bind m1 (fun x => ret (f x)) w).1 = (bind m2 (fun x => ret (f x)) w).1.
Proof.
  unfold bind, ret. destruct (m1 w) as [r1 w1], (m2 w) as [r2 w2].
  cbn [fst]. intros ->. destruct r2; reflexivity.
Qed.

(** X2.  A refused removal of a temporary file never shows in what
    [recognize] returns or raises: the outcome is the same whatever
    [os.remove] answers. *)
Theorem recognize_outcome_ignores_removal_failures (d1 d2 : string -> bool)
    self img_path w :
  (recognize (with_remove_denied d1 env) self img_path w).1
  = (recognize (with_remove_denied d2 env) self img_path w).1.
Proof.
  unfold recognize.
  change (engine_available (with_remove_denied d1 env) self)
    with (engine_available env self).
  change (engine_available (with_remove_denied d2 env) self)
    with (engine_available env self).
  destruct (engine_available env self); cbn [negb]; [|reflexivity].
  apply bind_fst_congr. intros tmp w1.
  apply bind_ret_fst_congr. rewrite !try_finally_remove_fst.
  destruct (decide (engine self = "gocr")) as [Hg|Hg]; [reflexivity|].
  destruct (decide (engine self = "cuneiform")) as [Hc|Hc]; [|reflexivity].
  apply bind_fst_congr. intros out w2.
  apply bind_fst_congr. intros proc w3.
  rewrite !try_finally_remove_fst. reflexivity.
Qed.

End DispatchErrors.

Section DispatchEdges.

Variable env : Env.

(** Normalization reads; it writes nothing. *)
Lemma preprocess_keeps_files self img_path w :
  files (_preprocess_image env self img_path w).2 = files w.
Proof.
  destruct (files w !! img_path ≫= imdecode env) as [img|] eqn:Hd.
  - rewrite (preprocess_decoded env self _ _ _ Hd). reflexivity.
  - rewrite (preprocess_undecodable env self _ _ Hd). reflexivity.
Qed.

Lemma save_temp_png_frame self img_path w q content :
  files w !! q = Some content ->
  files (_save_temp_png env self img_path w).2 !! q = Some content.
Proof.
  intros Hq. unfold _save_temp_png, bind at 1.
  pose proof (preprocess_keeps_files self img_path w) as Hkeep.
  destruct (_preprocess_image env self img_path w) as [[thresh|e] w1];
    cbn [snd] in *; [|rewrite Hkeep; exact Hq].
  unfold bind at 1, mkstemp. rewrite Hkeep.
  destruct (mkstemp_name env ".png" (files w)) as [tmp|];
    [|cbn; rewrite Hkeep; exact Hq].
  destruct (files w !! tmp) eqn:Htmp; [cbn; rewrite Hkeep; exact Hq|].
  cbn. rewrite insert_insert_eq, lookup_insert_ne; [exact Hq|].
  intros ->. congruence.
Qed.

Lemma save_temp_png_fresh self img_path w tmp w1 :
  _save_temp_png env self img_path w = (Ok tmp, w1) ->
  files w !! tmp = None /\ is_Some (files w1 !! tmp).
Proof.
  unfold _save_temp_png, bind at 1.
  pose proof (preprocess_keeps_files self img_path w) as Hkeep.
  destruct (_preprocess_image env self img_path w) as [[thresh|e] w0];
    cbn [snd] in *; [|discriminate].
  unfold bind, mkstemp, imwrite, ret. rewrite Hkeep.
  destruct (mkstemp_name env ".png" (files w)) as [tmp'|]; [|discriminate].
  destruct (files w !! tmp') eqn:Htmp; [discriminate|].
  intros [= <- <-]. split; [exact Htmp|].
  cbn [files]. rewrite lookup_insert_eq. eauto.
Qed.

(** X5.  Writing the temporary raster never touches a file that already
    exists, the source image included: whatever [_save_temp_png] returns or
    raises, every file present before is present with the same content
    after; and the path it returns on success names a file that did not
    exist before and does now. *)
Theorem save_temp_png_keeps_existing_files self img_path w q content :
  files w !! q = Some content ->
  files (_save_temp_png env self img_path w).2 !! q = Some content
  /\ forall tmp, (_save_temp_png env self img_path w).1 = Ok tmp ->
       tmp ≠ q /\ files w !! tmp = None
       /\ is_Some (files (_save_temp_png env self img_path w).2 !! tmp).
Proof.
  intros Hq. split; [apply save_temp_png_frame; exact Hq|].
  intros tmp Hok.
  destruct (_save_temp_png env self img_path w) as [r w1] eqn:Hs.
  cbn [fst snd] in *. subst r.
  destruct (save_temp_png_fresh _ _ _ _ _ Hs) as [Hfresh Hnow].
  split; [intros ->; congruence|]. split; assumption.
Qed.

(** X6.  GOCR: when the launch itself fails, the exception of
    [subprocess.run] leaves [recognize] unchanged, after the raster has been
    removed on a best-effort basis. *)
Theorem recognize_gocr_run_failure self img_path w img tmp fs' e :
  engine self = "gocr" ->
  engine_available env self = true ->
  files w !! img_path ≫= imdecode env = Some img ->
  mkstemp_name env ".png" (files w) = Some tmp ->
  files w !! tmp = None ->
  run_process env ["gocr"; tmp]
    (<[tmp := imencode_png env (normalized env img)]> (files w))
  = (fs', inl e) ->
  recognize env self img_path w
  = (Raise e,
     {| files := cleanup env tmp fs';
        trace := trace w ++ preprocess_calls env img
                 ++ [Mkstemp tmp; Cv2Call cv2_imwrite;
                     SubprocessRun ["gocr"; tmp]; OsRemove tmp] |}).
Proof.
  intros He Hav Hd Hn Hfree Hrun.
  unfold recognize. rewrite Hav. cbn [negb].
  rewrite (bind_ok _ _ _ _ _ (save_temp_png_decoded env self _ _ _ _ Hd Hn Hfree)).
  rewrite He.
  destruct (decide ("gocr" = "gocr")) as [_|Hne]; [|congruence].
  erewrite bind_raise; cycle 1.
  { apply try_finally_remove.
    unfold bind, subprocess_run. cbn [files trace].
    rewrite Hrun. reflexivity. }
  cbn [files trace]. rewrite <- !app_assoc. reflexivity.
Qed.

(** X7.  CUNEIFORM: when the tool has exited without leaving its output file
    behind, reading it raises [FileNotFoundError] for the output path; the
    removal of the output file and of the raster are both still attempted and
    the error reaches the caller. *)
Theorem recognize_cuneiform_output_missing self img_path w img tmp out fs' proc :
  engine self = "cuneiform" ->
  engine_available env self = true ->
  files w !! img_path ≫= imdecode env = Some img ->
  mkstemp_name env ".png" (files w) = Some tmp ->
  files w !! tmp = None ->
  let fs1 := <[tmp := imencode_png env (normalized env img)]> (files w) in
  let cmd := ["cuneiform"; "-l"; language self; "-f"; "text"; "-o"; out; tmp] in
  mkstemp_name env ".txt" fs1 = Some out ->
  fs1 !! out = None ->
  run_process env cmd (<[out := []]> fs1) = (fs', inr proc) ->
  fs' !! out = None ->
  recognize env self img_path w
  = (Raise (Exn FileNotFoundError out),
     {| files := cleanup env tmp fs';
        trace := trace w ++ preprocess_calls env img
                 ++ [Mkstemp tmp; Cv2Call cv2_imwrite; Mkstemp out;
                     SubprocessRun cmd; OpenRead out; OsRemove out;
                     OsRemove tmp] |}).
Proof.
  intros He Hav Hd Hn Hfree fs1 cmd Hon Hofree Hrun Hgone.
  unfold recognize. rewrite Hav. cbn [negb].
  rewrite (bind_ok _ _ _ _ _ (save_temp_png_decoded env self _ _ _ _ Hd Hn Hfree)).
  rewrite He.
  destruct (decide ("cuneiform" = "gocr")) as [Hbad|_]; [discriminate Hbad|].
  destruct (decide ("cuneiform" = "cuneiform")) as [_|Hne]; [|congruence].
  erewrite bind_raise; cycle 1.
  { apply try_finally_remove.
    unfold bind at 1, mkstemp. cbn [files trace].
    fold fs1. rewrite Hon, Hofree.
    unfold bind at 1, subprocess_run. cbn [files trace].
    fold cmd. rewrite Hrun.
    apply try_finally_remove.
    unfold bind, open_read, log. cbn [files trace].
    rewrite Hgone. reflexivity. }
  cbn [files trace]. rewrite <- !app_assoc.
  replace (cleanup env out fs') with fs'; [reflexivity|].
  unfold cleanup. destruct (remove_denied env out); [reflexivity|].
  symmetry. apply delete_id. exact Hgone.
Qed.

(** X8.  CUNEIFORM: when no temporary output file can be created, the error
    of [mkstemp] reaches the caller, no process is launched and the raster
    written a moment before is removed on a best-effort basis. *)
Theorem recognize_cuneiform_no_output_file self img_path w img tmp :
  engine self = "cuneiform" ->
  engine_available env self = true ->
  files w !! img_path ≫= imdecode env = Some img ->
  mkstemp_name env ".png" (files w) = Some tmp ->
  files w !! tmp = None ->
  let fs1 := <[tmp := imencode_png env (normalized env img)]> (files w) in
  mkstemp_name env ".txt" fs1 = None ->
  exists e,
    is_OSError e = true /\
    recognize env self img_path w
    = (Raise e,
       {| files := cleanup env tmp fs1;
          trace := trace w ++ preprocess_calls env img
                   ++ [Mkstemp tmp; Cv2Call cv2_imwrite; OsRemove tmp] |}).
Proof.
  intros He Hav Hd Hn Hfree fs1 Hon.
  exists (Exn OSError "mkstemp"). split; [reflexivity|].
  unfold recognize. rewrite Hav. cbn [negb].
  rewrite (bind_ok _ _ _ _ _ (save_temp_png_decoded env self _ _ _ _ Hd Hn Hfree)).
  rewrite He.
  destruct (decide ("cuneiform" = "gocr")) as [Hbad|_]; [discriminate Hbad|].
  destruct (decide ("cuneiform" = "cuneiform")) as [_|Hne]; [|congruence].
  erewrite bind_raise; cycle 1.
  { apply try_finally_remove.
    unfold bind at 1, mkstemp. cbn [files trace].
    fold fs1. rewrite Hon. reflexivity. }
  cbn [files trace]. rewrite <- !app_assoc. reflexivity.
Qed.

End DispatchEdges.

Section DispatchTrace.

Variable env : Env.

Lemma preprocess_calls_quiet img e :
  e ∈ preprocess_calls env img -> exists f, e = Cv2Call f.
Proof.
  unfold preprocess_calls, binarize_calls, deskew_calls.
  destruct (has_foreground _); cbn; intros H;
    repeat (apply elem_of_cons in H as [->|H]; [eauto|]);
    inversion H.
Qed.

Lemma filter_run_quiet evs :
  (forall e, e ∈ evs -> exists f, e = Cv2Call f) ->
  filter (fun e => is_run e = true) evs = [].
Proof.
  induction evs as [|e evs IH]; intros Hq; [reflexivity|].
  destruct (Hq e) as [f ->]; [left|].
  rewrite filter_cons_False by (cbn; discriminate).
  apply IH. intros e' He'. apply Hq. right. exact He'.
Qed.

Ltac count_runs :=
  cbn [app];
  repeat first
    [ rewrite filter_cons_False by (cbn; discriminate)
    | rewrite filter_cons_True by reflexivity ];
  rewrite ?filter_nil; cbn [length]; lia.

Ltac run_args Hin :=
  cbn [app] in Hin;
  repeat (apply elem_of_cons in Hin as [Hin|Hin];
          [ first [ discriminate Hin
                  | injection Hin as ->;
                    match goal with
                    | He : engine _ = _ |- _ =>
                        rewrite He;
                        first [ left; split; reflexivity
                              | right; split; [reflexivity|eexists; reflexivity] ]
                    end ]
          | ]);
  inversion Hin.

Ltac close_trace :=
  cbn [trace]; rewrite <- ?app_assoc;
  eexists; split; [reflexivity|];
  split; [count_runs|let Hin := fresh "Hin" in intros ? Hin; run_args Hin].

(** The dispatch proper, started on the raster [tmp]: at most one launch,
    of the selected engine, with [tmp] as last argument. *)
Lemma dispatch_body_trace self tmp w r wb :
  (if decide (engine self = "gocr") then
     proc <~ subprocess_run env [engine self; tmp];
     ret (strip (stdout proc))
   else if decide (engine self = "cuneiform") then
     out_path <~ mkstemp env ".txt";
     proc <~ subprocess_run env
               [engine self; "-l"; language self; "-f"; "text"; "-o";
                out_path; tmp];
     try_finally
       (s <~ open_read out_path Ignore; ret (strip s))
       (try_except_OSError_pass (os_remove env out_path))
   else raise (Exn ValueError ("Unsupported engine: " +:+ engine self))) w
  = (r, wb) ->
  exists evs,
    trace wb = trace w ++ evs
    /\ (length (filter (fun e => is_run e = true) evs) <= 1)%nat
    /\ forall argv, SubprocessRun argv ∈ evs ->
         engine self = "gocr" /\ argv = ["gocr"; tmp]
         \/ engine self = "cuneiform"
            /\ exists out, argv = ["cuneiform"; "-l"; language self; "-f"; "text";
                                   "-o"; out; tmp].
Proof.
  destruct (decide (engine self = "gocr")) as [Hg|Hg].
  { unfold bind, subprocess_run, ret.
    destruct (run_process env _ _) as [fs' [e|proc]]; intros [= <- <-];
      close_trace. }
  destruct (decide (engine self = "cuneiform")) as [Hc|Hc].
  2:{ intros [= <- <-]. exists []. rewrite app_nil_r.
      split; [reflexivity|]. split; [count_runs|]. intros argv H. inversion H. }
  unfold bind at 1, mkstemp.
  destruct (mkstemp_name env ".txt" (files w)) as [out|].
  2:{ intros [= <- <-]. exists []. rewrite app_nil_r.
      split; [reflexivity|]. split; [count_runs|]. intros argv H. inversion H. }
  destruct (files w !! out).
  { intros [= <- <-]. exists []. rewrite app_nil_r.
    split; [reflexivity|]. split; [count_runs|]. intros argv H. inversion H. }
  unfold bind at 1, subprocess_run. cbn [files trace].
  destruct (run_process env _ _) as [fs' [e|proc]].
  { intros [= <- <-]. close_trace. }
  intros Htry. apply try_finally_remove_inv in Htry as (wr & Hread & ->).
  assert (Htr : trace wr = (trace w ++ [Mkstemp out])
                           ++ [SubprocessRun [engine self; "-l"; language self;
                                              "-f"; "text"; "-o"; out; tmp]]
                           ++ [OpenRead out]).
  { unfold bind, open_read, ret, log in Hread. cbn [files trace] in Hread.
    repeat case_match; simplify_eq; cbn [trace]; rewrite <- !app_assoc;
      reflexivity. }
  cbn [trace]. rewrite Htr. close_trace.
Qed.

Lemma dispatch_trace self tmp w :
  exists evs,
    trace (try_finally
             (if decide (engine self = "gocr") then
                proc <~ subprocess_run env [engine self; tmp];
                ret (strip (stdout proc))
              else if decide (engine self = "cuneiform") then
                out_path <~ mkstemp env ".txt";
                proc <~ subprocess_run env
                          [engine self; "-l"; language self; "-f"; "text"; "-o";
                           out_path; tmp];
                try_finally
                  (s <~ open_read out_path Ignore; ret (strip s))
                  (try_except_OSError_pass (os_remove env out_path))
              else raise (Exn ValueError ("Unsupported engine: " +:+ engine self)))
             (try_except_OSError_pass (os_remove env tmp)) w).2
    = trace w ++ evs
    /\ (length (filter (fun e => is_run e = true) evs) <= 1)%nat
    /\ forall argv, SubprocessRun argv ∈ evs ->
         engine self = "gocr" /\ argv = ["gocr"; tmp]
         \/ engine self = "cuneiform"
            /\ exists out, argv = ["cuneiform"; "-l"; language self; "-f"; "text";
                                   "-o"; out; tmp].
Proof.
  match goal with
  | |- context [try_finally ?b _ w] => destruct (b w) as [r wb] eqn:Hb
  end.
  rewrite (try_finally_remove env _ _ _ _ _ Hb). cbn [snd trace].
  apply dispatch_body_trace in Hb as (evs & -> & Hcount & Hargs).
  exists (evs ++ [OsRemove tmp]). split; [rewrite app_assoc; reflexivity|].
  split.
  - rewrite filter_app. rewrite (filter_cons_False _ _ []) by (cbn; discriminate).
    rewrite filter_nil, app_nil_r. exact Hcount.
  - intros argv Hin. apply elem_of_app in Hin as [Hin|Hin]; [auto|].
    apply elem_of_cons in Hin as [Hin|Hin]; [discriminate Hin|inversion Hin].
Qed.

(** Up to the dispatch nothing is launched, and a raster path handed on
    was created by [mkstemp] in this call. *)
Lemma save_temp_png_trace self img_path w r w1 :
  _save_temp_png env self img_path w = (r, w1) ->
  exists evs,
    trace w1 = trace w ++ evs
    /\ filter (fun e => is_run e = true) evs = []
    /\ (forall argv, SubprocessRun argv ∉ evs)
    /\ forall tmp, r = Ok tmp -> Mkstemp tmp ∈ evs.
Proof.
  unfold _save_temp_png, bind at 1.
  destruct (files w !! img_path ≫= imdecode env) as [img|] eqn:Hd.
  2:{ rewrite (preprocess_undecodable env self _ _ Hd). intros [= <- <-].
      exists [Cv2Call cv2_imread]. split; [reflexivity|].
      split; [reflexivity|]. split; [|discriminate].
      intros argv H.
      apply elem_of_cons in H as [H|H]; [discriminate H|inversion H]. }
  rewrite (preprocess_decoded env self _ _ _ Hd).
  pose proof (preprocess_calls_quiet img) as Hquiet.
  pose proof (filter_run_quiet _ Hquiet) as Hnorun.
  set (pre := preprocess_calls env img) in *.
  assert (Hpre : forall argv, SubprocessRun argv ∉ pre).
  { intros argv Hin. apply Hquiet in Hin as [f Hf]. discriminate Hf. }
  unfold bind, mkstemp, imwrite, ret. cbn [files trace].
  destruct (mkstemp_name env ".png" (files w)) as [tmp|].
  2:{ intros [= <- <-]. exists pre. cbn [trace]. auto.
      repeat split; auto. discriminate. }
  destruct (files w !! tmp).
  { intros [= <- <-]. exists pre. cbn [trace].
    repeat split; auto. discriminate. }
  intros [= <- <-]. cbn [trace].
  exists (pre ++ [Mkstemp tmp; Cv2Call cv2_imwrite]).
  split; [rewrite <- !app_assoc; reflexivity|].
  split; [rewrite filter_app, Hnorun; reflexivity|].
  split.
  - intros argv Hin. apply elem_of_app in Hin as [Hin|Hin]; [destruct (Hpre _ Hin)|].
    apply elem_of_cons in Hin as [Hin|Hin]; [discriminate Hin|].
    apply elem_of_cons in Hin as [Hin|Hin]; [discriminate Hin|inversion Hin].
  - intros tmp' [= <-]. apply elem_of_app. right. left.
Qed.

(** What one call of [recognize] adds to the log. *)
Lemma recognize_trace self img_path w :
  exists evs,
    trace (recognize env self img_path w).2 = trace w ++ evs
    /\ (length (filter (fun e => is_run e = true) evs) <= 1)%nat
    /\ forall argv, SubprocessRun argv ∈ evs ->
         exists tmp,
           Mkstemp tmp ∈ evs
           /\ (engine self = "gocr" /\ argv = ["gocr"; tmp]
               \/ engine self = "cuneiform"
                  /\ exists out, argv = ["cuneiform"; "-l"; language self; "-f";
                                         "text"; "-o"; out; tmp]).
Proof.
  unfold recognize. destruct (engine_available env self); cbn [negb].
  2:{ exists []. cbn [snd raise]. rewrite app_nil_r. split; [reflexivity|].
      split; [count_runs|]. intros argv H. inversion H. }
  unfold bind at 1.
  destruct (_save_temp_png env self img_path w) as [[tmp|e] w1] eqn:Hs;
    apply save_temp_png_trace in Hs as (evs0 & Htr0 & Hnorun & Hnone & Hmk).
  2:{ exists evs0. cbn [snd]. split; [exact Htr0|].
      split; [rewrite Hnorun; cbn; lia|]. intros argv H. destruct (Hnone _ H). }
  unfold bind at 1.
  destruct (dispatch_trace self tmp w1) as (evs & Htr & Hcount & Hargs).
  destruct (try_finally _ _ w1) as [r wd]. cbn [snd] in Htr.
  exists (evs0 ++ evs). split.
  { destruct r; cbn [snd ret]; rewrite Htr, Htr0, <- app_assoc; reflexivity. }
  split; [rewrite filter_app, Hnorun; exact Hcount|].
  intros argv Hin. apply elem_of_app in Hin as [Hin|Hin]; [destruct (Hnone _ Hin)|].
  exists tmp. split; [|exact (Hargs _ Hin)].
  apply elem_of_app; left; apply Hmk; reflexivity.
Qed.

(** X9.  One call of [recognize] launches at most one external process, and
    only ever the selected engine on the raster file created by that same
    call, passed as the last argument. *)
Theorem recognize_runs_at_most_one_process self img_path w :
  exists evs,
    trace (recognize env self img_path w).2 = trace w ++ evs
    /\ (length (filter (fun e => is_run e = true) evs) <= 1)%nat
    /\ forall argv, SubprocessRun argv ∈ evs ->
         head argv = Some (engine self)
         /\ exists tmp, last argv = Some tmp /\ Mkstemp tmp ∈ evs.
Proof.
  destruct (recognize_trace self img_path w) as (evs & Htr & Hcount & Hargs).
  exists evs. split; [exact Htr|]. split; [exact Hcount|].
  intros argv Hin.
  destruct (Hargs _ Hin) as (tmp & Hmk & [[He ->]|[He [out ->]]]);
    (split; [cbn; congruence|]); exists tmp; (split; [reflexivity|exact Hmk]).
Qed.

End DispatchTrace.

(** * The handlers of the window *)

Section RunOcr.

Variable env : Env.

(** [run_ocr] past its two guards: the image is selected and the engine is
    on the search path. *)
Lemma run_ocr_dispatch app w path :
  image_path app = Some path -> path ≠ "" ->
  engine_available env (selected app) = true ->
  run_ocr env app w
  = match recognize env (selected app) path w with
    | (Ok (VStr t), w') =>
      (Ok tt,
       {| ocr := selected app; image_path := image_path app;
          tk_img := tk_img app; result_text := t;
          engine_var := engine_var app; lang_var := lang_var app;
          status := "OCR complete (" +:+ engine_var app +:+ "). "
                    +:+ pretty (length t) +:+ " characters recognized.";
          text_box := t; messages := messages app |}, w')
    | (Ok (VRecognitionResult _), w') =>
      (Ok tt,
       {| ocr := selected app; image_path := image_path app;
          tk_img := tk_img app; result_text := result_text app;
          engine_var := engine_var app; lang_var := lang_var app;
          status := "Running OCR with " +:+ engine_var app +:+ "...";
          text_box := text_box app;
          messages := messages app ++ [showerror "Error" "not a string"] |}, w')
    | (Raise e, w') =>
      (Ok tt,
       {| ocr := selected app; image_path := image_path app;
          tk_img := tk_img app; result_text := result_text app;
          engine_var := engine_var app; lang_var := lang_var app;
          status := "Running OCR with " +:+ engine_var app +:+ "...";
          text_box := text_box app;
          messages := messages app ++ [showerror "Error" (exn_msg e)] |}, w')
    end.
Proof.
  intros Hpath Hne Hav. unfold run_ocr, ui_bind at 1, get_self.
  rewrite Hpath. destruct path as [|c path']; [contradiction|].
  unfold ui_bind at 1, update, try_except_Exception.
  unfold ui_bind at 1, get_self. cbn [ocr set_ocr].
  fold (selected app). rewrite Hav. cbn [negb].
  unfold ui_bind, update, lift, recognize_text, messagebox, update, bind.
  destruct (recognize env (selected app) (String c path') w) as [[[t|r]|e] w'];
    unfold ret, raise, set_status, set_text_box, set_result_text, set_ocr,
      add_message;
    cbn [ocr image_path tk_img result_text engine_var lang_var status text_box
         messages exn_msg];
    rewrite ?Hpath; reflexivity.
Qed.

(** X10.  A successful recognition started from the window: the engine is
    configured from the two widgets (a blank language becoming "eng"), the
    text is stored as the result and shown in the text box, the status line
    reports its length in characters, and no dialog appears. *)
Theorem run_ocr_success app w path t w' :
  image_path app = Some path -> path ≠ "" ->
  engine_available env (selected app) = true ->
  recognize env (selected app) path w = (Ok (VStr t), w') ->
  run_ocr env app w
  = (Ok tt,
     {| ocr := selected app; image_path := image_path app;
        tk_img := tk_img app; result_text := t;
        engine_var := engine_var app; lang_var := lang_var app;
        status := "OCR complete (" +:+ engine_var app +:+ "). "
                  +:+ pretty (length t) +:+ " characters recognized.";
        text_box := t; messages := messages app |}, w').
Proof.
  intros Hpath Hne Hav Hrec.
  rewrite (run_ocr_dispatch _ _ _ Hpath Hne Hav), Hrec. reflexivity.
Qed.

(** X11.  A failed recognition started from the window: the exception is
    caught and shown in one "Error" dialog; the previous result and the text
    box are left as they were, and the status line stays at "Running OCR
    with ...". *)
Theorem run_ocr_failure app w path e w' :
  image_path app = Some path -> path ≠ "" ->
  engine_available env (selected app) = true ->
  recognize env (selected app) path w = (Raise e, w') ->
  run_ocr env app w
  = (Ok tt,
     {| ocr := selected app; image_path := image_path app;
        tk_img := tk_img app; result_text := result_text app;
        engine_var := engine_var app; lang_var := lang_var app;
        status := "Running OCR with " +:+ engine_var app +:+ "...";
        text_box := text_box app;
        messages := messages app ++ [showerror "Error" (exn_msg e)] |}, w').
Proof.
  intros Hpath Hne Hav Hrec.
  rewrite (run_ocr_dispatch _ _ _ Hpath Hne Hav), Hrec. reflexivity.
Qed.

(** [run_ocr] stopped by its second guard. *)
Lemma run_ocr_missing app w path :
  image_path app = Some path -> path ≠ "" ->
  engine_available env (selected app) = false ->
  run_ocr env app w
  = (Ok tt,
     {| ocr := selected app; image_path := image_path app;
        tk_img := tk_img app; result_text := result_text app;
        engine_var := engine_var app; lang_var := lang_var app;
        status := status app; text_box := text_box app;
        messages := messages app
                    ++ [showerror "Engine not found"
                          (engine_missing_message (engine_var app))] |}, w).
Proof.
  intros Hpath Hne Hav. unfold run_ocr, ui_bind at 1, get_self.
  rewrite Hpath. destruct path as [|c path']; [contradiction|].
  unfold ui_bind at 1, update, try_except_Exception.
  unfold ui_bind at 1, get_self. cbn [ocr set_ocr].
  fold (selected app). rewrite Hav. cbn [negb].
  unfold messagebox, update, set_ocr, add_message.
  cbn [ocr image_path tk_img result_text engine_var lang_var status text_box
       messages].
  rewrite ?Hpath. reflexivity.
Qed.

(** X12.  With an image selected and the chosen engine missing from the
    search path, the window shows the "Engine not found" dialog and does
    nothing else to the world: [recognize] is not entered, the previous
    result stays, only the engine object has taken the widget values. *)
Theorem run_ocr_engine_missing app w path :
  image_path app = Some path -> path ≠ "" ->
  engine_available env (selected app) = false ->
  run_ocr env app w
  = (Ok tt,
     {| ocr := selected app; image_path := image_path app;
        tk_img := tk_img app; result_text := result_text app;
        engine_var := engine_var app; lang_var := lang_var app;
        status := status app; text_box := text_box app;
        messages := messages app
                    ++ [showerror "Engine not found"
                          (engine_missing_message (engine_var app))] |}, w)
  /\ trace (run_ocr env app w).2 = trace w.
Proof.
  intros Hpath Hne Hav. rewrite (run_ocr_missing _ _ _ Hpath Hne Hav).
  split; reflexivity.
Qed.

(** X13.  [run_ocr] never raises, whatever the widgets hold and whatever the
    engine does, and it shows at most one dialog. *)
Theorem run_ocr_never_raises app w :
  (run_ocr env app w).1.1 = Ok tt
  /\ (messages (run_ocr env app w).1.2 = messages app
      \/ exists m, messages (run_ocr env app w).1.2 = messages app ++ [m]).
Proof.
  destruct (image_path app) as [path|] eqn:Hpath.
  2:{ unfold run_ocr, ui_bind, get_self. rewrite Hpath.
      split; [reflexivity|]. right. eexists. reflexivity. }
  destruct (decide (path = "")) as [->|Hne].
  { unfold run_ocr, ui_bind, get_self. rewrite Hpath.
    split; [reflexivity|]. right. eexists. reflexivity. }
  destruct (engine_available env (selected app)) eqn:Hav.
  - rewrite (run_ocr_dispatch _ _ _ Hpath Hne Hav).
    destruct (recognize env (selected app) path w) as [[[t|r]|e] w'];
      (split; [reflexivity|]); cbn [fst snd messages]; eauto.
  - rewrite (run_ocr_missing _ _ _ Hpath Hne Hav).
    split; [reflexivity|]. right. eexists. reflexivity.
Qed.

End RunOcr.

Section RunOcrLanguage.

Variable env : Env.

Lemma selected_language_nonempty app : language (selected app) ≠ "".
Proof.
  unfold selected, str_or. cbn [language].
  destruct (decide (str_strip (lang_var app) = "")) as [_|Hne];
    [discriminate|exact Hne].
Qed.

(** X14.  Whatever the language entry holds, a cuneiform process started by
    [run_ocr] is given a non-empty language after [-l]: the entry stripped of
    surrounding whitespace, or "eng" when nothing is left of it. *)
Theorem run_ocr_cuneiform_language app w :
  exists evs,
    trace (run_ocr env app w).2 = trace w ++ evs
    /\ forall argv, SubprocessRun argv ∈ evs -> engine_var app = "cuneiform" ->
         exists lang out tmp,
           argv = ["cuneiform"; "-l"; lang; "-f"; "text"; "-o"; out; tmp]
           /\ lang ≠ ""
           /\ lang = (if decide (str_strip (lang_var app) = "")
                      then "eng" else str_strip (lang_var app)).
Proof.
  assert (Hquiet : forall r : Result unit * OCRApp,
             exists evs, trace (r, w).2 = trace w ++ evs
                         /\ forall argv, SubprocessRun argv ∈ evs -> False).
  { intros r. exists []. cbn. rewrite app_nil_r. split; [reflexivity|].
    intros argv H. inversion H. }
  assert (Hstill : forall r : Result unit * OCRApp,
             exists evs,
               trace (r, w).2 = trace w ++ evs
               /\ forall argv, SubprocessRun argv ∈ evs ->
                    engine_var app = "cuneiform" ->
                    exists lang out tmp,
                      argv = ["cuneiform"; "-l"; lang; "-f"; "text"; "-o"; out; tmp]
                      /\ lang ≠ ""
                      /\ lang = (if decide (str_strip (lang_var app) = "")
                                 then "eng" else str_strip (lang_var app))).
  { intros r. destruct (Hquiet r) as (evs & Htr & Hno). exists evs.
    split; [exact Htr|]. intros argv Hin. destruct (Hno _ Hin). }
  destruct (image_path app) as [path|] eqn:Hpath.
  2:{ unfold run_ocr, ui_bind, get_self. rewrite Hpath. apply Hstill. }
  destruct (decide (path = "")) as [->|Hne].
  { unfold run_ocr, ui_bind, get_self. rewrite Hpath. apply Hstill. }
  destruct (engine_available env (selected app)) eqn:Hav.
  2:{ rewrite (run_ocr_missing _ _ _ _ Hpath Hne Hav). apply Hstill. }
  rewrite (run_ocr_dispatch _ _ _ _ Hpath Hne Hav).
  destruct (recognize_trace env (selected app) path w) as (evs & Htr & _ & Hargs).
  exists evs. split.
  { destruct (recognize env (selected app) path w) as [[[t|r]|e] w'];
      exact Htr. }
  intros argv Hin Hcun.
  destruct (Hargs _ Hin) as (tmp & _ & [[Hg _]|[_ [out ->]]]).
  { cbn [selected engine] in Hg. congruence. }
  exists (language (selected app)), out, tmp.
  split; [reflexivity|]. split; [apply selected_language_nonempty|].
  reflexivity.
Qed.

End RunOcrLanguage.

(** ** Saving the result *)

(** *** The encoder is inverted by the decoder *)

Section Utf8RoundTrip.

Local Open Scope N_scope.

Ltac div_lia := zify; Z.to_euclidean_division_equations; lia.

Lemma to_N_byte_of_N n : n < 256 -> Byte.to_N (byte_of_N n) = n.
Proof.
  intros Hn. unfold byte_of_N. destruct (Byte.of_N n) as [b|] eqn:E; cbn.
  - apply Byte.to_of_N. exact E.
  - apply Byte.of_N_None_iff in E. lia.
Qed.

Lemma land_low k a q : q < 2 ^ k -> N.land (a * 2 ^ k + q) (N.ones k) = q.
Proof.
  intros Hq. rewrite N.land_ones.
  rewrite N.add_comm, N.Div0.mod_add. apply N.mod_small. exact Hq.
Qed.

Lemma cont_byte r : r < 64 -> is_cont (128 + r) = true /\ cont_bits (128 + r) = r.
Proof.
  intros Hr. split.
  - unfold is_cont. apply andb_true_intro. split; [apply N.leb_le|apply N.ltb_lt]; lia.
  - unfold cont_bits. apply (land_low 6 2 r). exact Hr.
Qed.

Ltac decide_ltb :=
  repeat match goal with
  | |- context [(?a <? ?b)] =>
      first [ replace (a <? b) with true by (symmetry; apply N.ltb_lt; div_lia)
            | replace (a <? b) with false by (symmetry; apply N.ltb_ge; div_lia) ]
  | |- context [(?a <=? ?b)] =>
      first [ replace (a <=? b) with true by (symmetry; apply N.leb_le; div_lia)
            | replace (a <=? b) with false by (symmetry; apply N.leb_gt; div_lia) ]
  | |- context [(?a =? ?b)] =>
      first [ replace (a =? b) with true by (symmetry; apply N.eqb_eq; div_lia)
            | replace (a =? b) with false by (symmetry; apply N.eqb_neq; div_lia) ]
  end.

Lemma utf8_decode_encode_char h c bs rest :
  utf8_encode_char c = Some bs ->
  utf8_decode h (bs ++ rest) = cons c <$> utf8_decode h rest.
Proof.
  unfold utf8_encode_char.
  destruct (c <? 128) eqn:H1.
  { intros [= <-]. apply N.ltb_lt in H1. cbn [app utf8_decode]. cbv zeta.
    rewrite to_N_byte_of_N by lia. decide_ltb. reflexivity. }
  apply N.ltb_ge in H1.
  destruct (c <? 2048) eqn:H2.
  { intros [= <-]. apply N.ltb_lt in H2. cbn [app].
    remember (byte_of_N (128 + c mod 64) :: rest) as t0 eqn:Ht0.
    cbn [utf8_decode]. cbv zeta.
    rewrite to_N_byte_of_N by div_lia. decide_ltb. subst t0. cbv beta iota.
    rewrite to_N_byte_of_N by div_lia.
    destruct (cont_byte (c mod 64)) as [-> ->]; [div_lia|].
    change 31 with (N.ones 5).
    replace (192 + c / 64) with (6 * 2 ^ 5 + c / 64) by reflexivity.
    rewrite land_low by (change (2^5) with 32; div_lia).
    f_equal. f_equal. div_lia. }
  apply N.ltb_ge in H2.
  destruct (c <? 65536) eqn:H3.
  { apply N.ltb_lt in H3.
    destruct ((55296 <=? c) && (c <? 57344)) eqn:Hs; [discriminate|].
    assert (Hns : c < 55296 \/ 57344 <= c).
    { apply andb_false_iff in Hs as [Hs|Hs];
        [apply N.leb_gt in Hs|apply N.ltb_ge in Hs]; lia. }
    intros [= <-]. cbn [app].
    remember (byte_of_N (128 + (c / 64) mod 64)
              :: byte_of_N (128 + c mod 64) :: rest) as t0 eqn:Ht0.
    cbn [utf8_decode]. cbv zeta.
    rewrite to_N_byte_of_N by div_lia. decide_ltb. subst t0. cbv beta iota.
    rewrite to_N_byte_of_N by div_lia.
    destruct (cont_byte ((c / 64) mod 64)) as [Hc1 Hb1]; [div_lia|].
    rewrite Hc1, Hb1. cbn [negb orb].
    replace ((224 + c / 4096 =? 224) && (128 + (c / 64) mod 64 <? 160)) with false.
    2:{ symmetry. apply andb_false_iff.
        destruct (N.eq_dec (c / 4096) 0) as [E|E];
          [right; apply N.ltb_ge; div_lia|left; apply N.eqb_neq; lia]. }
    replace ((224 + c / 4096 =? 237) && (160 <=? 128 + (c / 64) mod 64)) with false.
    2:{ symmetry. apply andb_false_iff.
        destruct (N.eq_dec (c / 4096) 13) as [E|E];
          [right; apply N.leb_gt; div_lia|left; apply N.eqb_neq; lia]. }
    cbn [orb].
    remember (byte_of_N (128 + c mod 64) :: rest) as t1 eqn:Ht1.
    subst t1. cbv beta iota.
    rewrite to_N_byte_of_N by div_lia.
    destruct (cont_byte (c mod 64)) as [-> ->]; [div_lia|].
    change 15 with (N.ones 4).
    replace (224 + c / 4096) with (14 * 2 ^ 4 + c / 4096) by reflexivity.
    rewrite land_low by (change (2^4) with 16; div_lia).
    f_equal. f_equal. div_lia. }
  apply N.ltb_ge in H3.
  destruct (c <? 1114112) eqn:H4; [|discriminate].
  apply N.ltb_lt in H4.
  intros [= <-]. cbn [app].
  remember (byte_of_N (128 + (c / 4096) mod 64)
            :: byte_of_N (128 + (c / 64) mod 64)
            :: byte_of_N (128 + c mod 64) :: rest) as t0 eqn:Ht0.
  cbn [utf8_decode]. cbv zeta.
  rewrite to_N_byte_of_N by div_lia. decide_ltb. subst t0. cbv beta iota.
  rewrite to_N_byte_of_N by div_lia.
  destruct (cont_byte ((c / 4096) mod 64)) as [Hc1 Hb1]; [div_lia|].
  rewrite Hc1, Hb1. cbn [negb orb].
  replace ((240 + c / 262144 =? 240) && (128 + (c / 4096) mod 64 <? 144)) with false.
  2:{ symmetry. apply andb_false_iff.
      destruct (N.eq_dec (c / 262144) 0) as [E|E];
        [right; apply N.ltb_ge; div_lia|left; apply N.eqb_neq; lia]. }
  replace ((240 + c / 262144 =? 244) && (144 <=? 128 + (c / 4096) mod 64)) with false.
  2:{ symmetry. apply andb_false_iff.
      destruct (N.eq_dec (c / 262144) 4) as [E|E];
        [right; apply N.leb_gt; div_lia|left; apply N.eqb_neq; lia]. }
  cbn [orb]. cbv beta iota.
  rewrite to_N_byte_of_N by div_lia.
  destruct (cont_byte ((c / 64) mod 64)) as [Hc2 Hb2]; [div_lia|].
  rewrite Hc2, Hb2. cbn [negb]. cbv beta iota.
  rewrite to_N_byte_of_N by div_lia.
  destruct (cont_byte (c mod 64)) as [-> ->]; [div_lia|].
  change 7 with (N.ones 3).
  replace (240 + c / 262144) with (30 * 2 ^ 3 + c / 262144) by reflexivity.
  rewrite land_low by (change (2^3) with 8; div_lia).
  f_equal. f_equal. div_lia.
Qed.

Lemma utf8_decode_encode h s bs :
  utf8_encode s = Some bs -> utf8_decode h bs = Some s.
Proof.
  revert bs. induction s as [|c s IH]; intros bs; cbn [utf8_encode].
  - intros [= <-]. reflexivity.
  - destruct (utf8_encode_char c) as [cb|] eqn:Hc; [|discriminate].
    destruct (utf8_encode s) as [rest|]; [|discriminate].
    intros [= <-]. rewrite (utf8_decode_encode_char h c cb rest Hc).
    rewrite (IH rest eq_refl). reflexivity.
Qed.

End Utf8RoundTrip.

Section SaveOutput.

Variable shell : Shell.

(** [save_output] past its two guards, on a path that does not end in
    ".docx". *)
Lemma save_output_text app w :
  strip (result_text app) ≠ [] ->
  asksaveasfilename shell ≠ "" ->
  str_endswith (asksaveasfilename shell) ".docx" = false ->
  save_output shell app w
  = match write_text shell (asksaveasfilename shell) (result_text app) w with
    | (Ok _, w') =>
      (Ok tt,
       add_message (showinfo "Saved" ("OCR output saved to:" +:+ newline
                                      +:+ asksaveasfilename shell))
         (set_status ("Saved output: " +:+ basename (asksaveasfilename shell)) app),
       w')
    | (Raise e, w') =>
      (Ok tt, add_message (showerror "Save Error" (exn_msg e)) app, w')
    end.
Proof.
  intros Htext Hpath Hext. unfold save_output, ui_bind at 1, get_self.
  destruct (decide (strip (result_text app) = [])) as [Hbad|_]; [contradiction|].
  destruct (decide (asksaveasfilename shell = "")) as [Hbad|_]; [contradiction|].
  rewrite Hext. unfold try_except_Exception, ui_bind, lift, update, messagebox,
    update.
  destruct (write_text shell _ _ w) as [[[]|e] w']; reflexivity.
Qed.

(** X15.  Saving as plain text.  With a non-blank result and a chosen path
    that does not end in ".docx" (the test is case-sensitive, so "x.DOCX" is
    such a path), the file receives the UTF-8 encoding of the result: decoded
    strictly it gives the result back, code point for code point.  The status
    line names the file and a "Saved" dialog is shown. *)
Theorem save_output_text_round_trip app w bs :
  strip (result_text app) ≠ [] ->
  asksaveasfilename shell ≠ "" ->
  str_endswith (asksaveasfilename shell) ".docx" = false ->
  open_for_write shell (asksaveasfilename shell) (files w) = None ->
  utf8_encode (result_text app) = Some bs ->
  save_output shell app w
  = (Ok tt,
     add_message (showinfo "Saved" ("OCR output saved to:" +:+ newline
                                    +:+ asksaveasfilename shell))
       (set_status ("Saved output: " +:+ basename (asksaveasfilename shell)) app),
     {| files := <[asksaveasfilename shell := bs]> (files w); trace := trace w |})
  /\ utf8_decode Strict bs = Some (result_text app).
Proof.
  intros Htext Hpath Hext Hopen Henc.
  rewrite (save_output_text _ _ Htext Hpath Hext).
  unfold write_text. rewrite Hopen, Henc.
  split; [reflexivity|]. apply utf8_decode_encode. exact Henc.
Qed.

(** X16.  Saving a result that cannot be encoded (it holds a surrogate code
    point): the failure is shown in a "Save Error" dialog, the status line is
    not touched, and the file at the chosen path is left empty, whatever it
    held before. *)
Theorem save_output_unencodable_truncates app w :
  strip (result_text app) ≠ [] ->
  asksaveasfilename shell ≠ "" ->
  str_endswith (asksaveasfilename shell) ".docx" = false ->
  open_for_write shell (asksaveasfilename shell) (files w) = None ->
  utf8_encode (result_text app) = None ->
  exists msg,
    save_output shell app w
    = (Ok tt, add_message (showerror "Save Error" msg) app,
       {| files := <[asksaveasfilename shell := []]> (files w);
          trace := trace w |}).
Proof.
  intros Htext Hpath Hext Hopen Henc.
  rewrite (save_output_text _ _ Htext Hpath Hext).
  unfold write_text. rewrite Hopen, Henc. eexists. reflexivity.
Qed.

Lemma save_output_blank app w :
  strip (result_text app) = [] ->
  save_output shell app w
  = (Ok tt,
     add_message (showwarning "No text" "Please run OCR before saving.") app, w).
Proof.
  intros Hblank. unfold save_output, ui_bind at 1, get_self.
  destruct (decide (strip (result_text app) = [])) as [_|Hbad]; [|contradiction].
  reflexivity.
Qed.

Lemma save_output_cancelled app w :
  strip (result_text app) ≠ [] ->
  asksaveasfilename shell = "" ->
  save_output shell app w = (Ok tt, app, w).
Proof.
  intros Htext Hcancel. unfold save_output, ui_bind at 1, get_self.
  destruct (decide (strip (result_text app) = [])) as [Hbad|_]; [contradiction|].
  destruct (decide (asksaveasfilename shell = "")) as [_|Hbad]; [|contradiction].
  reflexivity.
Qed.

Lemma save_output_written app w :
  strip (result_text app) ≠ [] ->
  asksaveasfilename shell ≠ "" ->
  (save_output shell app w).1.1 = Ok tt.
Proof.
  intros Htext Hpath. unfold save_output, ui_bind at 1, get_self.
  destruct (decide (strip (result_text app) = [])) as [Hbad|_]; [contradiction|].
  destruct (decide (asksaveasfilename shell = "")) as [Hbad|_]; [contradiction|].
  unfold try_except_Exception, ui_bind, lift, update, messagebox, update.
  destruct (str_endswith _ _).
  - destruct (write_docx shell _ _ w) as [[[]|e] w']; reflexivity.
  - destruct (write_text shell _ _ w) as [[[]|e] w']; reflexivity.
Qed.

(** X17.  [save_output] never raises, and it writes nothing when there is
    nothing to save or the dialog was cancelled: with a blank result or an
    empty answer the world is left as it was. *)
Theorem save_output_never_raises app w :
  (save_output shell app w).1.1 = Ok tt
  /\ (strip (result_text app) = [] \/ asksaveasfilename shell = "" ->
      (save_output shell app w).2 = w).
Proof.
  destruct (decide (strip (result_text app) = [])) as [Hblank|Htext].
  { rewrite (save_output_blank _ _ Hblank). split; [reflexivity|]. reflexivity. }
  destruct (decide (asksaveasfilename shell = "")) as [Hcancel|Hpath].
  { rewrite (save_output_cancelled _ _ Htext Hcancel).
    split; [reflexivity|]. reflexivity. }
  split; [apply save_output_written; assumption|].
  intros [H|H]; contradiction.
Qed.

End SaveOutput.

Section DispatchFrame.

Variable env : Env.

Lemma recognize_frame self img_path w q content :
  files w !! q = Some content ->
  (forall argv fs0, fs0 !! q = Some content ->
     (run_process env argv fs0).1 !! q = Some content) ->
  files (recognize env self img_path w).2 !! q = Some content.
Proof.
  intros Hq Hchild. unfold recognize.
  destruct (engine_available env self); cbn [negb]; [|exact Hq].
  unfold bind at 1.
  pose proof (save_temp_png_frame env self img_path w q content Hq) as Hq1.
  destruct (_save_temp_png env self img_path w) as [[tmp|e] w1] eqn:Hs;
    cbn [snd] in Hq1; [|exact Hq1].
  destruct (save_temp_png_fresh env _ _ _ _ _ Hs) as [Hfresh _].
  assert (Hne : tmp ≠ q) by (intros ->; congruence).
  unfold bind at 1.
  destruct (try_finally _ _ w1) as [r wd] eqn:Htry.
  apply try_finally_remove_inv in Htry as (wb & Hbody & ->).
  assert (Hqb : files wb !! q = Some content).
  { destruct (decide (engine self = "gocr")) as [Hg|Hg].
    { unfold bind, subprocess_run, ret in Hbody.
      specialize (Hchild [engine self; tmp] (files w1) Hq1).
      destruct (run_process env _ _) as [fs' [e|proc]]; cbn [fst] in Hchild;
        injection Hbody as _ <-; exact Hchild. }
    destruct (decide (engine self = "cuneiform")) as [Hc|Hc];
      [|injection Hbody as _ <-; exact Hq1].
    unfold bind at 1, mkstemp in Hbody.
    destruct (mkstemp_name env ".txt" (files w1)) as [out|];
      [|injection Hbody as _ <-; exact Hq1].
    destruct (files w1 !! out) eqn:Hout; [injection Hbody as _ <-; exact Hq1|].
    assert (Hno : out ≠ q) by (intros ->; congruence).
    unfold bind at 1, subprocess_run in Hbody. cbn [files trace] in Hbody.
    match type of Hbody with
    | context [run_process env ?argv ?fs0] =>
        assert (Hq2 : (run_process env argv fs0).1 !! q = Some content)
          by (apply Hchild; rewrite lookup_insert_ne by exact Hno; exact Hq1);
        destruct (run_process env argv fs0) as [fs' [e|proc]]
    end; cbn [fst] in Hq2; [injection Hbody as _ <-; exact Hq2|].
    apply try_finally_remove_inv in Hbody as (wr & Hread & ->).
    cbn [files]. rewrite cleanup_lookup_ne by exact Hno.
    unfold bind, open_read, ret, log in Hread. cbn [files trace] in Hread.
    repeat case_match; simplify_eq; exact Hq2. }
  destruct r; cbn [snd ret files]; rewrite cleanup_lookup_ne by exact Hne;
    exact Hqb.
Qed.

(** X18.  [recognize] itself never modifies or deletes a file that existed
    before the call: a file the external process leaves alone is found
    afterwards with the content it had, on every exit path. *)
Theorem recognize_keeps_other_files self img_path w q content :
  files w !! q = Some content ->
  (forall argv fs0, fs0 !! q = Some content ->
     (run_process env argv fs0).1 !! q = Some content) ->
  files (recognize env self img_path w).2 !! q = Some content.
Proof. apply recognize_frame. Qed.

End DispatchFrame.

Section SelectImage.

Variable shell : Shell.

(** X19.  Selecting a PDF (the extension is tested in lower case, so ".PDF"
    counts): the first page, and only the first, is written to the fixed
    relative path "page_temp.png", which becomes the selected image and the
    previewed file; the PDF itself and every other file stay as they
    were. *)
Theorem select_image_pdf app w page pages :
  askopenfilename shell ≠ "" ->
  str_endswith (str_lower (askopenfilename shell)) ".pdf" = true ->
  convert_from_path shell (askopenfilename shell) (files w) = inr (page :: pages) ->
  pil_open shell page = None ->
  select_image shell app w
  = (Ok tt,
     {| ocr := ocr app; image_path := Some "page_temp.png";
        tk_img := Some "page_temp.png"; result_text := result_text app;
        engine_var := engine_var app; lang_var := lang_var app;
        status := "Loaded: page_temp.png"; text_box := text_box app;
        messages := messages app |},
     {| files := <["page_temp.png" := page]> (files w); trace := trace w |}).
Proof.
  intros Hpath Hpdf Hconv Hopen. unfold select_image.
  destruct (decide (askopenfilename shell = "")) as [Hbad|_]; [contradiction|].
  rewrite Hpdf.
  unfold ui_bind, update, lift, ui_ret, show_preview, ui_bind, lift, update.
  rewrite Hconv. cbn [files]. rewrite lookup_insert_eq, Hopen. reflexivity.
Qed.

(** X20.  When the PDF cannot be converted the exception leaves
    [select_image], yet the selected path has already been replaced by the
    PDF's path: the previous selection is lost while the preview and the
    status line still show it. *)
Theorem select_image_pdf_failure app w e :
  askopenfilename shell ≠ "" ->
  str_endswith (str_lower (askopenfilename shell)) ".pdf" = true ->
  convert_from_path shell (askopenfilename shell) (files w) = inl e ->
  select_image shell app w
  = (Raise e, set_image_path (Some (askopenfilename shell)) app, w).
Proof.
  intros Hpath Hpdf Hconv. unfold select_image.
  destruct (decide (askopenfilename shell = "")) as [Hbad|_]; [contradiction|].
  rewrite Hpdf. unfold ui_bind, update, lift. rewrite Hconv. reflexivity.
Qed.

End SelectImage.

Section Session.

Variable env : Env.
Variable shell : Shell.

(** X21.  After a recognition that found no text, [save_output] refuses to
    save: it answers with the "Please run OCR before saving." warning, asks
    for no path and writes nothing. *)
Theorem save_after_empty_recognition app w path w' :
  image_path app = Some path -> path ≠ "" ->
  engine_available env (selected app) = true ->
  recognize env (selected app) path w = (Ok (VStr []), w') ->
  exists app1,
    run_ocr env app w = (Ok tt, app1, w')
    /\ save_output shell app1 w'
       = (Ok tt,
          add_message (showwarning "No text" "Please run OCR before saving.") app1,
          w').
Proof.
  intros Hpath Hne Hav Hrec.
  rewrite (run_ocr_dispatch _ _ _ _ Hpath Hne Hav), Hrec.
  eexists. split; [reflexivity|].
  apply save_output_blank. reflexivity.
Qed.

End Session.

(** * The template generator *)

(** X22.  The noise step cannot brighten a pixel past 255, but neither does
    it saturate there: the sum is taken in [uint8] and wraps, so [np.clip]
    has nothing left to clip.  A pixel [a] with noise [n] becomes [a + n]
    when that fits in a byte and [a + n - 256], a value below 19, when it
    does not. *)
Theorem add_noise_wraps arr noise i j rowa rown a n :
  arr !! i = Some rowa -> rowa !! j = Some a ->
  noise !! i = Some rown -> rown !! j = Some n ->
  0 <= a <= 255 -> 0 <= n < 20 ->
  exists rowr r,
    add_noise arr noise !! i = Some rowr /\ rowr !! j = Some r
    /\ (a + n <= 255 -> r = a + n)
    /\ (255 < a + n -> r = a + n - 256 /\ r < 19).
Proof.
  intros Hra Ha Hrn Hn Hab Hnb. unfold add_noise, image in *.
  exists (zip_with (fun a n => clip (uint8_add a n) 0 255) rowa rown),
         (clip (uint8_add a n) 0 255).
  split; [rewrite lookup_zip_with, Hra, Hrn; reflexivity|].
  split; [rewrite lookup_zip_with, Ha, Hn; reflexivity|].
  unfold clip, uint8_add.
  split; intros Hsum; Z.to_euclidean_division_equations; lia.
Qed.

Section FileNames.

Variable isalnum_beyond_ascii : N -> bool.

Lemma text_of_app s1 s2 : text_of (s1 +:+ s2) = text_of s1 ++ text_of s2.
Proof.
  induction s1 as [|a s1 IH]; [reflexivity|].
  change (Ascii.N_of_ascii a :: text_of (s1 +:+ s2)
          = Ascii.N_of_ascii a :: (text_of s1 ++ text_of s2)).
  f_equal. exact IH.
Qed.

Lemma text_of_inj s1 s2 : text_of s1 = text_of s2 -> s1 = s2.
Proof.
  revert s2. induction s1 as [|a s1 IH]; intros [|b s2]; cbn;
    try discriminate; [reflexivity|].
  intros [= Hab Hs]. f_equal; [|apply IH; exact Hs].
  rewrite <- (Ascii.ascii_N_embedding a), <- (Ascii.ascii_N_embedding b), Hab.
  reflexivity.
Qed.

Lemma pretty_N_char_digit x : is_digit (Ascii.N_of_ascii (pretty_N_char x)).
Proof.
  unfold pretty_N_char, is_digit.
  repeat match goal with |- context [match ?x with _ => _ end] => destruct x end;
    cbn; lia.
Qed.

Lemma pretty_N_go_digits x s :
  Forall is_digit (text_of s) -> Forall is_digit (text_of (pretty_N_go x s)).
Proof.
  revert s. induction (N.lt_wf_0 x) as [x _ IH]. intros s Hs.
  destruct (decide (x = 0%N)) as [->|Hx]; [rewrite pretty_N_go_0; exact Hs|].
  rewrite pretty_N_go_step by lia.
  apply IH; [apply N.div_lt; lia|].
  cbn [text_of]. constructor; [apply pretty_N_char_digit|exact Hs].
Qed.

Lemma pretty_N_digits (x : N) : Forall is_digit (text_of (pretty x)).
Proof.
  unfold pretty, pretty_N. destruct (decide (x = 0%N)).
  - cbn. repeat constructor; unfold is_digit; lia.
  - apply pretty_N_go_digits. constructor.
Qed.

Lemma pretty_nat_digits (i : nat) : Forall is_digit (text_of (pretty i)).
Proof. apply pretty_N_digits. Qed.

(** Two texts cut at their first non-digit. *)
Lemma digits_pivot (l1 l2 r1 r2 : ustring) x :
  Forall is_digit l1 -> Forall is_digit l2 -> ~ is_digit x ->
  l1 ++ x :: r1 = l2 ++ x :: r2 -> l1 = l2 /\ r1 = r2.
Proof.
  intros H1. revert l2. induction H1 as [|a l1 Ha _ IH]; intros l2 H2 Hx Heq.
  - destruct H2 as [|b l2 Hb _]; [injection Heq as ->; auto|].
    cbn in Heq. injection Heq as <- _. contradiction.
  - destruct H2 as [|b l2 Hb H2].
    + cbn in Heq. injection Heq as -> _. contradiction.
    + cbn in Heq. injection Heq as -> Heq.
      destruct (IH l2 H2 Hx Heq) as [-> ->]. auto.
Qed.

Lemma filename_alnum c i :
  isalnum isalnum_beyond_ascii c = true ->
  filename isalnum_beyond_ascii c i = c :: 95%N :: text_of (pretty i) ++ text_of ".png".
Proof.
  intros Hc. unfold filename, safe_char. rewrite Hc.
  cbn [app]. rewrite !text_of_app. reflexivity.
Qed.

Lemma filename_symbol c i :
  isalnum isalnum_beyond_ascii c = false ->
  filename isalnum_beyond_ascii c i
  = text_of "sym_" ++ text_of (pretty c) ++ 95%N :: text_of (pretty i)
    ++ text_of ".png".
Proof.
  intros Hc. unfold filename, safe_char. rewrite Hc.
  rewrite !text_of_app, <- !app_assoc. reflexivity.
Qed.

Lemma not_digit_95 : ~ is_digit 95%N.
Proof. unfold is_digit. lia. Qed.

Lemma sample_index_inj (i1 i2 : nat) (t : ustring) :
  text_of (pretty i1) ++ t = text_of (pretty i2) ++ t -> i1 = i2.
Proof.
  intros H. apply app_inv_tail in H. apply text_of_inj in H.
  apply (inj pretty). exact H.
Qed.

Lemma filename_inj c1 i1 c2 i2 :
  filename isalnum_beyond_ascii c1 i1 = filename isalnum_beyond_ascii c2 i2 ->
  c1 = c2 /\ i1 = i2.
Proof.
  destruct (isalnum isalnum_beyond_ascii c1) eqn:H1,
    (isalnum isalnum_beyond_ascii c2) eqn:H2.
  - rewrite (filename_alnum _ _ H1), (filename_alnum _ _ H2).
    intros [= -> Hi]. split; [reflexivity|]. exact (sample_index_inj _ _ _ Hi).
  - rewrite (filename_alnum _ _ H1), (filename_symbol _ _ H2).
    cbn. discriminate.
  - rewrite (filename_symbol _ _ H1), (filename_alnum _ _ H2).
    cbn. discriminate.
  - rewrite (filename_symbol _ _ H1), (filename_symbol _ _ H2).
    intros Heq. apply app_inv_head in Heq.
    apply digits_pivot in Heq as [Hc Hi];
      [|apply pretty_N_digits..|apply not_digit_95].
    split; [|exact (sample_index_inj _ _ _ Hi)].
    apply text_of_inj in Hc. apply (inj pretty). exact Hc.
Qed.

(** X23.  File names identify what they hold: two samples get the same name
    exactly when they are the same sample of the same character, also when
    one character is written out as "sym_<code>" and the other is not. *)
Theorem filename_injective c1 i1 c2 i2 :
  filename isalnum_beyond_ascii c1 i1 = filename isalnum_beyond_ascii c2 i2
  <-> c1 = c2 /\ i1 = i2.
Proof.
  split; [apply filename_inj|]. intros [-> ->]. reflexivity.
Qed.

Lemma isalnum_not_slash c : isalnum isalnum_beyond_ascii c = true -> c ≠ 47%N.
Proof. intros Hc ->. discriminate Hc. Qed.

Lemma filename_head c i :
  exists x rest, filename isalnum_beyond_ascii c i = x :: rest /\ x ≠ 47%N.
Proof.
  destruct (isalnum isalnum_beyond_ascii c) eqn:Hc.
  - rewrite (filename_alnum _ _ Hc). do 2 eexists. split; [reflexivity|].
    apply isalnum_not_slash. exact Hc.
  - rewrite (filename_symbol _ _ Hc). do 2 eexists. split; [reflexivity|].
    discriminate.
Qed.

Lemma path_join_relative dir x rest :
  x ≠ 47%N -> path_join dir (x :: rest) = path_join dir [] ++ x :: rest.
Proof.
  intros Hx. unfold path_join. cbn [head].
  destruct (decide (Some x = Some 47%N)) as [[= Hbad]|_]; [contradiction|].
  destruct (decide (None = Some 47%N)) as [Hbad|_]; [discriminate Hbad|].
  destruct (last dir) as [y|]; [|reflexivity].
  destruct (decide (y = 47%N)); rewrite ?app_nil_r, <- ?app_assoc; reflexivity.
Qed.

Lemma path_join_filename dir c i :
  path_join dir (filename isalnum_beyond_ascii c i)
  = path_join dir [] ++ filename isalnum_beyond_ascii c i.
Proof.
  destruct (filename_head c i) as (x & rest & -> & Hx).
  apply path_join_relative. exact Hx.
Qed.

Lemma length_bind_singleton {A B} (g : A -> B) (l : list A) :
  length (l ≫= fun x => [g x]) = length l.
Proof. induction l as [|a l IH]; [reflexivity|]. cbn. f_equal. exact IH. Qed.

(** X24.  With no character repeated in the character set, the paths written
    are pairwise distinct strings and there are
    [len(charset) * samples_per_char] of them: where file names are told
    apart by their exact spelling no sample overwrites another, and the count
    printed at the end is the number of files written. *)
Theorem dataset_paths_distinct dir charset n :
  NoDup charset ->
  NoDup (dataset_paths isalnum_beyond_ascii dir charset n)
  /\ length (dataset_paths isalnum_beyond_ascii dir charset n)
     = (length charset * n)%nat.
Proof.
  intros Hnd. unfold dataset_paths. split.
  - apply NoDup_bind; [| |exact Hnd].
    + intros c1 c2 p _ _ H1 H2.
      apply list_elem_of_bind in H1 as (i1 & H1 & _).
      apply list_elem_of_bind in H2 as (i2 & H2 & _).
      apply list_elem_of_singleton in H1, H2. subst p.
      rewrite !path_join_filename in H2. apply app_inv_head in H2.
      apply filename_inj in H2 as [-> _]. reflexivity.
    + intros c _. apply NoDup_bind; [| |apply NoDup_seq].
      * intros i1 i2 p _ _ H1 H2.
        apply list_elem_of_singleton in H1, H2. subst p.
        rewrite !path_join_filename in H2. apply app_inv_head in H2.
        apply filename_inj in H2 as [_ ->]. reflexivity.
      * intros i _. apply NoDup_singleton.
  - induction charset as [|c cs IH]; [reflexivity|].
    rewrite bind_cons, length_app, length_bind_singleton, length_seq.
    inversion Hnd; subst. rewrite IH by assumption. cbn. lia.
Qed.

Lemma digit_not_slash c : is_digit c -> c ≠ 47%N.
Proof. unfold is_digit. lia. Qed.

Lemma filename_no_slash c i : 47%N ∉ filename isalnum_beyond_ascii c i.
Proof.
  assert (Hd : forall n : N, 47%N ∉ text_of (pretty n)).
  { intros n Hin. pose proof (pretty_N_digits n) as Hall.
    rewrite Forall_forall in Hall. apply Hall in Hin.
    exact (digit_not_slash _ Hin eq_refl). }
  assert (Hpng : 47%N ∉ text_of ".png").
  { cbn. intros Hin. repeat (apply elem_of_cons in Hin as [Hin|Hin];
                             [discriminate Hin|]). inversion Hin. }
  destruct (isalnum isalnum_beyond_ascii c) eqn:Hc.
  - rewrite (filename_alnum _ _ Hc). intros Hin.
    apply elem_of_cons in Hin as [Hin|Hin];
      [exact (isalnum_not_slash _ Hc (eq_sym Hin))|].
    apply elem_of_cons in Hin as [Hin|Hin]; [discriminate Hin|].
    apply elem_of_app in Hin as [Hin|Hin]; [exact (Hd _ Hin)|exact (Hpng Hin)].
  - rewrite (filename_symbol _ _ Hc). intros Hin.
    apply elem_of_app in Hin as [Hin|Hin].
    { cbn in Hin. repeat (apply elem_of_cons in Hin as [Hin|Hin];
                          [discriminate Hin|]). inversion Hin. }
    apply elem_of_app in Hin as [Hin|Hin]; [exact (Hd _ Hin)|].
    apply elem_of_cons in Hin as [Hin|Hin]; [discriminate Hin|].
    apply elem_of_app in Hin as [Hin|Hin]; [exact (Hd _ Hin)|exact (Hpng Hin)].
Qed.

(** X25.  Every file is written directly inside the output directory: each
    path is the directory prefix, as [os.path.join] forms it, followed by a
    name without a path separator, whatever characters the set holds (a
    slash in the set is written as "sym_47"). *)
Theorem dataset_paths_inside dir charset n p :
  p ∈ dataset_paths isalnum_beyond_ascii dir charset n ->
  exists c i,
    c ∈ charset /\ (i < n)%nat
    /\ p = path_join dir [] ++ filename isalnum_beyond_ascii c i
    /\ 47%N ∉ filename isalnum_beyond_ascii c i.
Proof.
  unfold dataset_paths. intros Hin.
  apply list_elem_of_bind in Hin as (c & Hin & Hc).
  apply list_elem_of_bind in Hin as (i & Hin & Hi).
  apply list_elem_of_singleton in Hin. subst p.
  exists c, i. split; [exact Hc|]. split.
  { apply elem_of_seq in Hi. lia. }
  split; [apply path_join_filename|apply filename_no_slash].
Qed.

End FileNames.

(** * What is recognized can be saved *)

Section Scalars.

Local Open Scope N_scope.

Ltac div_lia := zify; Z.to_euclidean_division_equations; lia.

Lemma land_ones_lt a k : N.land a (N.ones k) < 2 ^ k.
Proof. rewrite N.land_ones. apply N.mod_lt. apply N.pow_nonzero. lia. Qed.

Lemma land_ones_eq a k : N.land a (N.ones k) = a mod 2 ^ k.
Proof. apply N.land_ones. Qed.

Lemma utf8_encode_char_scalar c : is_scalar c -> is_Some (utf8_encode_char c).
Proof.
  unfold is_scalar, utf8_encode_char. intros Hc.
  destruct (c <? 128); [eauto|].
  destruct (c <? 2048); [eauto|].
  destruct (c <? 65536) eqn:H3.
  - destruct ((55296 <=? c) && (c <? 57344)) eqn:Hs; [|eauto].
    apply andb_true_iff in Hs as [H1 H2].
    apply N.leb_le in H1. apply N.ltb_lt in H2. lia.
  - destruct (c <? 1114112) eqn:H4; [eauto|].
    apply N.ltb_ge in H4. lia.
Qed.

Lemma utf8_encode_scalars s : Forall is_scalar s -> is_Some (utf8_encode s).
Proof.
  induction 1 as [|c s Hc _ [rest IH]]; cbn [utf8_encode]; [eauto|].
  destruct (utf8_encode_char_scalar c Hc) as [bs ->]. rewrite IH. eauto.
Qed.

Lemma on_error_scalars h k s :
  on_error h k = Some s ->
  (forall s', k = Some s' -> Forall is_scalar s') -> Forall is_scalar s.
Proof.
  destruct h; cbn [on_error]; [discriminate|auto|].
  destruct k as [s'|]; [|discriminate]. intros [= <-] Hk.
  constructor; [unfold is_scalar; lia|auto].
Qed.

Lemma fmap_cons_scalars c (k : option ustring) s :
  cons c <$> k = Some s ->
  is_scalar c ->
  (forall s', k = Some s' -> Forall is_scalar s') -> Forall is_scalar s.
Proof.
  destruct k as [s'|]; [|discriminate]. intros [= <-] Hc Hk.
  constructor; [exact Hc|auto].
Qed.

Lemma is_cont_range b : is_cont b = true -> 128 <= b < 192.
Proof.
  unfold is_cont. intros H. apply andb_true_iff in H as [H1 H2].
  apply N.leb_le in H1. apply N.ltb_lt in H2. lia.
Qed.

Lemma cont_bits_eq b : 128 <= b < 192 -> cont_bits b = b - 128.
Proof.
  intros Hb. unfold cont_bits. change 63 with (N.ones 6).
  rewrite land_ones_eq. change (2 ^ 6) with 64. div_lia.
Qed.

(** Whatever the bytes and the error handler, the decoder only produces
    scalar values. *)
Lemma utf8_decode_scalars h bs s :
  utf8_decode h bs = Some s -> Forall is_scalar s.
Proof.
  remember (length bs) as n eqn:Hn. revert bs s Hn.
  induction n as [n IH] using lt_wf_ind. intros bs s Hn.
  assert (Hrec : forall t, (length t < length bs)%nat ->
                   forall s', utf8_decode h t = Some s' -> Forall is_scalar s').
  { intros t Hlt s' Hs'. apply (IH (length t)) with (bs := t); [lia|reflexivity|exact Hs']. }
  clear IH Hn.
  destruct bs as [|x0 t0]; [intros [= <-]; constructor|].
  cbn [utf8_decode]. cbv zeta.
  set (b0 := Byte.to_N x0).
  assert (Herr0 : forall s0, on_error h (utf8_decode h t0) = Some s0 ->
                    Forall is_scalar s0).
  { intros s0 H0. apply (on_error_scalars _ _ _ H0). apply Hrec. cbn. lia. }
  assert (Hend : forall s0, on_error h (Some []) = Some s0 -> Forall is_scalar s0).
  { intros s0 H0. apply (on_error_scalars _ _ _ H0). intros s' [= <-]. constructor. }
  destruct (b0 <? 128) eqn:H128.
  { apply N.ltb_lt in H128. intros H. apply (fmap_cons_scalars _ _ _ H).
    - unfold is_scalar. lia.
    - apply Hrec. cbn. lia. }
  apply N.ltb_ge in H128.
  destruct (b0 <? 194) eqn:H194; [apply Herr0|]. apply N.ltb_ge in H194.
  destruct (b0 <? 224) eqn:H224.
  { apply N.ltb_lt in H224. destruct t0 as [|x1 t1]; [apply Hend|].
    set (b1 := Byte.to_N x1).
    destruct (is_cont b1) eqn:Hc1; [|apply Herr0].
    apply is_cont_range in Hc1. intros H. apply (fmap_cons_scalars _ _ _ H).
    - rewrite (cont_bits_eq _ Hc1). change 31 with (N.ones 5).
      rewrite land_ones_eq. change (2 ^ 5) with 32. unfold is_scalar. div_lia.
    - apply Hrec. cbn. lia. }
  apply N.ltb_ge in H224.
  destruct (b0 <? 240) eqn:H240.
  { apply N.ltb_lt in H240. destruct t0 as [|x1 t1]; [apply Hend|].
    set (b1 := Byte.to_N x1).
    destruct (negb (is_cont b1) || (b0 =? 224) && (b1 <? 160)
              || (b0 =? 237) && (160 <=? b1)) eqn:Hbad; [apply Herr0|].
    apply orb_false_iff in Hbad as [Hbad Hed].
    apply orb_false_iff in Hbad as [Hc1 He0].
    apply negb_false_iff, is_cont_range in Hc1.
    destruct t1 as [|x2 t2]; [apply Hend|].
    set (b2 := Byte.to_N x2).
    destruct (is_cont b2) eqn:Hc2.
    2:{ intros H. apply (on_error_scalars _ _ _ H). apply Hrec. cbn. lia. }
    apply is_cont_range in Hc2. intros H. apply (fmap_cons_scalars _ _ _ H).
    - rewrite (cont_bits_eq _ Hc1), (cont_bits_eq _ Hc2).
      change 15 with (N.ones 4). rewrite land_ones_eq. change (2 ^ 4) with 16.
      apply andb_false_iff in Hed as [Hed|Hed];
        [apply N.eqb_neq in Hed|apply N.leb_gt in Hed];
        unfold is_scalar; div_lia.
    - apply Hrec. cbn. lia. }
  apply N.ltb_ge in H240.
  destruct (b0 <? 245) eqn:H245; [|apply Herr0].
  apply N.ltb_lt in H245. destruct t0 as [|x1 t1]; [apply Hend|].
  set (b1 := Byte.to_N x1).
  destruct (negb (is_cont b1) || (b0 =? 240) && (b1 <? 144)
            || (b0 =? 244) && (144 <=? b1)) eqn:Hbad; [apply Herr0|].
  apply orb_false_iff in Hbad as [Hbad Hf4].
  apply orb_false_iff in Hbad as [Hc1 Hf0].
  apply negb_false_iff, is_cont_range in Hc1.
  destruct t1 as [|x2 t2]; [apply Hend|].
  set (b2 := Byte.to_N x2).
  destruct (negb (is_cont b2)) eqn:Hc2.
  { intros H. apply (on_error_scalars _ _ _ H). apply Hrec. cbn. lia. }
  apply negb_false_iff, is_cont_range in Hc2.
  destruct t2 as [|x3 t3]; [apply Hend|].
  set (b3 := Byte.to_N x3).
  destruct (is_cont b3) eqn:Hc3.
  2:{ intros H. apply (on_error_scalars _ _ _ H). apply Hrec. cbn. lia. }
  apply is_cont_range in Hc3. intros H. apply (fmap_cons_scalars _ _ _ H).
  - rewrite (cont_bits_eq _ Hc1), (cont_bits_eq _ Hc2), (cont_bits_eq _ Hc3).
    change 7 with (N.ones 3). rewrite land_ones_eq. change (2 ^ 3) with 8.
    apply andb_false_iff in Hf0 as [Hf0|Hf0];
      [apply N.eqb_neq in Hf0|apply N.ltb_ge in Hf0];
      (apply andb_false_iff in Hf4 as [Hf4|Hf4];
        [apply N.eqb_neq in Hf4|apply N.leb_gt in Hf4]);
      unfold is_scalar; div_lia.
  - apply Hrec. cbn. lia.
Qed.

Lemma universal_newlines_scalars s :
  Forall is_scalar s -> Forall is_scalar (universal_newlines s).
Proof.
  remember (length s) as n eqn:Hn. revert s Hn.
  induction n as [n IH] using lt_wf_ind. intros s Hn Hs.
  destruct s as [|c s']; [constructor|].
  inversion Hs as [|? ? Hc Hs']; subst. cbn [universal_newlines].
  assert (H10 : is_scalar 10) by (unfold is_scalar; lia).
  destruct (c =? 13).
  - destruct s' as [|d s'']; [repeat constructor; exact H10|].
    inversion Hs' as [|? ? Hd Hs'']; subst.
    destruct (d =? 10); constructor; try exact H10.
    + apply (IH (length s'')); [cbn; lia|reflexivity|exact Hs''].
    + apply (IH (length (d :: s''))); [cbn; lia|reflexivity|exact Hs'].
  - constructor; [exact Hc|].
    apply (IH (length s')); [cbn; lia|reflexivity|exact Hs'].
Qed.

Lemma lstrip_scalars s : Forall is_scalar s -> Forall is_scalar (lstrip s).
Proof.
  induction 1 as [|c s Hc Hs IH]; cbn [lstrip]; [constructor|].
  destruct (is_space c); [exact IH|constructor; assumption].
Qed.

Lemma strip_scalars s : Forall is_scalar s -> Forall is_scalar (strip s).
Proof.
  intros Hs. unfold strip, rstrip.
  apply Forall_forall. intros c Hc.
  apply list_elem_of_In, in_rev, list_elem_of_In in Hc.
  revert c Hc. apply Forall_forall, lstrip_scalars.
  apply Forall_forall. intros c Hc.
  apply list_elem_of_In, in_rev, list_elem_of_In in Hc.
  revert c Hc. apply Forall_forall, lstrip_scalars. exact Hs.
Qed.

End Scalars.

Section Encodable.

Variable env : Env.

(** X26.  Whatever bytes cuneiform wrote, the text [recognize] returns for it
    holds only code points UTF-8 can encode (no surrogate survives the
    decoder), so writing it to a text file cannot fail in the encoder. *)
Theorem recognize_cuneiform_text_is_encodable self img_path w t w' :
  engine self = "cuneiform" ->
  recognize env self img_path w = (Ok (VStr t), w') ->
  Forall is_scalar t /\ is_Some (utf8_encode t).
Proof.
  intros He. unfold recognize.
  destruct (engine_available env self); cbn [negb]; [|discriminate].
  unfold bind at 1.
  destruct (_save_temp_png env self img_path w) as [[tmp|e] w1]; [|discriminate].
  unfold bind at 1.
  destruct (try_finally _ _ w1) as [[t0|e] w2] eqn:Htry; [|discriminate].
  unfold ret. intros [= <- <-].
  apply try_finally_remove_inv in Htry as (wb & Hbody & _).
  destruct (decide (engine self = "gocr")) as [Hg|_]; [congruence|].
  destruct (decide (engine self = "cuneiform")) as [_|Hc]; [|contradiction].
  unfold bind at 1 in Hbody.
  destruct (mkstemp env ".txt" w1) as [[out|e] w3]; [|discriminate].
  unfold bind at 1 in Hbody.
  destruct (subprocess_run env _ w3) as [[proc|e] w4]; [|discriminate].
  apply try_finally_remove_inv in Hbody as (wc & Hread & _).
  unfold bind, open_read, ret in Hread.
  destruct (files w4 !! out) as [bs|]; [|discriminate].
  destruct (utf8_decode Ignore bs) as [s|] eqn:Hs; [|discriminate].
  injection Hread as <- _.
  assert (Hsc : Forall is_scalar (strip (universal_newlines s))).
  { apply strip_scalars, universal_newlines_scalars.
    exact (utf8_decode_scalars _ _ _ Hs). }
  split; [exact Hsc|apply utf8_encode_scalars; exact Hsc].
Qed.

End Encodable.

(** * From a PDF to its text *)

Section PdfSession.

Variable env : Env.
Variable shell : Shell.

Lemma run_ocr_frame app w q content :
  files w !! q = Some content ->
  (forall argv fs0, fs0 !! q = Some content ->
     (run_process env argv fs0).1 !! q = Some content) ->
  files (run_ocr env app w).2 !! q = Some content.
Proof.
  intros Hq Hchild.
  destruct (image_path app) as [path|] eqn:Hpath.
  2:{ unfold run_ocr, ui_bind, get_self. rewrite Hpath. exact Hq. }
  destruct (decide (path = "")) as [->|Hne].
  { unfold run_ocr, ui_bind, get_self. rewrite Hpath. exact Hq. }
  destruct (engine_available env (selected app)) eqn:Hav.
  - rewrite (run_ocr_dispatch _ _ _ _ Hpath Hne Hav).
    pose proof (recognize_frame env (selected app) path w q content Hq Hchild) as H.
    destruct (recognize env (selected app) path w) as [[[t|r]|e] w']; exact H.
  - rewrite (run_ocr_missing _ _ _ _ Hpath Hne Hav). exact Hq.
Qed.

(** X27.  The page image written when a PDF is selected is what the
    recognition is then run on, and nothing removes it: after [select_image]
    on a PDF followed by [run_ocr], the selected image is still
    "page_temp.png" and that file is still there with the first page in it,
    as long as the engine process leaves it alone. *)
Theorem pdf_page_outlives_recognition app w page pages :
  askopenfilename shell ≠ "" ->
  str_endswith (str_lower (askopenfilename shell)) ".pdf" = true ->
  convert_from_path shell (askopenfilename shell) (files w) = inr (page :: pages) ->
  pil_open shell page = None ->
  (forall argv fs0, fs0 !! "page_temp.png" = Some page ->
     (run_process env argv fs0).1 !! "page_temp.png" = Some page) ->
  exists app1 w1,
    select_image shell app w = (Ok tt, app1, w1)
    /\ image_path (run_ocr env app1 w1).1.2 = Some "page_temp.png"
    /\ files (run_ocr env app1 w1).2 !! "page_temp.png" = Some page.
Proof.
  intros Hpath Hpdf Hconv Hopen Hchild. unfold select_image.
  destruct (decide (askopenfilename shell = "")) as [Hbad|_]; [contradiction|].
  rewrite Hpdf.
  unfold ui_bind, update, lift, ui_ret, show_preview, ui_bind, lift, update.
  rewrite Hconv. cbn [files]. rewrite lookup_insert_eq, Hopen.
  do 2 eexists. split; [reflexivity|]. split.
  - match goal with
    | |- image_path (run_ocr env ?a ?w0).1.2 = _ =>
        set (app1 := a); set (w1 := w0)
    end.
    assert (Hsel : image_path app1 = Some "page_temp.png") by reflexivity.
    destruct (engine_available env (selected app1)) eqn:Hav.
    + rewrite (run_ocr_dispatch _ _ _ _ Hsel ltac:(discriminate) Hav).
      destruct (recognize env (selected app1) "page_temp.png" w1)
        as [[[t|r]|e] w']; reflexivity.
    + rewrite (run_ocr_missing _ _ _ _ Hsel ltac:(discriminate) Hav). reflexivity.
  - apply run_ocr_frame; [|exact Hchild].
    cbn [files]. apply lookup_insert_eq.
Qed.

End PdfSession.

(** * Concrete sessions *)

Module Sessions.
Import Reference Desk.

(** A stub gocr printing HELLO and a newline: the raster "/tmp/tmpa.png" is
    gone after the call. *)
Lemma recognize_removes_raster_witness :
  files (recognize (upright ["gocr"] (echo_stdout (text_of "HELLO" ++ [10%N]) [] 0))
           gocr_engine "page.png" (world_with line_page)).2 !! "/tmp/tmpa.png"
  = None.
Proof.
  set (env := upright ["gocr"] (echo_stdout (text_of "HELLO" ++ [10%N]) [] 0)).
  apply (recognize_removes_raster env gocr_engine "page.png" (world_with line_page)
           "/tmp/tmpa.png"
           (_save_temp_png env gocr_engine "page.png" (world_with line_page)).2
           (recognize env gocr_engine "page.png" (world_with line_page)).1).
  - vm_compute. reflexivity.
  - vm_compute. reflexivity.
  - vm_compute. reflexivity.
  - reflexivity.
Defined.

(** An installed engine the class does not know. *)
Lemma recognize_unsupported_engine_witness :
  (recognize (upright ["tesseract"] vanished) tesseract_engine "page.png"
     (world_with line_page)).1
  = Raise (Exn ValueError "Unsupported engine: tesseract").
Proof.
  set (env := upright ["tesseract"] vanished).
  rewrite (recognize_unsupported_engine env tesseract_engine "page.png"
             (world_with line_page) "/tmp/tmpa.png"
             (_save_temp_png env tesseract_engine "page.png" (world_with line_page)).2).
  - reflexivity.
  - discriminate.
  - discriminate.
  - vm_compute. reflexivity.
  - vm_compute. reflexivity.
Defined.

(** The stub gocr prints blanks around HELLO. *)
Lemma recognized_text_is_trimmed_witness :
  (forall c, head (text_of "HELLO") = Some c -> is_space c = false)
  /\ (forall c, last (text_of "HELLO") = Some c -> is_space c = false).
Proof.
  set (env := upright ["gocr"]
                 (echo_stdout ([32; 9]%N ++ text_of "HELLO" ++ [32; 10]%N) [] 0)).
  apply (recognized_text_is_trimmed env gocr_engine "page.png" (world_with line_page)
           (text_of "HELLO")
           (recognize env gocr_engine "page.png" (world_with line_page)).2).
  vm_compute. reflexivity.
Defined.

(** The source image survives the writing of the raster. *)
Lemma save_temp_png_keeps_existing_files_witness :
  files (_save_temp_png (upright ["gocr"] vanished) gocr_engine "page.png"
           (world_with line_page)).2 !! "page.png"
  = Some (raw_encode line_page).
Proof.
  refine (proj1 (save_temp_png_keeps_existing_files (upright ["gocr"] vanished)
                   gocr_engine "page.png" (world_with line_page) "page.png"
                   (raw_encode line_page) _)).
  vm_compute. reflexivity.
Defined.

(** gocr vanished between the availability check and the launch. *)
Lemma recognize_gocr_run_failure_witness :
  (recognize (upright ["gocr"] vanished) gocr_engine "page.png"
     (world_with line_page)).1
  = Raise (Exn FileNotFoundError "No such file or directory").
Proof.
  erewrite (recognize_gocr_run_failure (upright ["gocr"] vanished) gocr_engine
              "page.png" (world_with line_page));
    [reflexivity | reflexivity | vm_compute; reflexivity | reflexivity
    | reflexivity | vm_compute; reflexivity | reflexivity].
Defined.

(** A stub cuneiform that deletes the file it was asked to write. *)
Lemma recognize_cuneiform_output_missing_witness :
  (recognize (upright ["cuneiform"] delete_output) cuneiform_engine "page.png"
     (world_with line_page)).1
  = Raise (Exn FileNotFoundError "/tmp/tmpa.txt").
Proof.
  erewrite (recognize_cuneiform_output_missing (upright ["cuneiform"] delete_output)
              cuneiform_engine "page.png" (world_with line_page));
    [reflexivity | reflexivity | vm_compute; reflexivity | reflexivity
    | reflexivity | vm_compute; reflexivity | reflexivity
    | vm_compute; reflexivity | reflexivity | vm_compute; reflexivity].
Defined.

(** No temporary text file can be created. *)
Lemma recognize_cuneiform_no_output_file_witness :
  exists e,
    is_OSError e = true
    /\ (recognize (png_only (upright ["cuneiform"] vanished)) cuneiform_engine
          "page.png" (world_with line_page)).1 = Raise e.
Proof.
  edestruct (recognize_cuneiform_no_output_file
               (png_only (upright ["cuneiform"] vanished))
               cuneiform_engine "page.png" (world_with line_page))
    as (e & He & H);
    [reflexivity | vm_compute; reflexivity | reflexivity | reflexivity
    | vm_compute; reflexivity | vm_compute; reflexivity | ].
  exists e. split; [exact He|]. rewrite H. reflexivity.
Defined.

(** The window over a stub gocr printing HELLO. *)
Lemma run_ocr_success_witness :
  (run_ocr (upright ["gocr"] (echo_stdout (text_of "HELLO" ++ [10%N]) [] 0))
     page_selected (world_with line_page)).1
  = (Ok tt,
     {| ocr := gocr_engine; image_path := Some "page.png"; tk_img := None;
        result_text := text_of "HELLO"; engine_var := "gocr"; lang_var := "eng";
        status := "OCR complete (gocr). 5 characters recognized.";
        text_box := text_of "HELLO"; messages := [] |}).
Proof.
  set (env := upright ["gocr"] (echo_stdout (text_of "HELLO" ++ [10%N]) [] 0)).
  rewrite (run_ocr_success env page_selected (world_with line_page) "page.png"
             (text_of "HELLO")
             (recognize env gocr_engine "page.png" (world_with line_page)).2).
  - reflexivity.
  - reflexivity.
  - discriminate.
  - vm_compute. reflexivity.
  - vm_compute. reflexivity.
Defined.

(** The window over a gocr that vanished before the launch. *)
Lemma run_ocr_failure_witness :
  (run_ocr (upright ["gocr"] vanished) page_selected (world_with line_page)).1
  = (Ok tt,
     {| ocr := gocr_engine; image_path := Some "page.png"; tk_img := None;
        result_text := []; engine_var := "gocr"; lang_var := "eng";
        status := "Running OCR with gocr...";
        text_box := [];
        messages := [showerror "Error" "No such file or directory"] |}).
Proof.
  set (env := upright ["gocr"] vanished).
  rewrite (run_ocr_failure env page_selected (world_with line_page) "page.png"
             (Exn FileNotFoundError "No such file or directory")
             (recognize env gocr_engine "page.png" (world_with line_page)).2).
  - reflexivity.
  - reflexivity.
  - discriminate.
  - vm_compute. reflexivity.
  - vm_compute. reflexivity.
Defined.

(** The window with nothing installed. *)
Lemma run_ocr_engine_missing_witness :
  messages (run_ocr (upright [] vanished) page_selected (world_with line_page)).1.2
  = [showerror "Engine not found"
       "Selected engine 'gocr' not found in PATH. Install it (e.g., sudo apt install gocr cuneiform) or choose another engine."]
  /\ trace (run_ocr (upright [] vanished) page_selected (world_with line_page)).2 = [].
Proof.
  destruct (run_ocr_engine_missing (upright [] vanished) page_selected
              (world_with line_page) "page.png") as [H Ht].
  - reflexivity.
  - discriminate.
  - vm_compute. reflexivity.
  - split; [rewrite H; reflexivity|exact Ht].
Defined.

(** HELLO saved as "out.txt". *)
Lemma save_output_text_round_trip_witness :
  files (save_output (desk "" "out.txt" (inr [])) (recognized (text_of "HELLO"))
           (world_with line_page)).2 !! "out.txt"
  = Some hello_bytes
  /\ utf8_decode Strict hello_bytes = Some (text_of "HELLO").
Proof.
  destruct (save_output_text_round_trip (desk "" "out.txt" (inr []))
              (recognized (text_of "HELLO")) (world_with line_page) hello_bytes)
    as [H Hd].
  - vm_compute. discriminate.
  - discriminate.
  - vm_compute. reflexivity.
  - reflexivity.
  - vm_compute. reflexivity.
  - split; [rewrite H; reflexivity|exact Hd].
Defined.

(** A result holding a lone surrogate, saved over the source image. *)
Lemma save_output_unencodable_truncates_witness :
  files (save_output (desk "" "page.png" (inr [])) (recognized [65; 55296]%N)
           (world_with line_page)).2 !! "page.png"
  = Some [].
Proof.
  destruct (save_output_unencodable_truncates (desk "" "page.png" (inr []))
              (recognized [65; 55296]%N) (world_with line_page))
    as [msg H].
  - vm_compute. discriminate.
  - discriminate.
  - vm_compute. reflexivity.
  - reflexivity.
  - vm_compute. reflexivity.
  - rewrite H. reflexivity.
Defined.

(** The source image is found unchanged after a recognition. *)
Lemma recognize_keeps_other_files_witness :
  files (recognize (upright ["gocr"] (echo_stdout (text_of "HELLO") [] 0))
           gocr_engine "page.png" (world_with line_page)).2 !! "page.png"
  = Some (raw_encode line_page).
Proof.
  apply (recognize_keeps_other_files
           (upright ["gocr"] (echo_stdout (text_of "HELLO") [] 0))
           gocr_engine "page.png" (world_with line_page) "page.png"
           (raw_encode line_page)).
  - vm_compute. reflexivity.
  - intros argv fs0 H. exact H.
Defined.

(** A two-page "scan.PDF". *)
Lemma select_image_pdf_witness :
  select_image (desk "scan.PDF" "" (inr [hello_bytes; []])) OCRApp_init
    (world_with line_page)
  = (Ok tt,
     {| ocr := gocr_engine; image_path := Some "page_temp.png";
        tk_img := Some "page_temp.png"; result_text := [];
        engine_var := "gocr"; lang_var := "eng";
        status := "Loaded: page_temp.png"; text_box := []; messages := [] |},
     {| files := <["page_temp.png" := hello_bytes]> (files (world_with line_page));
        trace := [] |}).
Proof.
  apply (select_image_pdf (desk "scan.PDF" "" (inr [hello_bytes; []])) OCRApp_init
           (world_with line_page) hello_bytes [[]]).
  - discriminate.
  - vm_compute. reflexivity.
  - reflexivity.
  - reflexivity.
Defined.

(** A PDF that cannot be converted, picked after "page.png". *)
Lemma select_image_pdf_failure_witness :
  select_image (desk "scan.pdf" "" (inl (Exn OtherException "Unable to get page count.")))
    page_selected (world_with line_page)
  = (Raise (Exn OtherException "Unable to get page count."),
     set_image_path (Some "scan.pdf") page_selected, world_with line_page).
Proof.
  apply (select_image_pdf_failure
           (desk "scan.pdf" "" (inl (Exn OtherException "Unable to get page count.")))
           page_selected (world_with line_page)).
  - discriminate.
  - vm_compute. reflexivity.
  - reflexivity.
Defined.

(** A stub gocr that prints only a newline, then the save button. *)
Lemma save_after_empty_recognition_witness :
  exists app1,
    (run_ocr (upright ["gocr"] (echo_stdout [10%N] [] 0)) page_selected
       (world_with line_page)).1 = (Ok tt, app1)
    /\ messages (save_output (desk "" "out.txt" (inr [])) app1
                   (recognize (upright ["gocr"] (echo_stdout [10%N] [] 0))
                      gocr_engine "page.png" (world_with line_page)).2).1.2
       = [showwarning "No text" "Please run OCR before saving."].
Proof.
  set (env := upright ["gocr"] (echo_stdout [10%N] [] 0)).
  destruct (save_after_empty_recognition env (desk "" "out.txt" (inr []))
              page_selected (world_with line_page) "page.png"
              (recognize env gocr_engine "page.png" (world_with line_page)).2)
    as (app1 & Hrun & Hsave).
  - reflexivity.
  - discriminate.
  - vm_compute. reflexivity.
  - vm_compute. reflexivity.
  - exists app1. split; [rewrite Hrun; reflexivity|].
    rewrite Hsave. cbn [fst snd]. unfold add_message. cbn [messages].
    replace app1 with (run_ocr env page_selected (world_with line_page)).1.2
      by (rewrite Hrun; reflexivity).
    vm_compute. reflexivity.
Defined.

(** A pixel of 250 with a noise of 10 becomes 4. *)
Lemma add_noise_wraps_witness :
  exists rowr r,
    add_noise [[250]] [[10]] !! 0%nat = Some rowr /\ rowr !! 0%nat = Some r
    /\ (250 + 10 <= 255 -> r = 250 + 10)
    /\ (255 < 250 + 10 -> r = 250 + 10 - 256 /\ r < 19).
Proof.
  apply (add_noise_wraps [[250]] [[10]] 0%nat 0%nat [250] [10] 250 10);
    [reflexivity | reflexivity | reflexivity | reflexivity | lia | lia].
Defined.

(** The default character set holds no character twice: 94 characters at 50
    samples each give 4700 distinct paths. *)
Lemma dataset_paths_distinct_witness :
  NoDup (dataset_paths (fun _ => false) (text_of "./train_data") default_charset 50)
  /\ length (dataset_paths (fun _ => false) (text_of "./train_data") default_charset 50)
     = (length default_charset * 50)%nat.
Proof.
  apply (dataset_paths_distinct (fun _ => false) (text_of "./train_data")
           default_charset 50).
  assert (H : bool_decide (NoDup default_charset) = true)
    by (vm_compute; reflexivity).
  exact (bool_decide_eq_true_1 _ H).
Defined.

(** The slash of the default character set. *)
Lemma dataset_paths_inside_witness :
  exists c i,
    c ∈ default_charset /\ (i < 1)%nat
    /\ text_of "./train_data/sym_47_0.png"
       = path_join (text_of "./train_data") [] ++ filename (fun _ => false) c i
    /\ 47%N ∉ filename (fun _ => false) c i.
Proof.
  apply (dataset_paths_inside (fun _ => false) (text_of "./train_data")
           default_charset 1 (text_of "./train_data/sym_47_0.png")).
  assert (H : bool_decide
                (text_of "./train_data/sym_47_0.png"
                 ∈ dataset_paths (fun _ => false) (text_of "./train_data")
                     default_charset 1) = true)
    by (vm_compute; reflexivity).
  exact (bool_decide_eq_true_1 _ H).
Defined.

(** The stub cuneiform writing WORLD. *)
Lemma recognize_cuneiform_text_is_encodable_witness :
  Forall is_scalar (text_of "WORLD") /\ is_Some (utf8_encode (text_of "WORLD")).
Proof.
  set (env := upright ["cuneiform"]
                (write_output [Byte.x57; Byte.x4f; Byte.x52; Byte.x4c; Byte.x44;
                               Byte.x0d; Byte.x0a])).
  apply (recognize_cuneiform_text_is_encodable env cuneiform_engine "page.png"
           (world_with line_page) (text_of "WORLD")
           (recognize env cuneiform_engine "page.png" (world_with line_page)).2).
  - reflexivity.
  - vm_compute. reflexivity.
Defined.

(** A two-page "scan.PDF", then the stub gocr. *)
Lemma pdf_page_outlives_recognition_witness :
  exists app1 w1,
    select_image (desk "scan.PDF" "" (inr [raw_encode bar_page; []])) OCRApp_init
      (world_with line_page) = (Ok tt, app1, w1)
    /\ image_path (run_ocr (upright ["gocr"] (echo_stdout (text_of "HELLO") [] 0))
                     app1 w1).1.2 = Some "page_temp.png"
    /\ files (run_ocr (upright ["gocr"] (echo_stdout (text_of "HELLO") [] 0))
                app1 w1).2 !! "page_temp.png" = Some (raw_encode bar_page).
Proof.
  apply (pdf_page_outlives_recognition
           (upright ["gocr"] (echo_stdout (text_of "HELLO") [] 0))
           (desk "scan.PDF" "" (inr [raw_encode bar_page; []])) OCRApp_init
           (world_with line_page) (raw_encode bar_page) [[]]).
  - discriminate.
  - vm_compute. reflexivity.
  - reflexivity.
  - reflexivity.
  - intros argv fs0 H. exact H.
Defined.

End Sessions.
